(** * mmd_tools/core/material.py: the material texture manager [FnMaterial]

    A shallow embedding of the class [FnMaterial] over a model of the
    host's scene store ([bpy.data]).  Host objects are shared and mutated
    in place, so textures and images live in stores keyed by an identity
    and every reference to them (a slot's [texture], a texture's [image])
    is such an identity.  A Python exception that escapes a method is the
    result [None] of the state-and-error monad [M]. *)

From stdpp Require Import base option list strings gmap fin_maps pretty.
From Stdlib Require Import ZArith Ascii.

(** ** The host's data blocks *)

(** [bpy.types.Image]: the fields the module reads or writes. *)
Record Image := mkImage {
  img_name : string;
  img_source : string;
  img_filepath : string;
  img_use_alpha : bool;
  img_size : nat * nat
}.

(** [bpy.types.Texture]; [tex_image] is the identity of the wrapped image. *)
Record Texture := mkTexture {
  tex_name : string;
  tex_type : string;
  tex_image : option nat;
  tex_use_alpha : bool;
  tex_extension : string
}.

#[global] Instance Image_eq_dec : EqDecision Image.
Proof. solve_decision. Defined.
#[global] Instance Texture_eq_dec : EqDecision Texture.
Proof. solve_decision. Defined.

(** [bpy.types.MaterialTextureSlot]; [slot_use] is the slot's [use] flag. *)
Record TextureSlot := mkSlot {
  slot_use : bool;
  slot_use_map_alpha : bool;
  slot_texture_coords : string;
  slot_blend_type : string;
  slot_texture : option nat
}.

(** [material.mmd_material]: the model-specific property group. *)
Record MMDMaterial := mkMMD {
  material_id : Z;
  is_shared_toon_texture : bool;
  shared_toon_texture : Z;
  toon_texture : string;
  enabled_self_shadow_map : bool;
  enabled_self_shadow : bool;
  sphere_texture_type : Z
}.

(** [bpy.types.Material].  [use_cast_shadows] is [None] on a host that
    has no such attribute (what [hasattr] tests). *)
Record Material := mkMaterial {
  mmd_material : MMDMaterial;
  texture_slots : gmap nat TextureSlot;
  use_cast_buffer_shadows : bool;
  use_cast_shadows : option bool;
  use_shadows : bool;
  use_transparent_shadows : bool
}.

(** [bpy.data] together with the log the [logging] module writes to. *)
Record State := mkState {
  materials : list Material;
  textures : gmap nat Texture;
  images : gmap nat Image;
  log : list string
}.

(** What the module asks of the world outside [bpy.data]: the file
    system, the path helpers and the add-on preferences. *)
Record Host := mkHost {
  os_path_samefile : string → string → option bool;
  os_path_basename : string → string;
  os_path_join : string → string → string;
  bpy_path_abspath : string → string;
  bpy_path_display_name_from_filepath : string → string;
  bpy_path_resolve_ncase : string → string;
  image_file : string → option (nat * nat);
  preferences : gmap string string
}.

(** The number of texture slots of a material ([MAX_MTEX] in the host). *)
Definition MAX_MTEX : nat := 18.

Definition SPHERE_MODE_OFF : Z := 0.
Definition SPHERE_MODE_MULT : Z := 1.
Definition SPHERE_MODE_ADD : Z := 2.
Definition SPHERE_MODE_SUBTEX : Z := 3.

(** ** Field assignments *)

Definition set_img_source (v : string) (i : Image) : Image :=
  mkImage (img_name i) v (img_filepath i) (img_use_alpha i) (img_size i).
Definition set_img_filepath (v : string) (i : Image) : Image :=
  mkImage (img_name i) (img_source i) v (img_use_alpha i) (img_size i).
Definition set_img_use_alpha (v : bool) (i : Image) : Image :=
  mkImage (img_name i) (img_source i) (img_filepath i) v (img_size i).

Definition set_tex_image (v : option nat) (t : Texture) : Texture :=
  mkTexture (tex_name t) (tex_type t) v (tex_use_alpha t) (tex_extension t).
Definition set_tex_use_alpha (v : bool) (t : Texture) : Texture :=
  mkTexture (tex_name t) (tex_type t) (tex_image t) v (tex_extension t).
Definition set_tex_extension (v : string) (t : Texture) : Texture :=
  mkTexture (tex_name t) (tex_type t) (tex_image t) (tex_use_alpha t) v.

Definition set_slot_use (v : bool) (sl : TextureSlot) : TextureSlot :=
  mkSlot v (slot_use_map_alpha sl) (slot_texture_coords sl)
         (slot_blend_type sl) (slot_texture sl).
Definition set_slot_use_map_alpha (v : bool) (sl : TextureSlot) : TextureSlot :=
  mkSlot (slot_use sl) v (slot_texture_coords sl)
         (slot_blend_type sl) (slot_texture sl).
Definition set_slot_texture_coords (v : string) (sl : TextureSlot) : TextureSlot :=
  mkSlot (slot_use sl) (slot_use_map_alpha sl) v
         (slot_blend_type sl) (slot_texture sl).
Definition set_slot_blend_type (v : string) (sl : TextureSlot) : TextureSlot :=
  mkSlot (slot_use sl) (slot_use_map_alpha sl) (slot_texture_coords sl)
         v (slot_texture sl).
Definition set_slot_texture (v : option nat) (sl : TextureSlot) : TextureSlot :=
  mkSlot (slot_use sl) (slot_use_map_alpha sl) (slot_texture_coords sl)
         (slot_blend_type sl) v.

Definition set_material_id (v : Z) (p : MMDMaterial) : MMDMaterial :=
  mkMMD v (is_shared_toon_texture p) (shared_toon_texture p) (toon_texture p)
        (enabled_self_shadow_map p) (enabled_self_shadow p)
        (sphere_texture_type p).

Definition set_mmd_material (v : MMDMaterial) (m : Material) : Material :=
  mkMaterial v (texture_slots m) (use_cast_buffer_shadows m)
             (use_cast_shadows m) (use_shadows m) (use_transparent_shadows m).
Definition set_texture_slots (v : gmap nat TextureSlot) (m : Material) : Material :=
  mkMaterial (mmd_material m) v (use_cast_buffer_shadows m)
             (use_cast_shadows m) (use_shadows m) (use_transparent_shadows m).
Definition set_use_cast_buffer_shadows (v : bool) (m : Material) : Material :=
  mkMaterial (mmd_material m) (texture_slots m) v
             (use_cast_shadows m) (use_shadows m) (use_transparent_shadows m).
Definition set_use_cast_shadows (v : option bool) (m : Material) : Material :=
  mkMaterial (mmd_material m) (texture_slots m) (use_cast_buffer_shadows m)
             v (use_shadows m) (use_transparent_shadows m).
Definition set_use_shadows (v : bool) (m : Material) : Material :=
  mkMaterial (mmd_material m) (texture_slots m) (use_cast_buffer_shadows m)
             (use_cast_shadows m) v (use_transparent_shadows m).
Definition set_use_transparent_shadows (v : bool) (m : Material) : Material :=
  mkMaterial (mmd_material m) (texture_slots m) (use_cast_buffer_shadows m)
             (use_cast_shadows m) (use_shadows m) v.

Definition set_materials (v : list Material) (s : State) : State :=
  mkState v (textures s) (images s) (log s).
Definition set_textures (v : gmap nat Texture) (s : State) : State :=
  mkState (materials s) v (images s) (log s).
Definition set_images (v : gmap nat Image) (s : State) : State :=
  mkState (materials s) (textures s) v (log s).
Definition set_log (v : list string) (s : State) : State :=
  mkState (materials s) (textures s) (images s) v.

(** The id a material stores, read as a plain field. *)
Definition stored_material_id (m : Material) : Z := material_id (mmd_material m).

(** ** Reference counts ([ID.users])

    The host counts, for a texture, the slots that point to it and, for
    an image, the textures that wrap it. *)

Definition slot_users (t : nat) (m : Material) : nat :=
  size (filter (λ kv : nat * TextureSlot, slot_texture kv.2 = Some t)
               (texture_slots m)).

Definition tex_users (t : nat) (s : State) : nat :=
  sum_list (slot_users t <$> materials s).

Definition img_users (i : nat) (s : State) : nat :=
  size (filter (λ kv : nat * Texture, tex_image kv.2 = Some i) (textures s)).

(** The image record a texture wraps, if it wraps one. *)
Definition image_of (s : State) (t : Texture) : option Image :=
  tex_image t ≫= λ i, images s !! i.

(** ** The state-and-error monad *)

Definition M (A : Type) : Type := State → option (A * State).

Definition ret {A} (a : A) : M A := λ s, Some (a, s).
Definition raise {A} : M A := λ _, None.
Definition bind {A B} (m : M A) (f : A → M B) : M B :=
  λ s, match m s with
       | Some (a, s') => f a s'
       | None => None
       end.
(** [try: m except: handler]; the failed attempt leaves no trace. *)
Definition try_except {A} (m handler : M A) : M A :=
  λ s, match m s with
       | Some r => Some r
       | None => handler s
       end.
Definition gets {A} (f : State → A) : M A := λ s, Some (f s, s).
Definition modify (f : State → State) : M unit := λ s, Some (tt, f s).
Definition from_option {A} (o : option A) : M A :=
  match o with Some a => ret a | None => raise end.

Notation "x <- m ;; k" := (bind m (λ x, k))
  (at level 100, m at next level, right associativity).
Notation "m ;;; k" := (bind m (λ _, k))
  (at level 100, right associativity).

(** Python's ['%02d' % n]. *)
Definition format_02d (n : Z) : string :=
  let d := pretty n in
  if bool_decide (String.length d < 2) then "0" +:+ d else d.

(** ** The host's operations *)

Section host.
Context (h : Host).

(** Modelled from the spec: [mmd_tools.addon_preferences(name, default)]
    is defined in the package's [__init__], outside this file; it reads
    one string-valued configuration key and gives the default when the
    key is unset. *)
Definition addon_preferences (name dflt : string) : string :=
  default dflt (preferences h !! name).

(** [image.filepath_from_user()]: the stored path, made absolute. *)
Definition filepath_from_user (i : Image) : string :=
  bpy_path_abspath h (img_filepath i).

(** [bpy.data.images.load(filepath)]; raises when the file cannot be read. *)
Definition images_load (filepath : string) : M nat :=
  sz <- from_option (image_file h filepath) ;;
  i <- gets (λ s, fresh (dom (images s))) ;;
  modify (λ s, set_images
    (<[i := mkImage (os_path_basename h filepath) "FILE" filepath true sz]>
       (images s)) s) ;;;
  ret i.

(** [bpy.data.images.new(name, width, height)]. *)
Definition images_new (name : string) (width height : nat) : M nat :=
  i <- gets (λ s, fresh (dom (images s))) ;;
  modify (λ s, set_images
    (<[i := mkImage name "GENERATED" "" true (width, height)]> (images s)) s) ;;;
  ret i.

(** [bpy.data.textures.new(name, type)]. *)
Definition textures_new (name type : string) : M nat :=
  t <- gets (λ s, fresh (dom (textures s))) ;;
  modify (λ s, set_textures
    (<[t := mkTexture name type None true "REPEAT"]> (textures s)) s) ;;;
  ret t.

Definition textures_remove (t : nat) : M unit :=
  modify (λ s, set_textures (delete t (textures s)) s).
Definition images_remove (i : nat) : M unit :=
  modify (λ s, set_images (delete i (images s)) s).

(** Reading and writing through a reference to an image or a texture;
    a reference to nothing raises. *)
Definition get_image (i : nat) : M Image :=
  o <- gets (λ s, images s !! i) ;; from_option o.
Definition get_texture (t : nat) : M Texture :=
  o <- gets (λ s, textures s !! t) ;; from_option o.
Definition update_image (i : nat) (f : Image → Image) : M unit :=
  img <- get_image i ;;
  modify (λ s, set_images (<[i := f img]> (images s)) s).
Definition update_texture (t : nat) (f : Texture → Texture) : M unit :=
  tex <- get_texture t ;;
  modify (λ s, set_textures (<[t := f tex]> (textures s)) s).

Definition logging_warning (line : string) : M unit :=
  modify (λ s, set_log (log s ++ [line]) s).
End host.

(** ** [class FnMaterial]

    [self] is the wrapped material: its position in [bpy.data.materials]. *)

Module FnMaterial.

Definition BASE_TEX_SLOT : nat := 0.
Definition TOON_TEX_SLOT : nat := 1.
Definition SPHERE_TEX_SLOT : nat := 2.

(** [for material in bpy.data.materials: if ... == material_id: return]. *)
Fixpoint scan_material_id (mid : Z) (ms : list Material) (pos : nat)
  : option nat :=
  match ms with
  | [] => None
  | m :: rest =>
      if bool_decide (material_id (mmd_material m) = mid) then Some pos
      else scan_material_id mid rest (S pos)
  end.

Definition from_material_id (mid : Z) : M (option nat) :=
  ms <- gets materials ;;
  ret (scan_material_id mid ms 0).

(** [self.__material]; a wrapper around no material raises on use. *)
Definition the_material (self : nat) : M Material :=
  o <- gets (λ s, materials s !! self) ;; from_option o.

Definition update_material (self : nat) (f : Material → Material) : M unit :=
  mat <- the_material self ;;
  modify (λ s, set_materials (<[self := f mat]> (materials s)) s).

(** The loop [for mat in bpy.data.materials: max_id = max(max_id, ...)]. *)
Definition max_material_id (ms : list Material) : Z :=
  foldl (λ max_id mat, Z.max max_id (material_id (mmd_material mat))) (-1)%Z ms.

(** The property [material_id]. *)
Definition material_id (self : nat) : M Z :=
  mat <- the_material self ;;
  (if bool_decide (stored_material_id mat < 0)%Z then
     ms <- gets materials ;;
     let max_id := max_material_id ms in
     update_material self (λ m,
       set_mmd_material (set_material_id (max_id + 1) (mmd_material m)) m)
   else ret tt) ;;;
  mat' <- the_material self ;;
  ret (stored_material_id mat').

(** The property [material]. *)
Definition material (self : nat) : M Material := the_material self.

(** *** Slots of the wrapped material *)

(** [self.__material.texture_slots[index]]: [None] for an empty slot,
    an [IndexError] past the last slot. *)
Definition texture_slots_get (self index : nat) : M (option TextureSlot) :=
  mat <- the_material self ;;
  if bool_decide (index < MAX_MTEX) then ret (texture_slots mat !! index)
  else raise.

(** [texture_slots.create(index)]: a new slot with the host's defaults
    takes the place of whatever the index held. *)
Definition default_slot : TextureSlot := mkSlot true false "UV" "MIX" None.

Definition texture_slots_create (self index : nat) : M nat :=
  if bool_decide (index < MAX_MTEX) then
    update_material self (λ m,
      set_texture_slots (<[index := default_slot]> (texture_slots m)) m) ;;;
    ret index
  else raise.

(** [texture_slots.clear(index)]. *)
Definition texture_slots_clear (self index : nat) : M unit :=
  if bool_decide (index < MAX_MTEX) then
    update_material self (λ m,
      set_texture_slots (delete index (texture_slots m)) m)
  else raise.

(** Reading and assigning a field through a slot object. *)
Definition slot_read (self index : nat) : M TextureSlot :=
  o <- texture_slots_get self index ;; from_option o.

Definition slot_assign (self index : nat) (f : TextureSlot → TextureSlot)
  : M unit :=
  sl <- slot_read self index ;;
  update_material self (λ m,
    set_texture_slots (<[index := f sl]> (texture_slots m)) m).

Section with_host.
Context (h : Host).

Definition same_image_file (image : option Image) (filepath : string)
  : bool :=
  match image with
  | Some img =>
      if bool_decide (img_source img = "FILE") then
        let img_filepath := filepath_from_user h img in
        if bool_decide (img_filepath = filepath) then true
        else match os_path_samefile h img_filepath filepath with
             | Some same => same
             | None => false
             end
      else false
  | None => false
  end.

Definition load_image (filepath : string) : M nat :=
  imgs <- gets (λ s, map_to_list (images s)) ;;
  match List.find (λ kv, same_image_file (Some kv.2) filepath) imgs with
  | Some (i, _) => ret i
  | None =>
      try_except (images_load h filepath)
        (logging_warning
           ("Cannot create a texture for " +:+ filepath +:+ ". No such file.") ;;;
         img <- images_new (os_path_basename h filepath) 1 1 ;;
         update_image img (set_img_source "FILE") ;;;
         update_image img (set_img_filepath filepath) ;;;
         ret img)
  end.

Definition load_texture (filepath : string) : M nat :=
  s <- gets id ;;
  match List.find
          (λ kv, bool_decide (tex_type kv.2 = "IMAGE")
                 && same_image_file (image_of s kv.2) filepath)
          (map_to_list (textures s)) with
  | Some (t, _) => ret t
  | None =>
      tex <- textures_new (bpy_path_display_name_from_filepath h filepath)
                          "IMAGE" ;;
      img <- load_image filepath ;;
      update_texture tex (set_tex_image (Some img)) ;;;
      ret tex
  end.

Definition create_texture (filepath : string) (self : nat) : M nat :=
  texture_slot <- texture_slots_create self BASE_TEX_SLOT ;;
  slot_assign self texture_slot (set_slot_use_map_alpha true) ;;;
  slot_assign self texture_slot (set_slot_texture_coords "UV") ;;;
  slot_assign self texture_slot (set_slot_blend_type "MULTIPLY") ;;;
  tex <- load_texture filepath ;;
  slot_assign self texture_slot (set_slot_texture (Some tex)) ;;;
  ret texture_slot.

Definition remove_texture (index : nat) (self : nat) : M unit :=
  texture_slot <- texture_slots_get self index ;;
  match texture_slot with
  | Some sl =>
      let tex := slot_texture sl in
      texture_slots_clear self index ;;;
      match tex with
      | Some t =>
          users <- gets (tex_users t) ;;
          if bool_decide (users < 1) then
            tx <- get_texture t ;;
            let img := tex_image tx in
            update_texture t (set_tex_image None) ;;;
            textures_remove t ;;;
            match img with
            | Some i =>
                iusers <- gets (img_users i) ;;
                if bool_decide (iusers < 1) then images_remove i
                else ret tt
            | None => ret tt
            end
          else ret tt
      | None => ret tt
      end
  | None => ret tt
  end.

(** [texture_slot.texture.use_alpha = texture_slot.texture.image.use_alpha
    = False]: the texture's flag first, then its image's. *)
Definition clear_use_alpha (self texture_slot : nat) : M unit :=
  sl <- slot_read self texture_slot ;;
  t <- from_option (slot_texture sl) ;;
  update_texture t (set_tex_use_alpha false) ;;;
  sl' <- slot_read self texture_slot ;;
  t' <- from_option (slot_texture sl') ;;
  tx <- get_texture t' ;;
  i <- from_option (tex_image tx) ;;
  update_image i (set_img_use_alpha false).

Definition update_sphere_texture_type (self : nat) : M unit :=
  texture_slot <- texture_slots_get self SPHERE_TEX_SLOT ;;
  match texture_slot with
  | None => ret tt
  | Some _ =>
      mat <- the_material self ;;
      let sphere_texture_type := sphere_texture_type (mmd_material mat) in
      if bool_decide (sphere_texture_type ∉ [1; 2; 3]%Z) then
        slot_assign self SPHERE_TEX_SLOT (set_slot_use false)
      else
        slot_assign self SPHERE_TEX_SLOT (set_slot_use true) ;;;
        blend <- from_option
          (["MULTIPLY"; "ADD"; "SUBTRACT"]
             !! Z.to_nat (sphere_texture_type - 1)) ;;
        slot_assign self SPHERE_TEX_SLOT (set_slot_blend_type blend)
  end.

Definition create_sphere_texture (filepath : string) (self : nat) : M nat :=
  texture_slot <- texture_slots_create self SPHERE_TEX_SLOT ;;
  slot_assign self texture_slot (set_slot_texture_coords "NORMAL") ;;;
  tex <- load_texture filepath ;;
  slot_assign self texture_slot (set_slot_texture (Some tex)) ;;;
  clear_use_alpha self texture_slot ;;;
  update_sphere_texture_type self ;;;
  ret texture_slot.

Definition remove_sphere_texture (self : nat) : M unit :=
  remove_texture SPHERE_TEX_SLOT self.

Definition create_toon_texture (filepath : string) (self : nat) : M nat :=
  texture_slot <- texture_slots_create self TOON_TEX_SLOT ;;
  slot_assign self texture_slot (set_slot_texture_coords "NORMAL") ;;;
  slot_assign self texture_slot (set_slot_blend_type "MULTIPLY") ;;;
  tex <- load_texture filepath ;;
  slot_assign self texture_slot (set_slot_texture (Some tex)) ;;;
  clear_use_alpha self texture_slot ;;;
  sl <- slot_read self texture_slot ;;
  t <- from_option (slot_texture sl) ;;
  update_texture t (set_tex_extension "EXTEND") ;;;
  ret texture_slot.

Definition remove_toon_texture (self : nat) : M unit :=
  remove_texture TOON_TEX_SLOT self.

(** The file name ['toon%02d.bmp' % (shared_toon_texture + 1)]. *)
Definition shared_toon_name (shared_toon_texture : Z) : string :=
  "toon" +:+ format_02d (shared_toon_texture + 1) +:+ ".bmp".

Definition update_toon_texture (self : nat) : M unit :=
  mat <- the_material self ;;
  let mmd_mat := mmd_material mat in
  if is_shared_toon_texture mmd_mat then
    let shared_toon_folder := addon_preferences h "shared_toon_folder" "" in
    let toon_path :=
      os_path_join h shared_toon_folder
                   (shared_toon_name (shared_toon_texture mmd_mat)) in
    create_toon_texture (bpy_path_resolve_ncase h toon_path) self ;;;
    ret tt
  else if bool_decide (toon_texture mmd_mat ≠ "") then
    create_toon_texture (toon_texture mmd_mat) self ;;;
    ret tt
  else remove_toon_texture self.

Definition update_drop_shadow (self : nat) : M unit := ret tt.

Definition update_self_shadow_map (self : nat) : M unit :=
  mat <- the_material self ;;
  let mmd_mat := mmd_material mat in
  update_material self
    (set_use_cast_buffer_shadows (enabled_self_shadow_map mmd_mat)) ;;;
  mat' <- the_material self ;;
  if bool_decide (is_Some (use_cast_shadows mat')) then
    update_material self
      (set_use_cast_shadows (Some (enabled_self_shadow_map mmd_mat)))
  else ret tt.

Definition update_self_shadow (self : nat) : M unit :=
  mat <- the_material self ;;
  let mmd_mat := mmd_material mat in
  update_material self (set_use_shadows (enabled_self_shadow mmd_mat)) ;;;
  update_material self
    (set_use_transparent_shadows (enabled_self_shadow mmd_mat)).
End with_host.

End FnMaterial.

(** ** The operations of the layer, as a type

    [run] dispatches a call on the wrapped material and forgets its result. *)

Inductive Op :=
| OpFromMaterialId (mid : Z)
| OpMaterialId
| OpMaterial
| OpCreateTexture (filepath : string)
| OpRemoveTexture (index : nat)
| OpCreateSphereTexture (filepath : string)
| OpUpdateSphereTextureType
| OpRemoveSphereTexture
| OpCreateToonTexture (filepath : string)
| OpUpdateToonTexture
| OpRemoveToonTexture
| OpUpdateDropShadow
| OpUpdateSelfShadowMap
| OpUpdateSelfShadow.

#[global] Instance Op_eq_dec : EqDecision Op.
Proof. solve_decision. Defined.

Definition run (h : Host) (self : nat) (op : Op) : M unit :=
  match op with
  | OpFromMaterialId mid => FnMaterial.from_material_id mid ;;; ret tt
  | OpMaterialId => FnMaterial.material_id self ;;; ret tt
  | OpMaterial => FnMaterial.material self ;;; ret tt
  | OpCreateTexture p => FnMaterial.create_texture h p self ;;; ret tt
  | OpRemoveTexture index => FnMaterial.remove_texture index self
  | OpCreateSphereTexture p => FnMaterial.create_sphere_texture h p self ;;; ret tt
  | OpUpdateSphereTextureType => FnMaterial.update_sphere_texture_type self
  | OpRemoveSphereTexture => FnMaterial.remove_sphere_texture self
  | OpCreateToonTexture p => FnMaterial.create_toon_texture h p self ;;; ret tt
  | OpUpdateToonTexture => FnMaterial.update_toon_texture h self
  | OpRemoveToonTexture => FnMaterial.remove_toon_texture self
  | OpUpdateDropShadow => FnMaterial.update_drop_shadow self
  | OpUpdateSelfShadowMap => FnMaterial.update_self_shadow_map self
  | OpUpdateSelfShadow => FnMaterial.update_self_shadow self
  end.

(** ** Predicates on the scene *)

(** At most one material holds any given non-negative id. *)
Definition unique_ids (s : State) : Prop :=
  ∀ a b ma mb,
    materials s !! a = Some ma → materials s !! b = Some mb →
    (0 ≤ stored_material_id ma)%Z →
    stored_material_id ma = stored_material_id mb → a = b.

(** Every texture's image reference points into the image store. *)
Definition images_linked (s : State) : Prop :=
  ∀ t tx i, textures s !! t = Some tx → tex_image tx = Some i →
            is_Some (images s !! i).

(** The slot [index] of material [m], if the material and the slot exist. *)
Definition slot_at (s : State) (m index : nat) : option TextureSlot :=
  materials s !! m ≫= λ mat, texture_slots mat !! index.

(** The texture a slot shows: the record its reference leads to. *)
Definition texture_through (s : State) (m index : nat) : option Texture :=
  slot_at s m index ≫= λ sl, slot_texture sl ≫= λ t, textures s !! t.

(** ** A concrete host and concrete scenes *)

Module Example.

Fixpoint basename_from (acc path : string) : string :=
  match path with
  | EmptyString => acc
  | String c rest =>
      if Ascii.eqb c "/"%char then basename_from "" rest
      else basename_from (acc +:+ String c "") rest
  end.
Definition basename (path : string) : string := basename_from "" path.

Fixpoint stem_from (acc seen path : string) : string :=
  match path with
  | EmptyString => if bool_decide (acc = "") then seen else acc
  | String c rest =>
      if Ascii.eqb c "."%char then stem_from seen (seen +:+ ".") rest
      else stem_from acc (seen +:+ String c "") rest
  end.
Definition display_name (path : string) : string :=
  stem_from "" "" (basename path).

Fixpoint ends_with_sep (path : string) : bool :=
  match path with
  | EmptyString => false
  | String c EmptyString => Ascii.eqb c "/"%char
  | String _ rest => ends_with_sep rest
  end.

(** [posixpath.join] on two components. *)
Definition join (a b : string) : string :=
  if String.prefix "/" b then b
  else if bool_decide (a = "") || ends_with_sep a then a +:+ b
  else a +:+ "/" +:+ b.

(** Paths that start with [//] are relative to the directory of the
    open file, here [/proj]. *)
Definition abspath (path : string) : string :=
  match path with
  | String c1 (String c2 rest) =>
      if Ascii.eqb c1 "/"%char && Ascii.eqb c2 "/"%char
      then "/proj/" +:+ rest else path
  | _ => path
  end.

(** The files on disk: two readable bitmaps. *)
Definition files : list string := ["/proj/tex.png"; "/toons/toon03.bmp"].

Definition samefile (a b : string) : option bool :=
  if bool_decide (a ∈ files) && bool_decide (b ∈ files)
  then Some (bool_decide (a = b)) else None.

Definition load (path : string) : option (nat * nat) :=
  if bool_decide (abspath path ∈ files) then Some (256, 256) else None.

Definition host : Host :=
  mkHost samefile basename join abspath display_name id load
         {[ "shared_toon_folder" := "/toons" ]}.

Definition props (mid : Z) : MMDMaterial :=
  mkMMD mid false 0 "" true true 0.

Definition blank (mid : Z) : Material :=
  mkMaterial (props mid) ∅ false (Some false) false false.

(** One material, nothing loaded. *)
Definition scene1 : State := mkState [blank (-1)] ∅ ∅ [].

(** Three materials; two have no id yet. *)
Definition scene3 : State := mkState [blank 4; blank (-1); blank (-1)] ∅ ∅ [].

(** A material with an empty SPHERE slot of the given blend type. *)
Definition sphere_slot : TextureSlot := mkSlot true false "NORMAL" "MIX" None.
Definition shiny (ty : Z) : Material :=
  mkMaterial (mkMMD 0 false 0 "" true true ty) {[ 2 := sphere_slot ]}
             false None false false.
Definition scene_sphere : State := mkState [shiny 2] ∅ ∅ [].

(** A material that takes the shared toon bitmap number 2. *)
Definition shared_toon : Material :=
  mkMaterial (mkMMD 0 true 2 "" true true 0) ∅ false None false false.
Definition scene_toon : State := mkState [shared_toon] ∅ ∅ [].

(** Two materials; the second shows the image texture of [/proj/tex.png]
    in its BASE slot. *)
Definition tex_image_file : Image :=
  mkImage "tex.png" "FILE" "/proj/tex.png" true (256, 256).
Definition tex_texture : Texture :=
  mkTexture "tex" "IMAGE" (Some 0) true "REPEAT".
Definition textured : Material :=
  mkMaterial (props 1) {[ 0 := mkSlot true true "UV" "MULTIPLY" (Some 0) ]}
             false None false false.
Definition scene_shared : State :=
  mkState [blank 0; textured] {[ 0 := tex_texture ]} {[ 0 := tex_image_file ]} [].

(** [scene_shared] after the second material gave up its BASE slot. *)
Definition scene_unshared : State :=
  mkState [blank 0; mkMaterial (props 1) ∅ false None false false] ∅ ∅ [].

(** A scene whose only material stores an id below the sentinel. *)
Definition scene_low : State := mkState [blank (-5)] ∅ ∅ [].

End Example.

(** The specification's words for the id a first read gives: the maximum
    [material_id] over all materials in the scene (none for an empty
    scene). *)
Definition max_id_over_all (ms : list Material) : option Z :=
  match stored_material_id <$> ms with
  | [] => None
  | x :: xs => Some (foldr Z.max x xs)
  end.

(** The material ids of a scene, in scene order. *)
Definition ids (s : State) : list Z := stored_material_id <$> materials s.

(** A computation that, whenever it returns, leaves every id as it was. *)
Definition keeps_ids {A} (m : M A) : Prop :=
  ∀ s a s', m s = Some (a, s') → ids s' = ids s.

(** The scene with material [self] replaced, a material with one slot
    replaced or emptied. *)
Definition with_material (self : nat) (mat : Material) (s : State) : State :=
  set_materials (<[self := mat]> (materials s)) s.
Definition with_slot (index : nat) (sl : TextureSlot) (mat : Material)
  : Material :=
  set_texture_slots (<[index := sl]> (texture_slots mat)) mat.
Definition without_slot (index : nat) (mat : Material) : Material :=
  set_texture_slots (delete index (texture_slots mat)) mat.

(** A decimal digit as a character, and a number below one hundred
    written with exactly two digits. *)
Definition digit (d : Z) : ascii := ascii_of_nat (48 + Z.to_nat d).
Definition two_digits (n : Z) : string :=
  String (digit (n / 10)) (String (digit (n mod 10)) "").

(** The test of the loop in [__load_texture]. *)
Definition texture_matches (h : Host) (p : string) (s : State)
    (kv : nat * Texture) : bool :=
  bool_decide (tex_type kv.2 = "IMAGE")
  && FnMaterial.same_image_file h (image_of s kv.2) p.

(** A resolved path: the host's resolution of it is the path itself, or
    a path the file system takes for the same file. *)
Definition resolved (h : Host) (p : string) : Prop :=
  bpy_path_abspath h p = p ∨
  os_path_samefile h (bpy_path_abspath h p) p = Some true.

(** A computation that, whenever it returns, leaves every texture's image
    reference pointing into the image store. *)
Definition keeps_linked {A} (m : M A) : Prop :=
  ∀ s a s', images_linked s → m s = Some (a, s') → images_linked s'.

(** The line [__load_image] logs when the host cannot load the file. *)
Definition load_warning (p : string) : string :=
  "Cannot create a texture for " +:+ p +:+ ". No such file.".

(** The SPHERE slot that [create_sphere_texture] leaves for a sphere type:
    normal coordinates and the loaded texture, enabled with the blend mode
    of the type for 1, 2 and 3, disabled with the default blend mode
    otherwise. *)
Definition sphere_slot_for (ty : Z) (t : nat) : TextureSlot :=
  if decide (ty = 1%Z) then mkSlot true false "NORMAL" "MULTIPLY" (Some t)
  else if decide (ty = 2%Z) then mkSlot true false "NORMAL" "ADD" (Some t)
  else if decide (ty = 3%Z) then mkSlot true false "NORMAL" "SUBTRACT" (Some t)
  else mkSlot false false "NORMAL" "MIX" (Some t).

(** Every slot's texture reference points into the texture store. *)
Definition slots_linked (s : State) : Prop :=
  ∀ m k sl t, slot_at s m k = Some sl → slot_texture sl = Some t →
              is_Some (textures s !! t).

(** A computation that, whenever it returns, leaves every slot's texture
    reference pointing into the texture store. *)
Definition keeps_slots {A} (m : M A) : Prop :=
  ∀ s a s', slots_linked s → m s = Some (a, s') → slots_linked s'.

(** A computation that, whenever it returns, has only appended load
    warnings to the log. *)
Definition only_warns {A} (m : M A) : Prop :=
  ∀ s a s', m s = Some (a, s') →
    ∃ w, log s' = log s ++ w ∧ ∀ line, line ∈ w → ∃ p, line = load_warning p.

(** The scene [s'] that creating the toon texture of material [self] from
    [path] makes of the scene [s]: the TOON slot has normal coordinates,
    MULTIPLY blend and a stored texture of type IMAGE with [use_alpha] off
    and extension EXTEND; that texture wraps a stored file image with
    [use_alpha] off which is an image for [path] (it passes the test of
    [__same_image_file] for [path], or [path] is its filepath); no other
    slot, texture or image differs from [s]. *)
Definition toon_created (h : Host) (path : string) (self : nat)
    (s s' : State) : Prop :=
  ∃ t tx i img,
    slot_at s' self FnMaterial.TOON_TEX_SLOT
      = Some (mkSlot true false "NORMAL" "MULTIPLY" (Some t)) ∧
    (∀ m k, (m, k) ≠ (self, FnMaterial.TOON_TEX_SLOT) →
            slot_at s' m k = slot_at s m k) ∧
    textures s' !! t = Some tx ∧ tex_type tx = "IMAGE" ∧
    tex_use_alpha tx = false ∧ tex_extension tx = "EXTEND" ∧
    tex_image tx = Some i ∧
    images s' !! i = Some img ∧ img_source img = "FILE" ∧
    img_use_alpha img = false ∧
    (FnMaterial.same_image_file h (Some img) path = true
     ∨ img_filepath img = path) ∧
    (∀ k, k ≠ t → textures s' !! k = textures s !! k) ∧
    (∀ k, k ≠ i → images s' !! k = images s !! k).

(** The scene [s'] that removing the TOON slot of material [self] makes of
    the scene [s]: that slot is empty and no other slot differs; no texture
    or image is new or altered, and the log is the same. *)
Definition toon_removed (self : nat) (s s' : State) : Prop :=
  slot_at s' self FnMaterial.TOON_TEX_SLOT = None ∧
  (∀ m k, (m, k) ≠ (self, FnMaterial.TOON_TEX_SLOT) →
          slot_at s' m k = slot_at s m k) ∧
  (∀ t tx, textures s' !! t = Some tx → textures s !! t = Some tx) ∧
  (∀ i img, images s' !! i = Some img → images s !! i = Some img) ∧
  log s' = log s.

(** * Proofs *)

(** ** The monad *)

Lemma bind_Some {A B} (m : M A) (f : A → M B) s a s' :
  m s = Some (a, s') → bind m f s = f a s'.
Proof. intros E. unfold bind. by rewrite E. Qed.

Lemma bind_inv {A B} (m : M A) (f : A → M B) s r :
  bind m f s = Some r → ∃ a s', m s = Some (a, s') ∧ f a s' = Some r.
Proof.
  unfold bind. destruct (m s) as [[a s']|] eqn:E; [|done].
  intros Hf. by exists a, s'.
Qed.

Lemma from_option_Some {A} (o : option A) (a : A) s :
  o = Some a → from_option o s = Some (a, s).
Proof. by intros ->. Qed.

Lemma the_material_Some self s mat :
  materials s !! self = Some mat →
  FnMaterial.the_material self s = Some (mat, s).
Proof.
  intros E. unfold FnMaterial.the_material, bind, gets. by rewrite E.
Qed.

Lemma the_material_inv self s mat s' :
  FnMaterial.the_material self s = Some (mat, s') →
  materials s !! self = Some mat ∧ s' = s.
Proof.
  unfold FnMaterial.the_material, bind, gets.
  destruct (materials s !! self) as [m|]; [|done].
  cbn. by intros [= -> ->].
Qed.

Lemma update_material_Some self f s mat :
  materials s !! self = Some mat →
  FnMaterial.update_material self f s
  = Some (tt, set_materials (<[self := f mat]> (materials s)) s).
Proof.
  intros E. unfold FnMaterial.update_material.
  by rewrite (bind_Some _ _ _ _ _ (the_material_Some _ _ _ E)).
Qed.

Lemma lookup_set_materials self s mat mat' :
  materials s !! self = Some mat →
  materials (set_materials (<[self := mat']> (materials s)) s) !! self
  = Some mat'.
Proof.
  intros E. cbn. apply list_lookup_insert_eq. by eapply lookup_lt_Some.
Qed.

(** ** Scanning the materials *)

Lemma scan_material_id_Some mid ms pos k :
  FnMaterial.scan_material_id mid ms pos = Some k →
  pos ≤ k ∧ ∃ mat, ms !! (k - pos) = Some mat ∧ stored_material_id mat = mid ∧
    ∀ j mat', j < k - pos → ms !! j = Some mat' → stored_material_id mat' ≠ mid.
Proof.
  revert pos. induction ms as [|m ms IH]; intros pos; cbn; [done|].
  case_bool_decide as Hm.
  - intros [= <-]. split; [lia|]. exists m. rewrite Nat.sub_diag.
    repeat split; [done|]. intros j mat' Hj. lia.
  - intros Hk. destruct (IH _ Hk) as (Hle & mat & Hl & Hid & Hbefore).
    split; [lia|]. exists mat.
    replace (k - pos) with (S (k - S pos)) by lia. repeat split; [done..|].
    intros [|j] mat' Hj; cbn.
    + by intros [= <-].
    + apply Hbefore. lia.
Qed.

Lemma scan_material_id_None mid ms pos :
  FnMaterial.scan_material_id mid ms pos = None →
  ∀ j mat, ms !! j = Some mat → stored_material_id mat ≠ mid.
Proof.
  revert pos. induction ms as [|m ms IH]; intros pos; cbn; [done|].
  case_bool_decide as Hm; [done|].
  intros Hn [|j] mat; cbn; [by intros [= <-]|]. by eapply IH.
Qed.

(** C10. [from_material_id] never raises and returns in the very state it
    was called in, so no material is mutated and an unassigned material
    keeps its negative id; the result is the first material whose stored
    id field equals the argument, or none when no stored field does. *)
Theorem from_material_id_reads_only (mid : Z) (s : State) :
  ∃ r, FnMaterial.from_material_id mid s = Some (r, s) ∧
    match r with
    | Some k => ∃ mat, materials s !! k = Some mat ∧
        stored_material_id mat = mid ∧
        ∀ j mat', j < k → materials s !! j = Some mat' →
          stored_material_id mat' ≠ mid
    | None => ∀ j mat, materials s !! j = Some mat →
        stored_material_id mat ≠ mid
    end.
Proof.
  exists (FnMaterial.scan_material_id mid (materials s) 0).
  split; [done|].
  destruct (FnMaterial.scan_material_id mid (materials s) 0) as [k|] eqn:E.
  - apply scan_material_id_Some in E as (_ & mat & Hl & Hid & Hb).
    rewrite Nat.sub_0_r in Hl, Hb. by exists mat.
  - by eapply scan_material_id_None.
Qed.

(** A scan for the sentinel finds an unassigned material and assigns
    nothing, where a read of the property on the same material does. *)
Example from_material_id_sentinel :
  FnMaterial.from_material_id (-1) Example.scene3 = Some (Some 1, Example.scene3) ∧
  (ids <$> (snd <$> FnMaterial.material_id 1 Example.scene3)) = Some [4; 5; -1]%Z.
Proof. split; reflexivity. Qed.

(** ** The lazily assigned id *)

Lemma max_material_id_from (a : Z) (ms : list Material) :
  foldl (λ max_id mat, Z.max max_id (material_id (mmd_material mat))) a ms
  = foldr Z.max a (stored_material_id <$> ms).
Proof.
  revert a. induction ms as [|m ms IH]; intros a; cbn; [done|].
  rewrite IH. clear IH. revert a.
  induction ms as [|m' ms IH]; intros a; cbn.
  - unfold stored_material_id. lia.
  - rewrite IH. unfold stored_material_id. lia.
Qed.

Lemma foldr_max_start (a x : Z) (xs : list Z) :
  foldr Z.max a (x :: xs) = Z.max a (foldr Z.max x xs).
Proof.
  revert x. induction xs as [|y ys IH]; intros x; cbn; [lia|].
  specialize (IH x). cbn in IH. lia.
Qed.

Lemma max_material_id_over_all (ms : list Material) (v : Z) :
  max_id_over_all ms = Some v →
  FnMaterial.max_material_id ms = Z.max (-1) v.
Proof.
  unfold max_id_over_all, FnMaterial.max_material_id.
  rewrite max_material_id_from.
  destruct (stored_material_id <$> ms) as [|x xs]; [done|].
  intros [= <-]. apply foldr_max_start.
Qed.

Lemma max_material_id_bounds (ms : list Material) :
  (-1 ≤ FnMaterial.max_material_id ms)%Z ∧
  ∀ k m, ms !! k = Some m →
    (stored_material_id m ≤ FnMaterial.max_material_id ms)%Z.
Proof.
  unfold FnMaterial.max_material_id. rewrite max_material_id_from.
  induction ms as [|m ms [IH1 IH2]]; cbn.
  - split; [lia|]. by intros k m.
  - split; [lia|]. intros [|k] m'; cbn.
    + intros [= <-]. lia.
    + intros Hk. specialize (IH2 _ _ Hk). lia.
Qed.

Lemma material_id_assigned self s mat :
  materials s !! self = Some mat →
  (stored_material_id mat < 0)%Z →
  let v := (FnMaterial.max_material_id (materials s) + 1)%Z in
  FnMaterial.material_id self s
  = Some (v, set_materials
               (<[self := set_mmd_material
                            (set_material_id v (mmd_material mat)) mat]>
                  (materials s)) s).
Proof.
  intros E Hneg v. unfold FnMaterial.material_id.
  rewrite (bind_Some _ _ _ _ _ (the_material_Some _ _ _ E)).
  rewrite bool_decide_eq_true_2 by done.
  unfold bind at 1. unfold bind at 1. cbn.
  rewrite (update_material_Some _ _ _ _ E).
  pose proof (lookup_set_materials self s mat
    (set_mmd_material (set_material_id v (mmd_material mat)) mat) E) as E'.
  by rewrite (bind_Some _ _ _ _ _ (the_material_Some _ _ _ E')).
Qed.

Lemma material_id_stored self s mat :
  materials s !! self = Some mat →
  (0 ≤ stored_material_id mat)%Z →
  FnMaterial.material_id self s = Some (stored_material_id mat, s).
Proof.
  intros E Hpos. unfold FnMaterial.material_id.
  rewrite (bind_Some _ _ _ _ _ (the_material_Some _ _ _ E)).
  rewrite bool_decide_eq_false_2 by lia.
  unfold bind at 1. cbn.
  by rewrite (bind_Some _ _ _ _ _ (the_material_Some _ _ _ E)).
Qed.

(** C5, as the specification states it, fails where every stored id lies below
    the sentinel: the only material of [scene_low] stores -5, the maximum
    over all materials is -5, and the read assigns and returns 0, not -4. *)
Lemma material_id_below_sentinel :
  ids Example.scene_low = [-5]%Z ∧
  max_id_over_all (materials Example.scene_low) = Some (-5)%Z ∧
  fst <$> FnMaterial.material_id 0 Example.scene_low = Some 0%Z ∧
  (0 ≠ -5 + 1)%Z.
Proof. repeat split; done. Qed.

(** C5, amended.  A read of [material_id] on a material whose stored id
    is negative assigns one more than the larger of -1 and the maximum id
    over all materials, returns it, and touches nothing else; a second
    read returns the same value in the same state.  On a material whose
    stored id is not negative the read returns it and changes nothing. *)
Theorem material_id_read (s : State) (self : nat) (mat : Material) (top : Z) :
  materials s !! self = Some mat →
  max_id_over_all (materials s) = Some top →
  ((stored_material_id mat < 0)%Z →
     let v := (Z.max (-1) top + 1)%Z in
     let s' := set_materials
                 (<[self := set_mmd_material
                              (set_material_id v (mmd_material mat)) mat]>
                    (materials s)) s in
     FnMaterial.material_id self s = Some (v, s') ∧
     FnMaterial.material_id self s' = Some (v, s')) ∧
  ((0 ≤ stored_material_id mat)%Z →
     FnMaterial.material_id self s = Some (stored_material_id mat, s)).
Proof.
  intros E Htop. split.
  - intros Hneg v s'.
    pose proof (material_id_assigned _ _ _ E Hneg) as H1. cbn zeta in H1.
    rewrite (max_material_id_over_all _ _ Htop) in H1. split; [exact H1|].
    assert (materials s' !! self
            = Some (set_mmd_material (set_material_id v (mmd_material mat)) mat))
      as E' by (eapply lookup_set_materials, E).
    rewrite (material_id_stored _ _ _ E'); [done|].
    unfold stored_material_id, v. cbn. lia.
  - apply material_id_stored, E.
Qed.

Lemma material_id_read_witness :
  FnMaterial.material_id 1 Example.scene3
  = Some (5%Z, mkState [Example.blank 4; Example.blank 5; Example.blank (-1)] ∅ ∅ []).
Proof.
  refine (proj1 (proj1 (material_id_read Example.scene3 1 (Example.blank (-1)) 4
                          _ _) _)).
  - reflexivity.
  - reflexivity.
  - reflexivity.
Defined.

(** ** Which computations leave the ids alone *)

Section keeps_ids.
Context {A B : Type}.

Lemma keeps_ids_ret (a : A) : keeps_ids (ret a).
Proof. intros s a' s'. unfold ret. by intros [= _ <-]. Qed.

Lemma keeps_ids_raise : keeps_ids (@raise A).
Proof. by intros s a s'. Qed.

Lemma keeps_ids_gets (f : State → A) : keeps_ids (gets f).
Proof. intros s a s'. unfold gets. by intros [= _ <-]. Qed.

Lemma keeps_ids_from_option (o : option A) : keeps_ids (from_option o).
Proof. destruct o; [apply keeps_ids_ret | apply keeps_ids_raise]. Qed.

Lemma keeps_ids_bind (m : M A) (f : A → M B) :
  keeps_ids m → (∀ a, keeps_ids (f a)) → keeps_ids (bind m f).
Proof.
  intros Hm Hf s b s' Hb.
  apply bind_inv in Hb as (a & s1 & H1 & H2).
  rewrite (Hf _ _ _ _ H2). by eapply Hm.
Qed.

Lemma keeps_ids_try_except (m handler : M A) :
  keeps_ids m → keeps_ids handler → keeps_ids (try_except m handler).
Proof.
  intros Hm Hh s a s'. unfold try_except.
  destruct (m s) as [[a1 s1]|] eqn:E.
  - intros [= <- <-]. by eapply Hm.
  - apply Hh.
Qed.
End keeps_ids.

Lemma keeps_ids_modify (f : State → State) :
  (∀ s, materials (f s) = materials s) → keeps_ids (modify f).
Proof.
  intros Hf s a s'. unfold modify. intros [= _ <-]. unfold ids. by rewrite Hf.
Qed.

Lemma keeps_ids_update_material self (f : Material → Material) :
  (∀ m, stored_material_id (f m) = stored_material_id m) →
  keeps_ids (FnMaterial.update_material self f).
Proof.
  intros Hf s a s' H. unfold FnMaterial.update_material in H.
  apply bind_inv in H as (mat & s1 & H1 & H2).
  apply the_material_inv in H1 as [E ->].
  unfold modify in H2. injection H2 as _ <-.
  unfold ids. cbn. rewrite list_fmap_insert, Hf.
  apply list_insert_id. by rewrite list_lookup_fmap, E.
Qed.

Create HintDb keeps_ids.

#[local] Hint Resolve keeps_ids_ret keeps_ids_raise keeps_ids_gets
  keeps_ids_from_option keeps_ids_try_except : keeps_ids.

Ltac keeps_ids_step :=
  match goal with
  | |- keeps_ids (bind _ _) => apply keeps_ids_bind; [|intros ?]
  | |- keeps_ids (modify _) => apply keeps_ids_modify; intros ?; reflexivity
  | |- keeps_ids (FnMaterial.update_material _ _) =>
      apply keeps_ids_update_material; intros ?; reflexivity
  | |- keeps_ids (try_except _ _) => apply keeps_ids_try_except
  | |- keeps_ids (match ?x with _ => _ end) => destruct x
  | |- keeps_ids _ => solve [eauto with keeps_ids]
  end.

Ltac keeps_ids_go := intros; cbv zeta; repeat keeps_ids_step.

Lemma keeps_ids_the_material self : keeps_ids (FnMaterial.the_material self).
Proof. unfold FnMaterial.the_material. keeps_ids_go. Qed.
#[local] Hint Resolve keeps_ids_the_material : keeps_ids.

Lemma keeps_ids_images_load h p : keeps_ids (images_load h p).
Proof. unfold images_load. keeps_ids_go. Qed.
Lemma keeps_ids_images_new name w ht : keeps_ids (images_new name w ht).
Proof. unfold images_new. keeps_ids_go. Qed.
Lemma keeps_ids_textures_new name type : keeps_ids (textures_new name type).
Proof. unfold textures_new. keeps_ids_go. Qed.
Lemma keeps_ids_textures_remove t : keeps_ids (textures_remove t).
Proof. unfold textures_remove. keeps_ids_go. Qed.
Lemma keeps_ids_images_remove i : keeps_ids (images_remove i).
Proof. unfold images_remove. keeps_ids_go. Qed.
Lemma keeps_ids_get_image i : keeps_ids (get_image i).
Proof. unfold get_image. keeps_ids_go. Qed.
Lemma keeps_ids_get_texture t : keeps_ids (get_texture t).
Proof. unfold get_texture. keeps_ids_go. Qed.
#[local] Hint Resolve keeps_ids_images_load keeps_ids_images_new
  keeps_ids_textures_new keeps_ids_textures_remove keeps_ids_images_remove
  keeps_ids_get_image keeps_ids_get_texture : keeps_ids.

Lemma keeps_ids_update_image i f : keeps_ids (update_image i f).
Proof. unfold update_image. keeps_ids_go. Qed.
Lemma keeps_ids_update_texture t f : keeps_ids (update_texture t f).
Proof. unfold update_texture. keeps_ids_go. Qed.
Lemma keeps_ids_logging_warning line : keeps_ids (logging_warning line).
Proof. unfold logging_warning. keeps_ids_go. Qed.
#[local] Hint Resolve keeps_ids_update_image keeps_ids_update_texture
  keeps_ids_logging_warning : keeps_ids.

Lemma keeps_ids_texture_slots_get self index :
  keeps_ids (FnMaterial.texture_slots_get self index).
Proof. unfold FnMaterial.texture_slots_get. keeps_ids_go. Qed.
Lemma keeps_ids_texture_slots_create self index :
  keeps_ids (FnMaterial.texture_slots_create self index).
Proof. unfold FnMaterial.texture_slots_create. keeps_ids_go. Qed.
Lemma keeps_ids_texture_slots_clear self index :
  keeps_ids (FnMaterial.texture_slots_clear self index).
Proof. unfold FnMaterial.texture_slots_clear. keeps_ids_go. Qed.
#[local] Hint Resolve keeps_ids_texture_slots_get
  keeps_ids_texture_slots_create keeps_ids_texture_slots_clear : keeps_ids.

Lemma keeps_ids_slot_read self index :
  keeps_ids (FnMaterial.slot_read self index).
Proof. unfold FnMaterial.slot_read. keeps_ids_go. Qed.
#[local] Hint Resolve keeps_ids_slot_read : keeps_ids.

Lemma keeps_ids_slot_assign self index f :
  keeps_ids (FnMaterial.slot_assign self index f).
Proof. unfold FnMaterial.slot_assign. keeps_ids_go. Qed.
#[local] Hint Resolve keeps_ids_slot_assign : keeps_ids.

Lemma keeps_ids_load_image h p : keeps_ids (FnMaterial.load_image h p).
Proof. unfold FnMaterial.load_image. keeps_ids_go. Qed.
#[local] Hint Resolve keeps_ids_load_image : keeps_ids.

Lemma keeps_ids_load_texture h p : keeps_ids (FnMaterial.load_texture h p).
Proof. unfold FnMaterial.load_texture. keeps_ids_go. Qed.
#[local] Hint Resolve keeps_ids_load_texture : keeps_ids.

Lemma keeps_ids_create_texture h p self :
  keeps_ids (FnMaterial.create_texture h p self).
Proof. unfold FnMaterial.create_texture. keeps_ids_go. Qed.

Lemma keeps_ids_remove_texture index self :
  keeps_ids (FnMaterial.remove_texture index self).
Proof. unfold FnMaterial.remove_texture. keeps_ids_go. Qed.

Lemma keeps_ids_clear_use_alpha self index :
  keeps_ids (FnMaterial.clear_use_alpha self index).
Proof. unfold FnMaterial.clear_use_alpha. keeps_ids_go. Qed.

Lemma keeps_ids_update_sphere_texture_type self :
  keeps_ids (FnMaterial.update_sphere_texture_type self).
Proof. unfold FnMaterial.update_sphere_texture_type. keeps_ids_go. Qed.
#[local] Hint Resolve keeps_ids_create_texture keeps_ids_remove_texture
  keeps_ids_clear_use_alpha keeps_ids_update_sphere_texture_type : keeps_ids.

Lemma keeps_ids_create_sphere_texture h p self :
  keeps_ids (FnMaterial.create_sphere_texture h p self).
Proof. unfold FnMaterial.create_sphere_texture. keeps_ids_go. Qed.

Lemma keeps_ids_create_toon_texture h p self :
  keeps_ids (FnMaterial.create_toon_texture h p self).
Proof. unfold FnMaterial.create_toon_texture. keeps_ids_go. Qed.
#[local] Hint Resolve keeps_ids_create_sphere_texture
  keeps_ids_create_toon_texture : keeps_ids.

Lemma keeps_ids_update_toon_texture h self :
  keeps_ids (FnMaterial.update_toon_texture h self).
Proof.
  unfold FnMaterial.update_toon_texture, FnMaterial.remove_toon_texture.
  keeps_ids_go.
Qed.

Lemma keeps_ids_update_self_shadow_map self :
  keeps_ids (FnMaterial.update_self_shadow_map self).
Proof. unfold FnMaterial.update_self_shadow_map. keeps_ids_go. Qed.

Lemma keeps_ids_update_self_shadow self :
  keeps_ids (FnMaterial.update_self_shadow self).
Proof. unfold FnMaterial.update_self_shadow. keeps_ids_go. Qed.
#[local] Hint Resolve keeps_ids_update_toon_texture
  keeps_ids_update_self_shadow_map keeps_ids_update_self_shadow : keeps_ids.

(** ** Uniqueness of the non-negative ids *)

Lemma unique_ids_same_ids (s s' : State) :
  ids s' = ids s → unique_ids s → unique_ids s'.
Proof.
  unfold ids. intros Hids Hu a b ma mb Ha Hb Hpos Heq.
  assert (∀ k m, materials s' !! k = Some m →
            ∃ m0, materials s !! k = Some m0 ∧
                  stored_material_id m0 = stored_material_id m) as Hback.
  { intros k m Hk.
    assert ((stored_material_id <$> materials s) !! k
            = Some (stored_material_id m)) as Hl
      by (by rewrite <- Hids, list_lookup_fmap, Hk).
    rewrite list_lookup_fmap in Hl.
    destruct (materials s !! k) as [m0|]; [|done].
    exists m0. split; [done|]. by injection Hl. }
  destruct (Hback _ _ Ha) as (ma0 & Ha0 & Hia).
  destruct (Hback _ _ Hb) as (mb0 & Hb0 & Hib).
  apply (Hu a b ma0 mb0); [done..|lia|congruence].
Qed.

Lemma material_id_inv self s v s' :
  FnMaterial.material_id self s = Some (v, s') →
  ∃ mat, materials s !! self = Some mat ∧
    (((stored_material_id mat < 0)%Z ∧
      v = (FnMaterial.max_material_id (materials s) + 1)%Z ∧
      s' = set_materials
             (<[self := set_mmd_material
                          (set_material_id v (mmd_material mat)) mat]>
                (materials s)) s) ∨
     ((0 ≤ stored_material_id mat)%Z ∧ v = stored_material_id mat ∧ s' = s)).
Proof.
  intros H.
  destruct (materials s !! self) as [mat|] eqn:E.
  - exists mat. split; [done|].
    destruct (decide (stored_material_id mat < 0)%Z) as [Hneg|Hpos].
    + left. rewrite (material_id_assigned _ _ _ E Hneg) in H.
      cbv zeta in H. injection H as <- <-. done.
    + right. rewrite (material_id_stored _ _ _ E) in H by lia.
      injection H as <- <-. split; [lia|done].
  - unfold FnMaterial.material_id, FnMaterial.the_material, bind, gets in H.
    by rewrite E in H.
Qed.

Lemma unique_ids_assign (s : State) self mat (v : Z) :
  materials s !! self = Some mat →
  (∀ k m, materials s !! k = Some m → (stored_material_id m < v)%Z) →
  unique_ids s →
  unique_ids (set_materials
                (<[self := set_mmd_material
                             (set_material_id v (mmd_material mat)) mat]>
                   (materials s)) s).
Proof.
  intros E Hlt Hu a b ma mb. cbn.
  assert (self < length (materials s)) as Hlen by (by eapply lookup_lt_Some).
  destruct (decide (a = self)) as [->|Ha], (decide (b = self)) as [->|Hb];
    [done|..].
  - rewrite list_lookup_insert_eq by done.
    rewrite list_lookup_insert_ne by done.
    intros [= <-] Hmb _. unfold stored_material_id at 1. cbn.
    intros Heq. specialize (Hlt _ _ Hmb). lia.
  - rewrite list_lookup_insert_ne by done.
    rewrite list_lookup_insert_eq by done.
    intros Hma [= <-] _. unfold stored_material_id at 2. cbn.
    intros Heq. specialize (Hlt _ _ Hma). lia.
  - rewrite !list_lookup_insert_ne by done. apply Hu.
Qed.

Lemma run_keeps_ids (h : Host) (self : nat) (op : Op) :
  op ≠ OpMaterialId → keeps_ids (run h self op).
Proof.
  destruct op; intros Hop; try done; cbn [run];
    unfold FnMaterial.from_material_id, FnMaterial.material,
      FnMaterial.remove_sphere_texture, FnMaterial.remove_toon_texture,
      FnMaterial.update_drop_shadow;
    keeps_ids_go.
Qed.

(** C6. Every operation of the layer that returns keeps the invariant
    "at most one material holds any given non-negative id"; and a read of
    [material_id] on an unassigned material returns, stores the id it
    returns in that material and changes no other material, and that id
    is strictly greater than every id in the scene at that moment, so no
    other material holds it afterwards. *)
Theorem unique_ids_invariant (h : Host) (self : nat) (op : Op) (s s' : State) :
  unique_ids s →
  run h self op s = Some (tt, s') →
  unique_ids s' ∧
  ∀ mat,
    materials s !! self = Some mat → (stored_material_id mat < 0)%Z →
    ∃ v s1,
      FnMaterial.material_id self s = Some (v, s1) ∧
      materials s1
        = <[self := set_mmd_material (set_material_id v (mmd_material mat)) mat]>
            (materials s) ∧
      stored_material_id <$> materials s1 !! self = Some v ∧
      (∀ k m, materials s !! k = Some m → (stored_material_id m < v)%Z) ∧
      (∀ k m, k ≠ self → materials s1 !! k = Some m →
              stored_material_id m ≠ v).
Proof.
  intros Hu Hrun. split.
  - destruct (decide (op = OpMaterialId)) as [->|Hop];
      [|eapply unique_ids_same_ids; [|exact Hu];
        exact (run_keeps_ids h self op Hop _ _ _ Hrun)].
    cbn [run] in Hrun.
    apply bind_inv in Hrun as (v & s1 & Hid & Hret).
    unfold ret in Hret. injection Hret as <-.
    apply material_id_inv in Hid as (mat & E & [(Hneg & -> & ->)|(_ & _ & ->)]);
      [|done].
    apply unique_ids_assign; [done| |done].
    intros k m Hk. pose proof (max_material_id_bounds (materials s)) as [_ Hb].
    specialize (Hb _ _ Hk). lia.
  - intros mat E Hneg.
    pose proof (material_id_assigned _ _ _ E Hneg) as Hid. cbv zeta in Hid.
    pose proof (max_material_id_bounds (materials s)) as [_ Hb].
    assert (self < length (materials s)) as Hlen by (by eapply lookup_lt_Some).
    eexists _, _. split; [exact Hid|]. cbn.
    split; [done|].
    split; [by rewrite list_lookup_insert_eq|].
    split.
    + intros k m Hk. specialize (Hb _ _ Hk). lia.
    + intros k m Hne Hk. rewrite list_lookup_insert_ne in Hk by done.
      specialize (Hb _ _ Hk). lia.
Qed.

Lemma unique_ids_invariant_witness :
  unique_ids (mkState [Example.blank 4; Example.blank 5; Example.blank (-1)] ∅ ∅ []) ∧
  ∃ v s1, FnMaterial.material_id 1 Example.scene3 = Some (v, s1) ∧
          stored_material_id <$> materials s1 !! 1 = Some v.
Proof.
  assert (unique_ids Example.scene3) as Hu
    by (intros [|[|[|a]]] [|[|[|b]]] ma mb; cbn; try done;
        intros [= <-] [= <-]; cbn; done).
  destruct (unique_ids_invariant Example.host 1 OpMaterialId Example.scene3
              (mkState [Example.blank 4; Example.blank 5; Example.blank (-1)]
                       ∅ ∅ []) Hu eq_refl) as [Hu' Hassign].
  split; [exact Hu'|].
  destruct (Hassign (Example.blank (-1)) eq_refl eq_refl)
    as (v & s1 & Hid & _ & Hstored & _).
  by exists v, s1.
Defined.

(** ** Slots of the wrapped material *)

Lemma with_material_lookup self s mat mat' :
  materials s !! self = Some mat →
  materials (with_material self mat' s) !! self = Some mat'.
Proof. apply lookup_set_materials. Qed.

Lemma with_material_again self s m1 m2 :
  with_material self m2 (with_material self m1 s) = with_material self m2 s.
Proof. unfold with_material. cbn. by rewrite list_insert_insert_eq. Qed.

Lemma update_material_with self f s mat :
  materials s !! self = Some mat →
  FnMaterial.update_material self f s = Some (tt, with_material self (f mat) s).
Proof. apply update_material_Some. Qed.

Lemma texture_slots_get_Some self index s mat :
  materials s !! self = Some mat → index < MAX_MTEX →
  FnMaterial.texture_slots_get self index s
  = Some (texture_slots mat !! index, s).
Proof.
  intros E Hi. unfold FnMaterial.texture_slots_get.
  rewrite (bind_Some _ _ _ _ _ (the_material_Some _ _ _ E)).
  by rewrite bool_decide_eq_true_2.
Qed.

Lemma slot_read_Some self index s mat sl :
  materials s !! self = Some mat → index < MAX_MTEX →
  texture_slots mat !! index = Some sl →
  FnMaterial.slot_read self index s = Some (sl, s).
Proof.
  intros E Hi Hsl. unfold FnMaterial.slot_read.
  rewrite (bind_Some _ _ _ _ _ (texture_slots_get_Some _ _ _ _ E Hi)).
  by rewrite Hsl.
Qed.

Lemma slot_assign_Some self index f s mat sl :
  materials s !! self = Some mat → index < MAX_MTEX →
  texture_slots mat !! index = Some sl →
  FnMaterial.slot_assign self index f s
  = Some (tt, with_material self (with_slot index (f sl) mat) s).
Proof.
  intros E Hi Hsl. unfold FnMaterial.slot_assign.
  rewrite (bind_Some _ _ _ _ _ (slot_read_Some _ _ _ _ _ E Hi Hsl)).
  by rewrite (update_material_with _ _ _ _ E).
Qed.

Lemma with_slot_lookup index sl mat :
  texture_slots (with_slot index sl mat) !! index = Some sl.
Proof. cbn. apply lookup_insert_eq. Qed.

Lemma with_slot_again index sl1 sl2 mat :
  with_slot index sl2 (with_slot index sl1 mat) = with_slot index sl2 mat.
Proof. unfold with_slot. cbn. by rewrite insert_insert_eq. Qed.

(** ** Shadow flags *)

(** C8. [update_self_shadow_map] never raises on a wrapped material: it
    stores [enabled_self_shadow_map] in [use_cast_buffer_shadows] in every
    case, stores it in [use_cast_shadows] too when the material has that
    attribute, and leaves the attribute absent when it is absent; nothing
    else in the scene changes. *)
Theorem update_self_shadow_map_flags (s : State) (self : nat) (mat : Material) :
  materials s !! self = Some mat →
  let v := enabled_self_shadow_map (mmd_material mat) in
  FnMaterial.update_self_shadow_map self s
  = Some (tt, with_material self
                (mkMaterial (mmd_material mat) (texture_slots mat) v
                   (match use_cast_shadows mat with
                    | Some _ => Some v
                    | None => None
                    end)
                   (use_shadows mat) (use_transparent_shadows mat)) s).
Proof.
  intros E v. unfold FnMaterial.update_self_shadow_map.
  rewrite (bind_Some _ _ _ _ _ (the_material_Some _ _ _ E)). cbv zeta.
  rewrite (bind_Some _ _ _ _ _ (update_material_with _ _ _ _ E)).
  erewrite bind_Some;
    [|by eapply the_material_Some, with_material_lookup].
  destruct mat as [p slots b [c|] sh tsh]; cbn.
  - erewrite update_material_with; [|by eapply with_material_lookup].
    by rewrite with_material_again.
  - done.
Qed.

Lemma update_self_shadow_map_flags_witness :
  FnMaterial.update_self_shadow_map 0 Example.scene1
  = Some (tt, mkState
                [mkMaterial (Example.props (-1)) ∅ true (Some true) false false]
                ∅ ∅ []).
Proof.
  refine (update_self_shadow_map_flags Example.scene1 0 (Example.blank (-1)) _).
  reflexivity.
Defined.

(** ** The sphere blend table *)

Lemma sphere_slot_after_update (s : State) (self : nat) (mat : Material) :
  materials s !! self = Some mat →
  let ty := sphere_texture_type (mmd_material mat) in
  match texture_slots mat !! FnMaterial.SPHERE_TEX_SLOT with
  | None => FnMaterial.update_sphere_texture_type self s = Some (tt, s)
  | Some sl =>
      ∃ sl',
        FnMaterial.update_sphere_texture_type self s
        = Some (tt, with_material self
                      (with_slot FnMaterial.SPHERE_TEX_SLOT sl' mat) s) ∧
        (ty = 1%Z → sl' = set_slot_blend_type "MULTIPLY" (set_slot_use true sl)) ∧
        (ty = 2%Z → sl' = set_slot_blend_type "ADD" (set_slot_use true sl)) ∧
        (ty = 3%Z → sl' = set_slot_blend_type "SUBTRACT" (set_slot_use true sl)) ∧
        (ty ≠ 1%Z → ty ≠ 2%Z → ty ≠ 3%Z → sl' = set_slot_use false sl)
  end.
Proof.
  intros E ty.
  assert (FnMaterial.SPHERE_TEX_SLOT < MAX_MTEX) as Hi
    by (unfold FnMaterial.SPHERE_TEX_SLOT, MAX_MTEX; lia).
  unfold FnMaterial.update_sphere_texture_type.
  rewrite (bind_Some _ _ _ _ _ (texture_slots_get_Some _ _ _ _ E Hi)).
  destruct (texture_slots mat !! FnMaterial.SPHERE_TEX_SLOT) as [sl|] eqn:Hsl;
    [|done].
  rewrite (bind_Some _ _ _ _ _ (the_material_Some _ _ _ E)). cbv zeta.
  fold ty.
  assert (∀ name k, ["MULTIPLY"; "ADD"; "SUBTRACT"] !! Z.to_nat (ty - 1) = Some name →
            ty = k → ty ∈ [1; 2; 3]%Z →
            ∃ sl', (FnMaterial.slot_assign self FnMaterial.SPHERE_TEX_SLOT
                      (set_slot_use true);;;
                    blend <- from_option
                      (["MULTIPLY"; "ADD"; "SUBTRACT"] !! Z.to_nat (ty - 1));;
                    FnMaterial.slot_assign self FnMaterial.SPHERE_TEX_SLOT
                      (set_slot_blend_type blend)) s
                   = Some (tt, with_material self
                        (with_slot FnMaterial.SPHERE_TEX_SLOT sl' mat) s) ∧
                   sl' = set_slot_blend_type name (set_slot_use true sl))
    as Hon.
  { intros name k Hname _ _.
    exists (set_slot_blend_type name (set_slot_use true sl)). split; [|done].
    rewrite (bind_Some _ _ _ _ _ (slot_assign_Some _ _ _ _ _ _ E Hi Hsl)).
    rewrite Hname. unfold from_option. unfold bind at 1, ret at 1.
    erewrite slot_assign_Some;
      [|by eapply with_material_lookup|done|apply with_slot_lookup].
    by rewrite with_material_again, with_slot_again. }
  case_bool_decide as Hty.
  - exists (set_slot_use false sl).
    rewrite (slot_assign_Some _ _ _ _ _ _ E Hi Hsl).
    split; [done|].
    repeat split; try done; intros Heq; exfalso; apply Hty; rewrite Heq;
      rewrite !elem_of_cons; tauto.
  - assert (ty = 1 ∨ ty = 2 ∨ ty = 3)%Z as Hcases
      by (revert Hty; rewrite !elem_of_cons, elem_of_nil; tauto).
    destruct Hcases as [H1|[H2|H3]].
    + destruct (Hon "MULTIPLY" 1%Z) as (sl' & Hr & ->); [by rewrite H1|done..|].
      eexists. split; [exact Hr|]. repeat split; try done; lia.
    + destruct (Hon "ADD" 2%Z) as (sl' & Hr & ->); [by rewrite H2|done..|].
      eexists. split; [exact Hr|]. repeat split; try done; lia.
    + destruct (Hon "SUBTRACT" 3%Z) as (sl' & Hr & ->); [by rewrite H3|done..|].
      eexists. split; [exact Hr|]. repeat split; try done; lia.
Qed.

(** C3. With a SPHERE slot present, [update_sphere_texture_type] enables
    the slot and sets its blend mode to MULTIPLY, ADD or SUBTRACT for the
    types 1, 2 and 3, and for every other type only clears the slot's
    [use] flag, the slot staying in place; without a SPHERE slot it
    returns in the state it was called in. *)
Theorem update_sphere_texture_type_table (s : State) (self : nat) (mat : Material) :
  materials s !! self = Some mat →
  let ty := sphere_texture_type (mmd_material mat) in
  match texture_slots mat !! FnMaterial.SPHERE_TEX_SLOT with
  | None => FnMaterial.update_sphere_texture_type self s = Some (tt, s)
  | Some sl =>
      ∃ sl',
        FnMaterial.update_sphere_texture_type self s
        = Some (tt, with_material self
                      (with_slot FnMaterial.SPHERE_TEX_SLOT sl' mat) s) ∧
        (ty = 1%Z → sl' = set_slot_blend_type "MULTIPLY" (set_slot_use true sl)) ∧
        (ty = 2%Z → sl' = set_slot_blend_type "ADD" (set_slot_use true sl)) ∧
        (ty = 3%Z → sl' = set_slot_blend_type "SUBTRACT" (set_slot_use true sl)) ∧
        (ty ≠ 1%Z → ty ≠ 2%Z → ty ≠ 3%Z → sl' = set_slot_use false sl)
  end.
Proof. apply sphere_slot_after_update. Qed.

Lemma update_sphere_texture_type_table_witness :
  ∃ sl',
    FnMaterial.update_sphere_texture_type 0 Example.scene_sphere
    = Some (tt, with_material 0 (with_slot 2 sl' (Example.shiny 2))
      Example.scene_sphere) ∧
    (2%Z = 1%Z → sl' = set_slot_blend_type "MULTIPLY"
                         (set_slot_use true Example.sphere_slot)) ∧
    (2%Z = 2%Z → sl' = set_slot_blend_type "ADD"
                         (set_slot_use true Example.sphere_slot)) ∧
    (2%Z = 3%Z → sl' = set_slot_blend_type "SUBTRACT"
                         (set_slot_use true Example.sphere_slot)) ∧
    (2%Z ≠ 1%Z → 2%Z ≠ 2%Z → 2%Z ≠ 3%Z →
     sl' = set_slot_use false Example.sphere_slot).
Proof.
  exact (update_sphere_texture_type_table Example.scene_sphere 0
           (Example.shiny 2) eq_refl).
Defined.

(** ** The toon texture *)

Lemma shared_toon_name_two_digits (k : Z) :
  (0 ≤ k ≤ 98)%Z →
  FnMaterial.shared_toon_name k = "toon" +:+ two_digits (k + 1) +:+ ".bmp".
Proof.
  intros Hk.
  assert (forallb (λ n, bool_decide
            (FnMaterial.shared_toon_name (Z.of_nat n)
             = "toon" +:+ two_digits (Z.of_nat n + 1) +:+ ".bmp"))
            (seq 0 99) = true) as Hall by (vm_compute; reflexivity).
  rewrite forallb_forall in Hall.
  specialize (Hall (Z.to_nat k)).
  rewrite Z2Nat.id in Hall by lia.
  eapply bool_decide_eq_true_1, Hall, in_seq. lia.
Qed.

(** The shared toon bitmap number 2 ends up in the TOON slot, loaded from
    [/toons/toon03.bmp]. *)
Example update_toon_texture_shared :
  (λ r, img_filepath <$>
          (texture_through r.2 0 FnMaterial.TOON_TEX_SLOT ≫= image_of r.2))
    <$> FnMaterial.update_toon_texture Example.host 0 Example.scene_toon
  = Some (Some "/toons/toon03.bmp").
Proof. vm_compute. reflexivity. Qed.

(** ** Scans of a store *)

Section find_store.
Context {A : Type} (P : nat * A → bool).

Lemma find_store_None (m : gmap nat A) :
  (∀ k v, m !! k = Some v → P (k, v) = false) →
  List.find P (map_to_list m) = None.
Proof.
  intros Hall. destruct (List.find P (map_to_list m)) as [[k v]|] eqn:E;
    [|done].
  apply find_some in E as [Hin HP].
  apply list_elem_of_In, elem_of_map_to_list in Hin.
  by rewrite (Hall _ _ Hin) in HP.
Qed.

Lemma find_store_Some (m : gmap nat A) k v :
  List.find P (map_to_list m) = Some (k, v) →
  m !! k = Some v ∧ P (k, v) = true.
Proof.
  intros E. apply find_some in E as [Hin HP].
  by apply list_elem_of_In, elem_of_map_to_list in Hin.
Qed.

Lemma find_store_None_inv (m : gmap nat A) k v :
  List.find P (map_to_list m) = None → m !! k = Some v → P (k, v) = false.
Proof.
  intros E Hk. eapply find_none in E; [exact E|].
  by apply list_elem_of_In, elem_of_map_to_list.
Qed.

(** After a fresh entry that passes the test joins a store in which no
    entry did, the scan returns the new entry. *)
Lemma find_store_fresh (m : gmap nat A) k v :
  (∀ k' v', m !! k' = Some v' → P (k', v') = false) →
  P (k, v) = true →
  List.find P (map_to_list (<[k := v]> m)) = Some (k, v).
Proof.
  intros Hold Hnew.
  destruct (List.find P (map_to_list (<[k := v]> m))) as [[k' v']|] eqn:E.
  - apply find_store_Some in E as [Hl HP].
    destruct (decide (k' = k)) as [->|Hne].
    + rewrite lookup_insert_eq in Hl. by injection Hl as <-.
    + rewrite lookup_insert_ne in Hl by done.
      by rewrite (Hold _ _ Hl) in HP.
  - eapply find_store_None_inv in E; [|apply lookup_insert_eq].
    by rewrite Hnew in E.
Qed.
End find_store.

Lemma fresh_image_free (s : State) : images s !! fresh (dom (images s)) = None.
Proof. apply not_elem_of_dom, is_fresh. Qed.

Lemma fresh_texture_free (s : State) :
  textures s !! fresh (dom (textures s)) = None.
Proof. apply not_elem_of_dom, is_fresh. Qed.

(** ** Loading an image *)

(** The three ways out of [__load_image]. *)
Lemma load_image_found h p s i img :
  List.find (λ kv, FnMaterial.same_image_file h (Some kv.2) p)
            (map_to_list (images s)) = Some (i, img) →
  FnMaterial.load_image h p s = Some (i, s).
Proof.
  intros E. unfold FnMaterial.load_image, bind, gets. by rewrite E.
Qed.

Lemma load_image_loaded h p s sz :
  List.find (λ kv, FnMaterial.same_image_file h (Some kv.2) p)
            (map_to_list (images s)) = None →
  image_file h p = Some sz →
  let i := fresh (dom (images s)) in
  FnMaterial.load_image h p s
  = Some (i, set_images
               (<[i := mkImage (os_path_basename h p) "FILE" p true sz]>
                  (images s)) s).
Proof.
  intros E Hf i. unfold FnMaterial.load_image, bind at 1, gets at 1.
  rewrite E. unfold try_except, images_load, bind, from_option.
  by rewrite Hf.
Qed.

Lemma load_image_failed h p s :
  List.find (λ kv, FnMaterial.same_image_file h (Some kv.2) p)
            (map_to_list (images s)) = None →
  image_file h p = None →
  let i := fresh (dom (images s)) in
  FnMaterial.load_image h p s
  = Some (i, mkState (materials s) (textures s)
               (<[i := mkImage (os_path_basename h p) "FILE" p true (1, 1)]>
                  (images s))
               (log s ++ ["Cannot create a texture for " +:+ p
                          +:+ ". No such file."])).
Proof.
  intros E Hf i. unfold FnMaterial.load_image, bind at 1, gets at 1.
  rewrite E. unfold try_except, images_load, bind at 1, from_option.
  rewrite Hf. unfold raise.
  unfold logging_warning, images_new, update_image, get_image, bind, gets,
    modify, ret, from_option. cbn.
  rewrite !lookup_insert_eq. cbn. rewrite !lookup_insert_eq. cbn.
  by rewrite !insert_insert_eq.
Qed.

(** C7. When no image of the store matches the path and the host cannot
    load the file, [load_image] does not raise: it returns a new image
    (an identity the store did not hold) of size 1x1 with source FILE and
    the requested path, and appends exactly one line to the log, the
    warning [Cannot create a texture for <path>. No such file.]; materials
    and textures are as before. *)
Theorem load_image_placeholder (h : Host) (p : string) (s : State) :
  (∀ i img, images s !! i = Some img →
            FnMaterial.same_image_file h (Some img) p = false) →
  image_file h p = None →
  ∃ i, images s !! i = None ∧
    FnMaterial.load_image h p s
    = Some (i, mkState (materials s) (textures s)
                 (<[i := mkImage (os_path_basename h p) "FILE" p true (1, 1)]>
                    (images s))
                 (log s ++ ["Cannot create a texture for " +:+ p
                            +:+ ". No such file."])).
Proof.
  intros Hnone Hf. exists (fresh (dom (images s))).
  split; [apply fresh_image_free|].
  apply load_image_failed; [|done].
  apply find_store_None. intros k v Hk. cbn. by eapply Hnone.
Qed.

Lemma load_image_placeholder_witness :
  ∃ i, images Example.scene1 !! i = None ∧
    FnMaterial.load_image Example.host "/proj/missing.png" Example.scene1
    = Some (i, mkState (materials Example.scene1) (textures Example.scene1)
                 (<[i := mkImage "missing.png" "FILE" "/proj/missing.png" true
                          (1, 1)]> (images Example.scene1))
                 ["Cannot create a texture for /proj/missing.png. No such file."]).
Proof.
  refine (load_image_placeholder Example.host "/proj/missing.png"
      Example.scene1 _ _).
  - intros i img Hi. cbn in Hi. by rewrite lookup_empty in Hi.
  - reflexivity.
Defined.

(** What a call of [load_image] leaves behind, whichever way it took. *)
Lemma load_image_result h p s :
  ∃ i s1, FnMaterial.load_image h p s = Some (i, s1) ∧
    materials s1 = materials s ∧ textures s1 = textures s ∧
    ((s1 = s ∧ ∃ img, images s !! i = Some img ∧
        FnMaterial.same_image_file h (Some img) p = true) ∨
     (images s !! i = None ∧
      (∀ k v, images s !! k = Some v →
              FnMaterial.same_image_file h (Some v) p = false) ∧
      ∃ img, images s1 = <[i := img]> (images s) ∧
        img_source img = "FILE" ∧ img_filepath img = p)).
Proof.
  destruct (List.find (λ kv, FnMaterial.same_image_file h (Some kv.2) p)
              (map_to_list (images s))) as [[i img]|] eqn:E.
  - exists i, s. rewrite (load_image_found _ _ _ _ _ E).
    apply find_store_Some in E as [Hl HP]. repeat split; try done.
    left. split; [done|]. by exists img.
  - assert (∀ k v, images s !! k = Some v →
              FnMaterial.same_image_file h (Some v) p = false) as Hnone
      by (intros k v Hk; exact (find_store_None_inv _ _ _ _ E Hk)).
    destruct (image_file h p) as [sz|] eqn:Hf.
    + eexists _, _. split; [exact (load_image_loaded _ _ _ _ E Hf)|].
      repeat split; try done. right.
      split; [apply fresh_image_free|]. split; [done|].
      eexists. by repeat split.
    + eexists _, _. split; [exact (load_image_failed _ _ _ E Hf)|].
      repeat split; try done. right.
      split; [apply fresh_image_free|]. split; [done|].
      eexists. by repeat split.
Qed.

Lemma same_image_file_of_file h p img :
  resolved h p → img_source img = "FILE" → img_filepath img = p →
  FnMaterial.same_image_file h (Some img) p = true.
Proof.
  intros Hp Hsrc Hpath. unfold FnMaterial.same_image_file, filepath_from_user.
  rewrite Hsrc, Hpath. rewrite bool_decide_eq_true_2 by done.
  case_bool_decide; [done|]. destruct Hp as [Hp|Hp]; [done|]. by rewrite Hp.
Qed.

Lemma same_image_file_true_inv h o p :
  FnMaterial.same_image_file h o p = true → ∃ img, o = Some img.
Proof. destruct o as [img|]; [by exists img|done]. Qed.

(** A second call of [load_image] with a resolved path finds the image
    the first call returned. *)
Lemma load_image_twice h p s :
  resolved h p →
  ∃ i s1, FnMaterial.load_image h p s = Some (i, s1) ∧
          FnMaterial.load_image h p s1 = Some (i, s1).
Proof.
  intros Hp.
  destruct (load_image_result h p s)
    as (i & s1 & Hload & _ & _ & [[-> _]|(Hfree & Hnone & img & Hi & Hsrc & Hpath)]).
  - by exists i, s.
  - exists i, s1. split; [done|].
    apply (load_image_found _ _ _ _ img). rewrite Hi.
    apply find_store_fresh; cbn; [done|].
    by apply same_image_file_of_file.
Qed.

(** ** Loading a texture *)

Lemma load_texture_found h p s t tx :
  List.find (texture_matches h p s) (map_to_list (textures s)) = Some (t, tx) →
  FnMaterial.load_texture h p s = Some (t, s).
Proof.
  intros E. unfold FnMaterial.load_texture, bind, gets, id.
  unfold texture_matches in E. by rewrite E.
Qed.

Lemma load_texture_new h p s i s_i :
  List.find (texture_matches h p s) (map_to_list (textures s)) = None →
  let t := fresh (dom (textures s)) in
  let name := bpy_path_display_name_from_filepath h p in
  FnMaterial.load_image h p
    (set_textures (<[t := mkTexture name "IMAGE" None true "REPEAT"]>
                     (textures s)) s) = Some (i, s_i) →
  textures s_i = <[t := mkTexture name "IMAGE" None true "REPEAT"]> (textures s) →
  FnMaterial.load_texture h p s
  = Some (t, set_textures
               (<[t := mkTexture name "IMAGE" (Some i) true "REPEAT"]>
                  (textures s)) s_i).
Proof.
  intros E t name Hload Htex.
  unfold FnMaterial.load_texture, bind at 1, gets at 1, id.
  unfold texture_matches in E. rewrite E.
  unfold textures_new, bind at 1, bind at 1, gets at 1. cbn beta.
  unfold bind at 1, modify at 1, ret at 1. fold t name.
  rewrite (bind_Some _ _ _ _ _ Hload).
  unfold update_texture, get_texture, bind, gets, modify, from_option, ret.
  rewrite Htex, lookup_insert_eq. cbn. by rewrite Htex, insert_insert_eq.
Qed.

(** What a call of [load_texture] leaves behind, whichever way it took. *)
Lemma load_texture_result h p s :
  ∃ t s1, FnMaterial.load_texture h p s = Some (t, s1) ∧
    materials s1 = materials s ∧
    ((s1 = s ∧ ∃ tx, textures s !! t = Some tx ∧
        texture_matches h p s (t, tx) = true) ∨
     (textures s !! t = None ∧
      (∀ k v, textures s !! k = Some v → texture_matches h p s (k, v) = false) ∧
      ∃ name i s_i,
        FnMaterial.load_image h p s = Some (i, s_i) ∧
        textures s1 = <[t := mkTexture name "IMAGE" (Some i) true "REPEAT"]>
                        (textures s) ∧
        images s1 = images s_i ∧ log s1 = log s_i)).
Proof.
  destruct (List.find (texture_matches h p s) (map_to_list (textures s)))
    as [[t tx]|] eqn:E.
  - exists t, s. rewrite (load_texture_found _ _ _ _ _ E).
    apply find_store_Some in E as [Hl HP]. repeat split; try done.
    left. split; [done|]. by exists tx.
  - set (t := fresh (dom (textures s))).
    set (name := bpy_path_display_name_from_filepath h p).
    set (s_a := set_textures (<[t := mkTexture name "IMAGE" None true "REPEAT"]>
                                (textures s)) s).
    destruct (load_image_result h p s_a) as (i & s_b & Hload & Hm & Ht & Hcase).
    exists t. eexists. split; [exact (load_texture_new _ _ _ _ _ E Hload Ht)|].
    split; [cbn; by rewrite Hm|]. right.
    split; [apply fresh_texture_free|].
    split; [intros k v Hk; exact (find_store_None_inv _ _ _ _ E Hk)|].
    destruct (load_image_result h p s) as (i' & s_i & Hload' & Hm' & Ht' & Hcase').
    exists name, i, s_i.
    (* the image store of [s_a] is that of [s]: both loads run alike *)
    assert (∃ r, FnMaterial.load_image h p s_a = Some (i', r) ∧
                 images r = images s_i ∧ log r = log s_i) as (r & Hr & Hri & Hrl).
    { revert Hload'. unfold FnMaterial.load_image, bind, gets, try_except,
        images_load, logging_warning, images_new, update_image, get_image,
        bind, gets, modify, ret, from_option, raise. cbn.
      destruct (List.find _ (map_to_list (images s))) as [[j imgj]|].
      - intros [= <- <-]. by eexists.
      - destruct (image_file h p) as [sz|].
        + intros [= <- <-]. by eexists.
        + rewrite !lookup_insert_eq. cbn. rewrite !lookup_insert_eq. cbn.
          intros [= <- <-]. by eexists. }
    rewrite Hload in Hr. injection Hr as -> ->.
    by rewrite Hload'.
Qed.

Lemma load_texture_twice h p s :
  resolved h p → images_linked s →
  ∃ t s1, FnMaterial.load_texture h p s = Some (t, s1) ∧
          FnMaterial.load_texture h p s1 = Some (t, s1).
Proof.
  intros Hp Hlinked.
  destruct (load_texture_result h p s)
    as (t & s1 & Hload & _ &
        [[-> _]|(Hfree & Hnone & name & i & s_i & Himg & Htex & Hims & _)]).
  - by exists t, s.
  - exists t, s1. split; [done|].
    apply (load_texture_found _ _ _ _
             (mkTexture name "IMAGE" (Some i) true "REPEAT")).
    rewrite Htex.
    destruct (load_image_result h p s)
      as (i' & s_i' & Himg' & _ & _ & Hcase).
    rewrite Himg in Himg'. injection Himg' as <- <-.
    destruct Hcase as [[-> (img & Hi & Hsame)]
                      |(Hifree & Hinone & img & Hi & Hsrc & Hpath)].
    + apply find_store_fresh.
      * intros k v Hk. rewrite <- (Hnone _ _ Hk).
        unfold texture_matches, image_of. by rewrite Hims.
      * unfold texture_matches, image_of. cbn. by rewrite Hims, Hi.
    + apply find_store_fresh.
      * intros k v Hk. unfold texture_matches, image_of. cbn.
        apply andb_false_intro2.
        destruct (tex_image v) as [j|] eqn:Hj; [|done]. cbn.
        destruct (Hlinked _ _ _ Hk Hj) as [imgj Himgj].
        rewrite Hims, Hi, lookup_insert_ne by congruence.
        rewrite Himgj. by eapply Hinone.
      * unfold texture_matches, image_of. cbn.
        rewrite Hims, Hi, lookup_insert_eq.
        by apply same_image_file_of_file.
Qed.

(** C2, amended.  Called twice with the same resolved path (one that the
    host's path resolution leaves as it is, or maps to the same file),
    [load_image] returns the same image both times, and the second call
    changes nothing: it finds the image the first call found, loaded or
    created as a placeholder.  The same holds for [load_texture] in a
    store whose textures point to stored images. *)
Theorem load_twice_same_instance (h : Host) (p : string) (s : State) :
  resolved h p →
  (∃ i s1, FnMaterial.load_image h p s = Some (i, s1) ∧
           FnMaterial.load_image h p s1 = Some (i, s1)) ∧
  (images_linked s →
   ∃ t s1, FnMaterial.load_texture h p s = Some (t, s1) ∧
           FnMaterial.load_texture h p s1 = Some (t, s1)).
Proof.
  intros Hp. split.
  - by apply load_image_twice.
  - by apply load_texture_twice.
Qed.

Lemma load_twice_same_instance_witness :
  ∃ i s1,
    FnMaterial.load_image Example.host "/proj/missing.png" Example.scene1
    = Some (i, s1) ∧
    FnMaterial.load_image Example.host "/proj/missing.png" s1 = Some (i, s1).
Proof.
  refine (proj1 (load_twice_same_instance Example.host "/proj/missing.png"
      Example.scene1 _)).
  left. reflexivity.
Defined.

(** A path the host still has to resolve is outside C2: the image loaded
    for [//tex.png] reports [/proj/tex.png], the file system knows no
    [//tex.png], and a second call loads the file again. *)
Example load_image_unresolved_path :
  (s1 ← FnMaterial.load_image Example.host "//tex.png" Example.scene1;
   s2 ← FnMaterial.load_image Example.host "//tex.png" s1.2;
   Some (s1.1, s2.1)) = Some (0, 1).
Proof. vm_compute. reflexivity. Qed.

(** ** Loading leaves the materials alone *)

Lemma load_image_frame h p s s' :
  images s' = images s → log s' = log s →
  FnMaterial.load_image h p s'
  = (λ r, (r.1, mkState (materials s') (textures s') (images r.2) (log r.2)))
      <$> FnMaterial.load_image h p s.
Proof.
  destruct s as [ms ts ims lg], s' as [ms' ts' ims' lg']. cbn.
  intros -> ->.
  unfold FnMaterial.load_image, bind, gets, try_except, images_load,
    logging_warning, images_new, update_image, get_image, bind, gets, modify,
    ret, from_option, raise. cbn.
  destruct (List.find _ (map_to_list ims)) as [[j imgj]|]; [done|].
  destruct (image_file h p) as [sz|]; [done|].
  rewrite !lookup_insert_eq. cbn. by rewrite !lookup_insert_eq.
Qed.

Lemma load_texture_unfold h p s :
  FnMaterial.load_texture h p s
  = match List.find (texture_matches h p s) (map_to_list (textures s)) with
    | Some (t, _) => Some (t, s)
    | None =>
        let t := fresh (dom (textures s)) in
        match FnMaterial.load_image h p
                (set_textures
                   (<[t := mkTexture (bpy_path_display_name_from_filepath h p)
                             "IMAGE" None true "REPEAT"]> (textures s)) s) with
        | Some (i, s_i) =>
            (update_texture t (set_tex_image (Some i)) ;;; ret t) s_i
        | None => None
        end
    end.
Proof.
  unfold FnMaterial.load_texture, bind at 1, gets at 1, id.
  unfold texture_matches.
  destruct (List.find _ (map_to_list (textures s))) as [[t tx]|]; [done|].
  reflexivity.
Qed.

Lemma load_texture_frame h p s ms :
  FnMaterial.load_texture h p (set_materials ms s)
  = (λ r, (r.1, set_materials ms r.2)) <$> FnMaterial.load_texture h p s.
Proof.
  rewrite !load_texture_unfold.
  change (texture_matches h p (set_materials ms s))
    with (texture_matches h p s).
  change (textures (set_materials ms s)) with (textures s).
  destruct (List.find _ (map_to_list (textures s))) as [[t tx]|]; [done|].
  cbv zeta.
  set (t := fresh (dom (textures s))).
  set (new := mkTexture _ _ _ _ _).
  rewrite (load_image_frame h p s
             (set_textures (<[t := new]> (textures s)) (set_materials ms s)))
    by done.
  rewrite (load_image_frame h p s (set_textures (<[t := new]> (textures s)) s))
    by done.
  destruct (FnMaterial.load_image h p s) as [[i s_i]|]; [|done]. cbn.
  unfold update_texture, get_texture, bind, gets, modify, from_option, ret.
  cbn. by rewrite !lookup_insert_eq.
Qed.

(** ** Creating the slots *)

Lemma texture_slots_create_Some self index s mat :
  materials s !! self = Some mat → index < MAX_MTEX →
  FnMaterial.texture_slots_create self index s
  = Some (index,
          with_material self (with_slot index FnMaterial.default_slot mat) s).
Proof.
  intros E Hi. unfold FnMaterial.texture_slots_create.
  rewrite bool_decide_eq_true_2 by done.
  by rewrite (bind_Some _ _ _ _ _ (update_material_with _ _ _ _ E)).
Qed.

Lemma texture_slots_clear_Some self index s mat :
  materials s !! self = Some mat → index < MAX_MTEX →
  FnMaterial.texture_slots_clear self index s
  = Some (tt, with_material self (without_slot index mat) s).
Proof.
  intros E Hi. unfold FnMaterial.texture_slots_clear.
  rewrite bool_decide_eq_true_2 by done.
  by rewrite (update_material_with _ _ _ _ E).
Qed.

(** One assignment through the slot object that [create] returned. *)
Lemma slot_assign_created self index f s mat0 mat sl :
  materials s !! self = Some mat0 → index < MAX_MTEX →
  FnMaterial.slot_assign self index f
    (with_material self (with_slot index sl mat) s)
  = Some (tt, with_material self (with_slot index (f sl) mat) s).
Proof.
  intros E Hi.
  erewrite slot_assign_Some;
    [|by eapply with_material_lookup|done|apply with_slot_lookup].
  by rewrite with_material_again, with_slot_again.
Qed.

Lemma with_material_set_materials self mat s s_l :
  with_material self mat
    (set_materials (materials (with_material self mat s)) s_l)
  = set_materials (<[self := mat]> (materials s)) s_l.
Proof. unfold with_material. cbn. by rewrite list_insert_insert_eq. Qed.

Lemma create_texture_result h p self s mat t s_l :
  materials s !! self = Some mat →
  FnMaterial.load_texture h p s = Some (t, s_l) →
  FnMaterial.create_texture h p self s
  = Some (FnMaterial.BASE_TEX_SLOT,
          set_materials
            (<[self := with_slot FnMaterial.BASE_TEX_SLOT
                         (mkSlot true true "UV" "MULTIPLY" (Some t)) mat]>
               (materials s)) s_l).
Proof.
  intros E Hload.
  assert (FnMaterial.BASE_TEX_SLOT < MAX_MTEX) as Hi
    by (unfold FnMaterial.BASE_TEX_SLOT, MAX_MTEX; lia).
  unfold FnMaterial.create_texture.
  rewrite (bind_Some _ _ _ _ _ (texture_slots_create_Some _ _ _ _ E Hi)).
  do 3 rewrite (bind_Some _ _ _ _ _ (slot_assign_created _ _ _ _ _ _ _ E Hi)).
  cbn [FnMaterial.default_slot set_slot_use_map_alpha set_slot_texture_coords
       set_slot_blend_type slot_use slot_use_map_alpha slot_texture_coords
       slot_blend_type slot_texture].
  set (m3 := with_slot _ _ mat).
  change (with_material self m3 s)
    with (set_materials (materials (with_material self m3 s)) s).
  rewrite (bind_Some _ _ _ _ _
             (eq_trans (load_texture_frame h p s _)
                       (f_equal (fmap _) Hload))).
  cbn [fst snd].
  set (s3 := set_materials (materials (with_material self m3 s)) s_l).
  assert (materials s3 !! self = Some m3) as E3
    by (cbn; apply list_lookup_insert_eq; by eapply lookup_lt_Some).
  rewrite (bind_Some _ _ _ _ _
             (slot_assign_Some _ _ (set_slot_texture (Some t)) _ _ _ E3 Hi
                (with_slot_lookup _ _ _))).
  unfold ret, with_material, s3, m3. cbn.
  by rewrite list_insert_insert_eq, with_slot_again.
Qed.

(** [load_texture] always returns, and what it returns is a stored image
    texture that wraps a stored image. *)
Lemma load_texture_linked h p s :
  ∃ t s_l tx i img,
    FnMaterial.load_texture h p s = Some (t, s_l) ∧
    materials s_l = materials s ∧
    textures s_l !! t = Some tx ∧ tex_type tx = "IMAGE" ∧
    tex_image tx = Some i ∧ images s_l !! i = Some img.
Proof.
  destruct (load_texture_result h p s)
    as (t & s_l & Hload & Hm &
        [[-> (tx & Ht & Hmatch)]
        |(Hfree & Hnone & name & i & s_i & Himg & Htex & Hims & _)]).
  - unfold texture_matches in Hmatch. cbn in Hmatch.
    apply andb_true_iff in Hmatch as [Hty Hsame].
    apply bool_decide_eq_true_1 in Hty.
    apply same_image_file_true_inv in Hsame as [img Himg].
    unfold image_of in Himg.
    destruct (tex_image tx) as [i|] eqn:Hi; [|done]. cbn in Himg.
    by exists t, s, tx, i, img.
  - destruct (load_image_result h p s)
      as (i' & s_i' & Himg' & _ & _ & Hcase).
    rewrite Himg in Himg'. injection Himg' as <- <-.
    assert (∃ img, images s_i !! i = Some img) as [img Hi].
    { destruct Hcase as [[-> (img & Hi & _)]|(_ & _ & img & Hi & _)].
      - by exists img.
      - exists img. by rewrite Hi, lookup_insert_eq. }
    exists t, s_l, (mkTexture name "IMAGE" (Some i) true "REPEAT"), i, img.
    repeat split; try done.
    + by rewrite Htex, lookup_insert_eq.
    + by rewrite Hims.
Qed.

(** ** Reference counts *)

Lemma slot_users_zero t mat :
  slot_users t mat = 0 ↔
  ∀ k sl, texture_slots mat !! k = Some sl → slot_texture sl ≠ Some t.
Proof.
  unfold slot_users. rewrite map_size_empty_iff, map_empty_filter.
  unfold map_Forall. cbn. done.
Qed.

Lemma sum_list_zero (l : list nat) : sum_list l = 0 ↔ ∀ x, x ∈ l → x = 0.
Proof.
  induction l as [|x l IH]; cbn.
  - split; [|done]. intros _ x Hx. by apply elem_of_nil in Hx.
  - split.
    + intros Hs y Hy. apply elem_of_cons in Hy as [->|Hy]; [lia|].
      apply IH; [lia|done].
    + intros Hall. rewrite (Hall x) by apply list_elem_of_here.
      apply IH. intros y Hy. apply Hall. by apply list_elem_of_further.
Qed.

Lemma tex_users_zero t s :
  tex_users t s = 0 ↔
  ∀ m k sl, slot_at s m k = Some sl → slot_texture sl ≠ Some t.
Proof.
  unfold tex_users. rewrite sum_list_zero. split.
  - intros Hall m k sl Hslot. unfold slot_at in Hslot.
    destruct (materials s !! m) as [mat|] eqn:Hm; [|done]. cbn in Hslot.
    assert (slot_users t mat = 0) as Hz.
    { apply Hall, list_elem_of_fmap. exists mat. split; [done|].
      by eapply list_elem_of_lookup_2. }
    by eapply slot_users_zero in Hz.
  - intros Hnone x Hx. apply list_elem_of_fmap in Hx as (mat & -> & Hin).
    apply list_elem_of_lookup in Hin as [m Hm].
    apply slot_users_zero. intros k sl Hk. apply (Hnone m k).
    unfold slot_at. by rewrite Hm.
Qed.

Lemma img_users_zero i s :
  img_users i s = 0 ↔
  ∀ t tx, textures s !! t = Some tx → tex_image tx ≠ Some i.
Proof.
  unfold img_users. rewrite map_size_empty_iff, map_empty_filter.
  unfold map_Forall. cbn. done.
Qed.

(** ** Removing a slot *)

Lemma remove_texture_result index self s mat sl t tx :
  materials s !! self = Some mat → index < MAX_MTEX →
  texture_slots mat !! index = Some sl → slot_texture sl = Some t →
  textures s !! t = Some tx →
  let s_c := with_material self (without_slot index mat) s in
  let s_t := set_textures (delete t (textures s)) s_c in
  FnMaterial.remove_texture index self s
  = Some (tt,
          if bool_decide (tex_users t s_c < 1) then
            match tex_image tx with
            | Some i =>
                if bool_decide (img_users i s_t < 1)
                then set_images (delete i (images s)) s_t
                else s_t
            | None => s_t
            end
          else s_c).
Proof.
  intros E Hi Hsl Ht Htx s_c s_t. unfold FnMaterial.remove_texture.
  rewrite (bind_Some _ _ _ _ _ (texture_slots_get_Some _ _ _ _ E Hi)).
  rewrite Hsl. cbv zeta. rewrite Ht.
  rewrite (bind_Some _ _ _ _ _ (texture_slots_clear_Some _ _ _ _ E Hi)).
  fold s_c. unfold bind at 1, gets at 1.
  destruct (bool_decide (tex_users t s_c < 1)); [|done].
  unfold get_texture, update_texture, get_texture, textures_remove,
    images_remove, bind, gets, modify, from_option, ret. cbn.
  rewrite Htx. cbn. rewrite Htx. cbn. rewrite delete_insert_eq.
  destruct (tex_image tx) as [i|]; [|done].
  change (set_textures (delete t (textures s)) (set_textures _ s_c)) with s_t.
  by destruct (bool_decide (img_users i s_t < 1)).
Qed.

Lemma slot_at_cleared self index s mat m k :
  materials s !! self = Some mat →
  slot_at (with_material self (without_slot index mat) s) m k
  = if decide (m = self ∧ k = index) then None else slot_at s m k.
Proof.
  intros E. unfold slot_at, with_material. cbn.
  assert (self < length (materials s)) as Hlen by (by eapply lookup_lt_Some).
  destruct (decide (m = self)) as [->|Hm].
  - rewrite list_lookup_insert_eq by done. rewrite E. cbn.
    destruct (decide (k = index)) as [->|Hk].
    + rewrite decide_True by done. apply lookup_delete_eq.
    + rewrite decide_False by (by intros [_ ?]). by apply lookup_delete_ne.
  - rewrite list_lookup_insert_ne by done.
    by rewrite decide_False by (by intros [? _]).
Qed.

(** C1. [create_texture] followed by [remove_texture] on the BASE slot:
    both calls return and the BASE slot is empty afterwards.  If no other
    slot of any material points to the texture the slot held, that texture
    is deleted, and its image is deleted with it exactly when no other
    texture wraps the image: the image's users are counted after the
    texture is gone, so the texture's own hold does not count.  If some
    other slot still points to the texture, the texture store and the
    image store are untouched. *)
Theorem create_then_remove_texture (h : Host) (p : string) (self : nat)
    (s : State) (mat : Material) :
  materials s !! self = Some mat →
  ∃ s1 t tx i s2,
    FnMaterial.create_texture h p self s
      = Some (FnMaterial.BASE_TEX_SLOT, s1) ∧
    slot_at s1 self FnMaterial.BASE_TEX_SLOT ≫= slot_texture = Some t ∧
    textures s1 !! t = Some tx ∧ tex_image tx = Some i ∧
    is_Some (images s1 !! i) ∧
    FnMaterial.remove_texture FnMaterial.BASE_TEX_SLOT self s1 = Some (tt, s2) ∧
    slot_at s2 self FnMaterial.BASE_TEX_SLOT = None ∧
    ((∀ m k sl, slot_at s1 m k = Some sl → slot_texture sl = Some t →
                m = self ∧ k = FnMaterial.BASE_TEX_SLOT) →
     textures s2 = delete t (textures s1) ∧
     ((∀ t' tx', textures s1 !! t' = Some tx' → tex_image tx' = Some i →
                 t' = t) →
      images s2 = delete i (images s1)) ∧
     ((∃ t' tx', t' ≠ t ∧ textures s1 !! t' = Some tx' ∧
                 tex_image tx' = Some i) →
      images s2 = images s1)) ∧
    ((∃ m k sl, slot_at s1 m k = Some sl ∧ slot_texture sl = Some t ∧
                (m, k) ≠ (self, FnMaterial.BASE_TEX_SLOT)) →
     textures s2 = textures s1 ∧ images s2 = images s1).
Proof.
  intros E.
  assert (FnMaterial.BASE_TEX_SLOT < MAX_MTEX) as Hi
    by (unfold FnMaterial.BASE_TEX_SLOT, MAX_MTEX; lia).
  assert (self < length (materials s)) as Hlen by (by eapply lookup_lt_Some).
  destruct (load_texture_linked h p s)
    as (t & s_l & tx & i & img & Hload & Hm & Htx & _ & Himg & Hi_img).
  set (slotT := mkSlot true true "UV" "MULTIPLY" (Some t)).
  set (m1 := with_slot FnMaterial.BASE_TEX_SLOT slotT mat).
  set (s1 := set_materials (<[self := m1]> (materials s)) s_l).
  assert (materials s1 !! self = Some m1) as E1
    by (cbn; by apply list_lookup_insert_eq).
  assert (texture_slots m1 !! FnMaterial.BASE_TEX_SLOT = Some slotT) as Hsl
    by apply with_slot_lookup.
  pose proof (remove_texture_result _ _ _ _ _ _ _ E1 Hi Hsl eq_refl Htx) as Hrm.
  cbv zeta in Hrm. rewrite Himg in Hrm.
  set (s_c := with_material self (without_slot FnMaterial.BASE_TEX_SLOT m1) s1)
    in Hrm.
  set (s_t := set_textures (delete t (textures s1)) s_c) in Hrm.
  assert (∀ m k, slot_at s_c m k
                 = if decide (m = self ∧ k = FnMaterial.BASE_TEX_SLOT)
                   then None else slot_at s1 m k) as Hcleared
    by (intros m k; by apply slot_at_cleared).
  eexists s1, t, tx, i, _.
  split; [exact (create_texture_result _ _ _ _ _ _ _ E Hload)|].
  split.
  { unfold slot_at. rewrite E1.
    change (texture_slots m1 !! FnMaterial.BASE_TEX_SLOT ≫= slot_texture
            = Some t).
    by rewrite Hsl. }
  split; [done|]. split; [done|]. split; [by exists img|].
  split; [exact Hrm|].
  split.
  { assert (slot_at s_c self FnMaterial.BASE_TEX_SLOT = None) as Hgone
      by (rewrite Hcleared; by rewrite decide_True).
    destruct (bool_decide (tex_users t s_c < 1)); [|done].
    by destruct (bool_decide (img_users i s_t < 1)). }
  split.
  - intros Honly.
    assert (tex_users t s_c = 0) as Hzero.
    { apply tex_users_zero. intros m k sl Hslot Href.
      rewrite Hcleared in Hslot. case_decide as Hmk; [done|].
      apply Hmk. by eapply Honly. }
    rewrite bool_decide_eq_true_2 by lia.
    split; [by destruct (bool_decide (img_users i s_t < 1))|]. split.
    + intros Hsole.
      assert (img_users i s_t = 0) as Hz.
      { apply img_users_zero. intros t' tx' Ht' Hi'. cbn in Ht'.
        apply lookup_delete_Some in Ht' as [Hne Ht'].
        apply Hne. symmetry. by eapply Hsole. }
      by rewrite bool_decide_eq_true_2 by lia.
    + intros (t' & tx' & Hne & Ht' & Hi').
      assert (img_users i s_t ≠ 0) as Hnz.
      { intros Hz. eapply img_users_zero in Hz; [by apply Hz|].
        cbn. by rewrite lookup_delete_ne. }
      by rewrite bool_decide_eq_false_2 by lia.
  - intros (m & k & sl & Hslot & Href & Hne).
    assert (tex_users t s_c ≠ 0) as Hnz.
    { intros Hz. eapply tex_users_zero in Hz; [by apply Hz|].
      rewrite Hcleared. rewrite decide_False; [done|].
      intros [-> ->]. by apply Hne. }
    by rewrite bool_decide_eq_false_2 by lia.
Qed.

Lemma create_then_remove_texture_witness :
  ∃ s1 s2,
    FnMaterial.create_texture Example.host "/proj/tex.png" 0 Example.scene1
      = Some (FnMaterial.BASE_TEX_SLOT, s1) ∧
    FnMaterial.remove_texture FnMaterial.BASE_TEX_SLOT 0 s1 = Some (tt, s2).
Proof.
  destruct (create_then_remove_texture Example.host "/proj/tex.png" 0
      Example.scene1 (Example.blank (-1)) eq_refl)
    as (s1 & t & tx & i & s2 & Hcreate & _ & _ & _ & _ & Hremove & _).
  exists s1, s2. split; assumption.
Defined.

(** The sole user of a texture takes texture and image with it; with a
    second material on the same file both stay. *)
Example remove_texture_sole_user :
  (r ← FnMaterial.create_texture Example.host "/proj/tex.png" 0 Example.scene1;
   FnMaterial.remove_texture FnMaterial.BASE_TEX_SLOT 0 r.2)
  = Some (tt, Example.scene1).
Proof. vm_compute. reflexivity. Qed.

Example remove_texture_shared :
  (r0 ← FnMaterial.create_texture Example.host "/proj/tex.png" 0 Example.scene3;
   r1 ← FnMaterial.create_texture Example.host "/proj/tex.png" 1 r0.2;
   r2 ← FnMaterial.remove_texture FnMaterial.BASE_TEX_SLOT 0 r1.2;
   Some (bool_decide (textures r2.2 = textures r1.2),
         bool_decide (images r2.2 = images r1.2),
         size (textures r2.2), size (images r2.2)))
  = Some (true, true, 1, 1).
Proof. vm_compute. reflexivity. Qed.

(** ** Alpha and extension of a shared texture *)

Lemma clear_use_alpha_result self index s mat sl t tx i img :
  materials s !! self = Some mat → index < MAX_MTEX →
  texture_slots mat !! index = Some sl → slot_texture sl = Some t →
  textures s !! t = Some tx → tex_image tx = Some i →
  images s !! i = Some img →
  FnMaterial.clear_use_alpha self index s
  = Some (tt, mkState (materials s)
                (<[t := set_tex_use_alpha false tx]> (textures s))
                (<[i := set_img_use_alpha false img]> (images s))
                (log s)).
Proof.
  intros E Hi Hsl Ht Htx Hti Himg. unfold FnMaterial.clear_use_alpha.
  rewrite (bind_Some _ _ _ _ _ (slot_read_Some _ _ _ _ _ E Hi Hsl)).
  rewrite Ht. unfold from_option at 1, bind at 1, ret at 1.
  unfold update_texture at 1, get_texture at 1.
  unfold bind at 1, bind at 1, bind at 1, gets at 1. rewrite Htx.
  unfold from_option at 1, ret at 1, modify at 1.
  set (s' := set_textures _ s).
  assert (materials s' !! self = Some mat) as E' by done.
  rewrite (bind_Some _ _ _ _ _ (slot_read_Some _ _ _ _ _ E' Hi Hsl)).
  rewrite Ht. unfold from_option at 1, bind at 1, ret at 1.
  unfold get_texture, update_image, get_image, bind, gets, modify,
    from_option, ret.
  subst s'. cbn. rewrite lookup_insert_eq. cbn. rewrite Hti. cbn.
  by rewrite Himg.
Qed.

Lemma create_toon_texture_result h p self s mat t s_l tx i img :
  materials s !! self = Some mat →
  FnMaterial.load_texture h p s = Some (t, s_l) →
  textures s_l !! t = Some tx → tex_image tx = Some i →
  images s_l !! i = Some img →
  FnMaterial.create_toon_texture h p self s
  = Some (FnMaterial.TOON_TEX_SLOT,
          mkState
            (<[self := with_slot FnMaterial.TOON_TEX_SLOT
                         (mkSlot true false "NORMAL" "MULTIPLY" (Some t)) mat]>
               (materials s))
            (<[t := set_tex_extension "EXTEND" (set_tex_use_alpha false tx)]>
               (textures s_l))
            (<[i := set_img_use_alpha false img]> (images s_l))
            (log s_l)).
Proof.
  intros E Hload Htx Hti Himg.
  assert (FnMaterial.TOON_TEX_SLOT < MAX_MTEX) as Hi
    by (unfold FnMaterial.TOON_TEX_SLOT, MAX_MTEX; lia).
  assert (self < length (materials s)) as Hlen by (by eapply lookup_lt_Some).
  unfold FnMaterial.create_toon_texture.
  rewrite (bind_Some _ _ _ _ _ (texture_slots_create_Some _ _ _ _ E Hi)).
  do 2 rewrite (bind_Some _ _ _ _ _ (slot_assign_created _ _ _ _ _ _ _ E Hi)).
  set (m2 := with_slot _ _ mat).
  change (with_material self m2 s)
    with (set_materials (materials (with_material self m2 s)) s).
  rewrite (bind_Some _ _ _ _ _
             (eq_trans (load_texture_frame h p s _)
                       (f_equal (fmap _) Hload))).
  cbn [fst snd].
  set (s2 := set_materials (materials (with_material self m2 s)) s_l).
  assert (materials s2 !! self = Some m2) as E2
    by (cbn; by apply list_lookup_insert_eq).
  rewrite (bind_Some _ _ _ _ _
             (slot_assign_Some _ _ (set_slot_texture (Some t)) _ _ _ E2 Hi
                (with_slot_lookup _ _ _))).
  set (sl3 := set_slot_texture (Some t) _).
  set (m3 := with_slot FnMaterial.TOON_TEX_SLOT sl3 m2).
  set (s3 := with_material self m3 s2).
  assert (materials s3 !! self = Some m3) as E3
    by (by eapply with_material_lookup).
  assert (texture_slots m3 !! FnMaterial.TOON_TEX_SLOT = Some sl3) as Hsl3
    by apply with_slot_lookup.
  rewrite (bind_Some _ _ _ _ _
             (clear_use_alpha_result _ _ s3 _ _ _ _ _ _ E3 Hi Hsl3 eq_refl
                Htx Hti Himg)).
  set (s4 := mkState (materials s3) _ _ _).
  assert (materials s4 !! self = Some m3) as E4 by done.
  rewrite (bind_Some _ _ _ _ _ (slot_read_Some _ _ _ _ _ E4 Hi Hsl3)).
  unfold from_option at 1. cbn [slot_texture sl3 set_slot_texture].
  unfold bind at 1, ret at 1.
  unfold update_texture, get_texture, bind, gets, modify, from_option, ret.
  subst s4. cbn. rewrite lookup_insert_eq. cbn.
  rewrite insert_insert_eq, !list_insert_insert_eq.
  unfold m3, sl3, m2. by rewrite with_slot_again.
Qed.

Lemma sphere_slot_keeps_texture (s : State) (self : nat) (mat : Material) sl :
  materials s !! self = Some mat →
  texture_slots mat !! FnMaterial.SPHERE_TEX_SLOT = Some sl →
  ∃ sl', FnMaterial.update_sphere_texture_type self s
         = Some (tt, with_material self
                       (with_slot FnMaterial.SPHERE_TEX_SLOT sl' mat) s) ∧
         slot_texture sl' = slot_texture sl.
Proof.
  intros E Hsl. pose proof (sphere_slot_after_update s self mat E) as H.
  cbv zeta in H. rewrite Hsl in H.
  destruct H as (sl' & Hr & H1 & H2 & H3 & H0).
  exists sl'. split; [done|].
  set (ty := sphere_texture_type (mmd_material mat)) in *.
  destruct (decide (ty = 1%Z)) as [e|n1]; [by rewrite (H1 e)|].
  destruct (decide (ty = 2%Z)) as [e|n2]; [by rewrite (H2 e)|].
  destruct (decide (ty = 3%Z)) as [e|n3]; [by rewrite (H3 e)|].
  by rewrite (H0 n1 n2 n3).
Qed.

Lemma create_sphere_texture_result h p self s mat t s_l tx i img :
  materials s !! self = Some mat →
  FnMaterial.load_texture h p s = Some (t, s_l) →
  textures s_l !! t = Some tx → tex_image tx = Some i →
  images s_l !! i = Some img →
  ∃ sl', slot_texture sl' = Some t ∧
    FnMaterial.create_sphere_texture h p self s
    = Some (FnMaterial.SPHERE_TEX_SLOT,
            mkState
              (<[self := with_slot FnMaterial.SPHERE_TEX_SLOT sl' mat]>
                 (materials s))
              (<[t := set_tex_use_alpha false tx]> (textures s_l))
              (<[i := set_img_use_alpha false img]> (images s_l))
              (log s_l)).
Proof.
  intros E Hload Htx Hti Himg.
  assert (FnMaterial.SPHERE_TEX_SLOT < MAX_MTEX) as Hi
    by (unfold FnMaterial.SPHERE_TEX_SLOT, MAX_MTEX; lia).
  assert (self < length (materials s)) as Hlen by (by eapply lookup_lt_Some).
  unfold FnMaterial.create_sphere_texture.
  rewrite (bind_Some _ _ _ _ _ (texture_slots_create_Some _ _ _ _ E Hi)).
  rewrite (bind_Some _ _ _ _ _ (slot_assign_created _ _ _ _ _ _ _ E Hi)).
  set (m2 := with_slot _ _ mat).
  change (with_material self m2 s)
    with (set_materials (materials (with_material self m2 s)) s).
  rewrite (bind_Some _ _ _ _ _
             (eq_trans (load_texture_frame h p s _)
                       (f_equal (fmap _) Hload))).
  cbn [fst snd].
  set (s2 := set_materials (materials (with_material self m2 s)) s_l).
  assert (materials s2 !! self = Some m2) as E2
    by (cbn; by apply list_lookup_insert_eq).
  rewrite (bind_Some _ _ _ _ _
             (slot_assign_Some _ _ (set_slot_texture (Some t)) _ _ _ E2 Hi
                (with_slot_lookup _ _ _))).
  set (sl3 := set_slot_texture (Some t) _).
  set (m3 := with_slot FnMaterial.SPHERE_TEX_SLOT sl3 m2).
  set (s3 := with_material self m3 s2).
  assert (materials s3 !! self = Some m3) as E3
    by (by eapply with_material_lookup).
  assert (texture_slots m3 !! FnMaterial.SPHERE_TEX_SLOT = Some sl3) as Hsl3
    by apply with_slot_lookup.
  rewrite (bind_Some _ _ _ _ _
             (clear_use_alpha_result _ _ s3 _ _ _ _ _ _ E3 Hi Hsl3 eq_refl
                Htx Hti Himg)).
  set (s4 := mkState (materials s3) _ _ _).
  assert (materials s4 !! self = Some m3) as E4 by done.
  destruct (sphere_slot_keeps_texture s4 self m3 sl3 E4 Hsl3)
    as (sl' & Hupd & Hkeep).
  exists sl'. split; [done|].
  rewrite (bind_Some _ _ _ _ _ Hupd). unfold ret, with_material.
  subst s4. cbn. rewrite !list_insert_insert_eq.
  unfold m3, m2. by rewrite !with_slot_again.
Qed.

Lemma slot_at_other self index sl mat s s' m k :
  materials s !! self = Some mat →
  materials s' = <[self := with_slot index sl mat]> (materials s) →
  (m, k) ≠ (self, index) →
  slot_at s' m k = slot_at s m k.
Proof.
  intros E Hm Hne. unfold slot_at. rewrite Hm.
  assert (self < length (materials s)) as Hlen by (by eapply lookup_lt_Some).
  destruct (decide (m = self)) as [->|Hms].
  - rewrite list_lookup_insert_eq, E by done. cbn.
    apply lookup_insert_ne. congruence.
  - by rewrite list_lookup_insert_ne.
Qed.

Lemma slot_at_self self index sl mat s s' :
  materials s !! self = Some mat →
  materials s' = <[self := with_slot index sl mat]> (materials s) →
  slot_at s' self index = Some sl.
Proof.
  intros E Hm. unfold slot_at. rewrite Hm.
  rewrite list_lookup_insert_eq by (by eapply lookup_lt_Some). cbn.
  apply lookup_insert_eq.
Qed.

(** The dedup case: some stored texture passes the test of the scan. *)
Lemma load_texture_dedup h p s t0 tx0 :
  textures s !! t0 = Some tx0 → texture_matches h p s (t0, tx0) = true →
  ∃ t tx i img,
    FnMaterial.load_texture h p s = Some (t, s) ∧
    textures s !! t = Some tx ∧ texture_matches h p s (t, tx) = true ∧
    tex_image tx = Some i ∧ images s !! i = Some img.
Proof.
  intros Ht0 Hmatch0.
  destruct (load_texture_result h p s)
    as (t & s_l & Hload & _ &
        [[-> (tx & Ht & Hmatch)]|(_ & Hnone & _)]).
  - pose proof Hmatch as Hm. unfold texture_matches in Hm. cbn in Hm.
    apply andb_true_iff in Hm as [_ Hsame].
    apply same_image_file_true_inv in Hsame as [img Himg].
    unfold image_of in Himg.
    destruct (tex_image tx) as [i|] eqn:Hi; [|done]. cbn in Himg.
    by exists t, tx, i, img.
  - by rewrite (Hnone _ _ Ht0) in Hmatch0.
Qed.

(** C9. In the dedup case (a stored texture already matches the path)
    [create_toon_texture] and [create_sphere_texture] create no texture:
    they put the matching texture in the slot and overwrite that shared
    record in the store, clearing its [use_alpha] and its image's
    [use_alpha] and, for the toon slot, setting its extension to EXTEND.
    Every other slot keeps its reference, so each slot of any material
    that pointed to the texture now shows the overwritten record. *)
Theorem create_toon_sphere_overwrite_shared (h : Host) (p : string)
    (self : nat) (s : State) (mat : Material) (t0 : nat) (tx0 : Texture) :
  materials s !! self = Some mat →
  textures s !! t0 = Some tx0 → texture_matches h p s (t0, tx0) = true →
  ∃ t tx i img,
    textures s !! t = Some tx ∧ texture_matches h p s (t, tx) = true ∧
    tex_image tx = Some i ∧ images s !! i = Some img ∧
    (∃ s',
       FnMaterial.create_toon_texture h p self s
         = Some (FnMaterial.TOON_TEX_SLOT, s') ∧
       textures s'
         = <[t := set_tex_extension "EXTEND" (set_tex_use_alpha false tx)]>
             (textures s) ∧
       images s' = <[i := set_img_use_alpha false img]> (images s) ∧
       slot_at s' self FnMaterial.TOON_TEX_SLOT ≫= slot_texture = Some t ∧
       ∀ m k sl, (m, k) ≠ (self, FnMaterial.TOON_TEX_SLOT) →
         slot_at s m k = Some sl → slot_texture sl = Some t →
         slot_at s' m k = Some sl ∧
         texture_through s' m k
           = Some (set_tex_extension "EXTEND" (set_tex_use_alpha false tx))) ∧
    (∃ s',
       FnMaterial.create_sphere_texture h p self s
         = Some (FnMaterial.SPHERE_TEX_SLOT, s') ∧
       textures s' = <[t := set_tex_use_alpha false tx]> (textures s) ∧
       images s' = <[i := set_img_use_alpha false img]> (images s) ∧
       slot_at s' self FnMaterial.SPHERE_TEX_SLOT ≫= slot_texture = Some t ∧
       ∀ m k sl, (m, k) ≠ (self, FnMaterial.SPHERE_TEX_SLOT) →
         slot_at s m k = Some sl → slot_texture sl = Some t →
         slot_at s' m k = Some sl ∧
         texture_through s' m k = Some (set_tex_use_alpha false tx)).
Proof.
  intros E Ht0 Hmatch0.
  destruct (load_texture_dedup h p s t0 tx0 Ht0 Hmatch0)
    as (t & tx & i & img & Hload & Ht & Hmatch & Hi & Himg).
  exists t, tx, i, img. do 4 (split; [done|]). split.
  - eexists. split;
      [exact (create_toon_texture_result _ _ _ _ _ _ _ _ _ _ E Hload Ht Hi Himg)|].
    do 2 (split; [done|]). split.
    + by erewrite slot_at_self; [|exact E|reflexivity].
    + intros m k sl Hne Hslot Href.
      assert (slot_at
                (mkState
                   (<[self := with_slot FnMaterial.TOON_TEX_SLOT
                                (mkSlot true false "NORMAL" "MULTIPLY" (Some t))
                                mat]> (materials s))
                   (<[t := set_tex_extension "EXTEND"
                             (set_tex_use_alpha false tx)]> (textures s))
                   (<[i := set_img_use_alpha false img]> (images s)) (log s))
                m k = Some sl) as Hslot'
        by (erewrite slot_at_other; [exact Hslot|exact E|reflexivity|exact Hne]).
      split; [done|]. unfold texture_through. rewrite Hslot'. cbn.
      rewrite Href. cbn. apply lookup_insert_eq.
  - destruct (create_sphere_texture_result _ _ _ _ _ _ _ _ _ _
                E Hload Ht Hi Himg) as (sl' & Hkeep & Hcreate).
    eexists. split; [exact Hcreate|].
    do 2 (split; [done|]). split.
    + by erewrite slot_at_self; [|exact E|reflexivity].
    + intros m k sl Hne Hslot Href.
      assert (slot_at
                (mkState
                   (<[self := with_slot FnMaterial.SPHERE_TEX_SLOT sl' mat]>
                      (materials s))
                   (<[t := set_tex_use_alpha false tx]> (textures s))
                   (<[i := set_img_use_alpha false img]> (images s)) (log s))
                m k = Some sl) as Hslot'
        by (erewrite slot_at_other; [exact Hslot|exact E|reflexivity|exact Hne]).
      split; [done|]. unfold texture_through. rewrite Hslot'. cbn.
      rewrite Href. cbn. apply lookup_insert_eq.
Qed.

Lemma create_toon_sphere_overwrite_shared_witness :
  ∃ s',
    FnMaterial.create_toon_texture Example.host "/proj/tex.png" 0
      Example.scene_shared = Some (FnMaterial.TOON_TEX_SLOT, s') ∧
    texture_through Example.scene_shared 1 FnMaterial.BASE_TEX_SLOT
      = Some Example.tex_texture ∧
    texture_through s' 1 FnMaterial.BASE_TEX_SLOT
      = Some (mkTexture "tex" "IMAGE" (Some 0) false "EXTEND").
Proof.
  destruct (create_toon_sphere_overwrite_shared Example.host "/proj/tex.png" 0
      Example.scene_shared (Example.blank 0) 0 Example.tex_texture
              eq_refl eq_refl eq_refl)
    as (t & tx & i & img & Ht & _ & _ & _ & (s' & Hcreate & _ & _ & _ & Hseen) & _).
  unfold Example.scene_shared in Ht. cbn [textures] in Ht.
  apply lookup_singleton_Some in Ht as [<- <-].
  exists s'. split; [exact Hcreate|]. split; [reflexivity|].
  refine (proj2 (Hseen 1 0 (mkSlot true true "UV" "MULTIPLY" (Some 0)) _ _ _)).
  - discriminate.
  - reflexivity.
  - reflexivity.
Defined.

(** The sphere slot of one material clears [use_alpha] of the texture
    that the BASE slot of another material shows. *)
Example create_sphere_texture_shared :
  (r ← FnMaterial.create_sphere_texture Example.host "/proj/tex.png" 0
      Example.scene_shared;
   tex_use_alpha <$> texture_through r.2 1 FnMaterial.BASE_TEX_SLOT)
  = Some false ∧
  tex_use_alpha <$> texture_through Example.scene_shared 1
                      FnMaterial.BASE_TEX_SLOT = Some true.
Proof. split; vm_compute; reflexivity. Qed.

(** ** No operation leaves a texture pointing to a missing image

    [images_linked], which the texture half of C2 assumes, holds of the
    empty store and is kept by every operation of the layer. *)

Section keeps_linked.
Context {A B : Type}.

Lemma keeps_linked_ret (a : A) : keeps_linked (ret a).
Proof. intros s a' s' Hl. unfold ret. by intros [= _ <-]. Qed.

Lemma keeps_linked_raise : keeps_linked (@raise A).
Proof. by intros s a s' Hl. Qed.

Lemma keeps_linked_gets (f : State → A) : keeps_linked (gets f).
Proof. intros s a s' Hl. unfold gets. by intros [= _ <-]. Qed.

Lemma keeps_linked_from_option (o : option A) : keeps_linked (from_option o).
Proof. destruct o; [apply keeps_linked_ret | apply keeps_linked_raise]. Qed.

Lemma keeps_linked_bind (m : M A) (f : A → M B) :
  keeps_linked m → (∀ a, keeps_linked (f a)) → keeps_linked (bind m f).
Proof.
  intros Hm Hf s b s' Hl Hb.
  apply bind_inv in Hb as (a & s1 & H1 & H2).
  eapply Hf; [|exact H2]. by eapply Hm.
Qed.

Lemma keeps_linked_try_except (m handler : M A) :
  keeps_linked m → keeps_linked handler → keeps_linked (try_except m handler).
Proof.
  intros Hm Hh s a s' Hl. unfold try_except.
  destruct (m s) as [[a1 s1]|] eqn:E.
  - intros [= <- <-]. by eapply Hm.
  - by apply Hh.
Qed.
End keeps_linked.

Lemma keeps_linked_modify (f : State → State) :
  (∀ s, textures (f s) = textures s ∧ images (f s) = images s) →
  keeps_linked (modify f).
Proof.
  intros Hf s a s' Hl. unfold modify. intros [= _ <-].
  intros t tx i. destruct (Hf s) as [-> ->]. apply Hl.
Qed.

Lemma keeps_linked_insert_image (f : State → nat) (g : State → Image) :
  keeps_linked (modify (λ s, set_images (<[f s := g s]> (images s)) s)).
Proof.
  intros s a s' Hl. unfold modify. intros [= _ <-].
  intros t tx i Ht Hi. cbn in *. rewrite lookup_insert_is_Some.
  destruct (decide (f s = i)); [by left|right]. split; [done|]. by eapply Hl.
Qed.

Lemma keeps_linked_update_material self f :
  keeps_linked (FnMaterial.update_material self f).
Proof.
  unfold FnMaterial.update_material, FnMaterial.the_material.
  repeat (apply keeps_linked_bind; [|intros ?]);
    auto using keeps_linked_gets, keeps_linked_from_option.
  by apply keeps_linked_modify.
Qed.

Lemma keeps_linked_update_image i f : keeps_linked (update_image i f).
Proof.
  unfold update_image, get_image.
  repeat (apply keeps_linked_bind; [|intros ?]);
    auto using keeps_linked_gets, keeps_linked_from_option.
  apply (keeps_linked_insert_image (λ _, i)).
Qed.

(** Assigning a texture field other than [image], or clearing [image]. *)
Lemma keeps_linked_update_texture t f :
  (∀ tx, tex_image (f tx) = tex_image tx ∨ tex_image (f tx) = None) →
  keeps_linked (update_texture t f).
Proof.
  intros Hf s a s' Hl H. unfold update_texture, get_texture in H.
  apply bind_inv in H as (tx & s1 & H1 & H2).
  apply bind_inv in H1 as (o & s0 & H0 & H1).
  unfold gets in H0. injection H0 as <- <-.
  destruct (textures s !! t) as [tx0|] eqn:E; [|done].
  unfold from_option, ret in H1. injection H1 as <- <-.
  unfold modify in H2.
  assert (s' = set_textures (<[t := f tx0]> (textures s)) s) as ->
    by congruence.
  intros t' tx' i Ht' Hi'. cbn in *.
  destruct (decide (t = t')) as [<-|Hne].
  - rewrite lookup_insert_eq in Ht'. injection Ht' as <-.
    destruct (Hf tx0) as [Hsame|Hnone]; [|congruence].
    eapply Hl; [exact E|congruence].
  - rewrite lookup_insert_ne in Ht' by done. by eapply Hl.
Qed.

Lemma keeps_linked_textures_new name type :
  keeps_linked (textures_new name type).
Proof.
  intros s a s' Hl H. unfold textures_new, bind, gets, modify, ret in H.
  injection H as _ <-. intros t tx i Ht Hi. cbn in *.
  destruct (decide (fresh (dom (textures s)) = t)) as [<-|Hne].
  - rewrite lookup_insert_eq in Ht. by injection Ht as <-.
  - rewrite lookup_insert_ne in Ht by done. by eapply Hl.
Qed.

Lemma keeps_linked_textures_remove t : keeps_linked (textures_remove t).
Proof.
  intros s a s' Hl H. unfold textures_remove, modify in H.
  assert (s' = set_textures (delete t (textures s)) s) as -> by congruence.
  intros t' tx i Ht Hi. cbn in *.
  apply lookup_delete_Some in Ht as [_ Ht]. by eapply Hl.
Qed.

(** The guarded removal that closes [remove_texture]. *)
Lemma keeps_linked_remove_unused_image i :
  keeps_linked (iusers <- gets (img_users i) ;;
                if bool_decide (iusers < 1) then images_remove i else ret tt).
Proof.
  intros s a s' Hl H. unfold bind, gets in H.
  case_bool_decide as Hu;
    [|unfold ret in H; by assert (s' = s) as -> by congruence].
  unfold images_remove, modify in H.
  assert (s' = set_images (delete i (images s)) s) as -> by congruence.
  assert (img_users i s = 0) as Hz by lia.
  intros t tx j Ht Hj. cbn in *.
  rewrite lookup_delete_ne; [by eapply Hl|].
  intros <-. eapply img_users_zero in Hz; [by apply Hz|exact Ht].
Qed.

Create HintDb keeps_linked.

#[local] Hint Resolve keeps_linked_ret keeps_linked_raise keeps_linked_gets
  keeps_linked_from_option keeps_linked_update_material
  keeps_linked_update_image keeps_linked_textures_new
  keeps_linked_textures_remove keeps_linked_remove_unused_image
  : keeps_linked.

Ltac keeps_linked_step :=
  match goal with
  | |- keeps_linked (bind (gets (img_users _)) _) =>
      apply keeps_linked_remove_unused_image
  | |- keeps_linked (bind _ _) => apply keeps_linked_bind; [|intros ?]
  | |- keeps_linked (modify (λ s, set_images (<[_ := _]> (images s)) s)) =>
      apply (keeps_linked_insert_image _ _)
  | |- keeps_linked (modify _) =>
      apply keeps_linked_modify; intros ?; split; reflexivity
  | |- keeps_linked (update_texture _ _) =>
      apply keeps_linked_update_texture; intros ?;
      first [left; reflexivity | right; reflexivity]
  | |- keeps_linked (try_except _ _) => apply keeps_linked_try_except
  | |- keeps_linked (match ?x with _ => _ end) => destruct x
  | |- keeps_linked _ => solve [eauto with keeps_linked]
  end.

Ltac keeps_linked_go := intros; cbv zeta; repeat keeps_linked_step.

Lemma keeps_linked_load_image h p : keeps_linked (FnMaterial.load_image h p).
Proof.
  unfold FnMaterial.load_image, images_load, images_new, logging_warning.
  keeps_linked_go.
Qed.

Lemma keeps_linked_load_texture h p : keeps_linked (FnMaterial.load_texture h p).
Proof.
  intros s t s1 Hl Hload.
  destruct (load_texture_result h p s)
    as (t' & s1' & Hload' & _ &
        [[-> _]|(_ & _ & name & i & s_i & Himg & Htex & Hims & _)]);
    rewrite Hload in Hload'; injection Hload' as <- <-; [done|].
  pose proof (keeps_linked_load_image h p s i s_i Hl Himg) as Hl_i.
  destruct (load_image_result h p s)
    as (i' & s_i' & Himg' & _ & Hts & Hcase).
  rewrite Himg in Himg'. injection Himg' as <- <-.
  assert (is_Some (images s_i !! i)) as Hi.
  { destruct Hcase as [[-> (img & Hi & _)]|(_ & _ & img & Hi & _)].
    - by exists img.
    - exists img. by rewrite Hi, lookup_insert_eq. }
  intros t' tx j Ht' Hj. rewrite Htex in Ht'. rewrite Hims.
  destruct (decide (t = t')) as [<-|Hne].
  - rewrite lookup_insert_eq in Ht'. injection Ht' as <-. cbn in Hj.
    by injection Hj as <-.
  - rewrite lookup_insert_ne in Ht' by done.
    eapply Hl_i; [|exact Hj]. by rewrite Hts.
Qed.

#[local] Hint Resolve keeps_linked_load_image keeps_linked_load_texture
  : keeps_linked.

Lemma run_keeps_linked (h : Host) (self : nat) (op : Op) :
  keeps_linked (run h self op).
Proof.
  destruct op; cbn [run];
    unfold FnMaterial.from_material_id, FnMaterial.material_id,
      FnMaterial.material, FnMaterial.create_texture,
      FnMaterial.update_toon_texture, FnMaterial.remove_toon_texture,
      FnMaterial.remove_sphere_texture, FnMaterial.remove_texture,
      FnMaterial.create_sphere_texture, FnMaterial.create_toon_texture,
      FnMaterial.update_sphere_texture_type, FnMaterial.clear_use_alpha,
      FnMaterial.update_drop_shadow, FnMaterial.update_self_shadow_map,
      FnMaterial.update_self_shadow, FnMaterial.slot_assign,
      FnMaterial.slot_read, FnMaterial.texture_slots_get,
      FnMaterial.texture_slots_create, FnMaterial.texture_slots_clear,
      FnMaterial.the_material, get_texture;
    keeps_linked_go.
Qed.

Example images_linked_empty : images_linked Example.scene1.
Proof. intros t tx i Ht. cbn in Ht. by rewrite lookup_empty in Ht. Qed.

(** ** Removing a slot, in general *)

Lemma remove_texture_empty index self s mat :
  materials s !! self = Some mat → index < MAX_MTEX →
  texture_slots mat !! index = None →
  FnMaterial.remove_texture index self s = Some (tt, s).
Proof.
  intros E Hi Hsl. unfold FnMaterial.remove_texture.
  rewrite (bind_Some _ _ _ _ _ (texture_slots_get_Some _ _ _ _ E Hi)).
  by rewrite Hsl.
Qed.

(** Every way [remove_texture] can return. *)
Lemma remove_texture_inv index self s s' :
  FnMaterial.remove_texture index self s = Some (tt, s') →
  ∃ mat, materials s !! self = Some mat ∧ index < MAX_MTEX ∧
    ((texture_slots mat !! index = None ∧ s' = s) ∨
     (is_Some (texture_slots mat !! index) ∧
      materials s' = <[self := without_slot index mat]> (materials s) ∧
      log s' = log s ∧
      (textures s' = textures s ∨ ∃ t, textures s' = delete t (textures s)) ∧
      (images s' = images s ∨ ∃ i, images s' = delete i (images s)))).
Proof.
  intros H. unfold FnMaterial.remove_texture in H.
  apply bind_inv in H as (o & s0 & Hget & H).
  unfold FnMaterial.texture_slots_get in Hget.
  apply bind_inv in Hget as (mat & s00 & Hmat & Hget).
  apply the_material_inv in Hmat as [E ->].
  case_bool_decide as Hi; [|done].
  unfold ret in Hget. injection Hget as <- <-.
  exists mat. split; [done|]. split; [done|].
  destruct (texture_slots mat !! index) as [sl|] eqn:Hsl.
  - right. split; [by exists sl|].
    rewrite (bind_Some _ _ _ _ _ (texture_slots_clear_Some _ _ _ _ E Hi)) in H.
    set (s_c := with_material self (without_slot index mat) s) in H.
    destruct (slot_texture sl) as [t|].
    + unfold bind at 1, gets at 1 in H.
      case_bool_decide as Hu.
      * unfold get_texture, update_texture, get_texture, textures_remove,
          images_remove, bind, gets, modify, from_option, ret in H.
        cbn in H. destruct (textures s !! t) as [tx|] eqn:Htx;
          cbn in H; rewrite ?Htx in H; cbn in H; [|done].
        rewrite delete_insert_eq in H.
        destruct (tex_image tx) as [i|].
        -- case_bool_decide; injection H as <-; cbn; eauto 10.
        -- injection H as <-; cbn; eauto 10.
      * unfold ret in H. injection H as <-. cbn. eauto 10.
    + unfold ret in H. injection H as <-. cbn. eauto 10.
  - left. split; [done|]. unfold ret in H. by injection H as <-.
Qed.

Lemma without_slot_lookup index mat :
  texture_slots (without_slot index mat) !! index = None.
Proof. cbn. apply lookup_delete_eq. Qed.

(** X1. When [remove_texture] returns it has emptied the slot it was asked
    to and no other; the texture and image stores can only have lost
    entries, every entry still stored is the record it was, and the log is
    as before. *)
Theorem remove_texture_only_shrinks (index self : nat) (s s' : State) :
  FnMaterial.remove_texture index self s = Some (tt, s') →
  slot_at s' self index = None ∧
  (∀ m k, (m, k) ≠ (self, index) → slot_at s' m k = slot_at s m k) ∧
  (∀ t tx, textures s' !! t = Some tx → textures s !! t = Some tx) ∧
  (∀ i img, images s' !! i = Some img → images s !! i = Some img) ∧
  log s' = log s.
Proof.
  intros H.
  apply remove_texture_inv in H
    as (mat & E & Hi & [[Hsl ->]|(_ & Hm & Hlog & Htex & Himg)]).
  - split; [unfold slot_at; by rewrite E|]. done.
  - assert (∀ m k, slot_at s' m k
                   = slot_at (with_material self (without_slot index mat) s) m k)
      as Hslots by (intros m k; unfold slot_at; by rewrite Hm).
    split; [rewrite Hslots, (slot_at_cleared _ _ _ _ _ _ E);
            by rewrite decide_True|].
    split.
    { intros m k Hne. rewrite Hslots, (slot_at_cleared _ _ _ _ _ _ E).
      rewrite decide_False; [done|]. intros [-> ->]. by apply Hne. }
    split.
    { intros t tx. destruct Htex as [->|[t0 ->]]; [done|].
      rewrite lookup_delete_Some. by intros [_ ?]. }
    split; [|done].
    intros i img. destruct Himg as [->|[i0 ->]]; [done|].
    rewrite lookup_delete_Some. by intros [_ ?].
Qed.

Lemma remove_texture_only_shrinks_witness :
  slot_at Example.scene_shared 0 0 = None ∧
  ∃ s', FnMaterial.remove_texture 0 1 Example.scene_shared = Some (tt, s') ∧
        slot_at s' 1 0 = None ∧ log s' = [].
Proof.
  assert (FnMaterial.remove_texture 0 1 Example.scene_shared
          = Some (tt, Example.scene_unshared)) as H by (vm_compute; reflexivity).
  split; [reflexivity|]. exists Example.scene_unshared. split; [exact H|].
  pose proof (remove_texture_only_shrinks 0 1 Example.scene_shared _ H)
    as (Hgone & _ & _ & _ & Hlog).
  split; [exact Hgone|exact Hlog].
Defined.

(** X2. [remove_texture] is idempotent: called again on the state it
    returned in, it returns in that same state (an empty slot is left
    alone, without an error). *)
Theorem remove_texture_idempotent (index self : nat) (s s' : State) :
  FnMaterial.remove_texture index self s = Some (tt, s') →
  FnMaterial.remove_texture index self s' = Some (tt, s').
Proof.
  intros H. pose proof H as H0.
  apply remove_texture_inv in H
    as (mat & E & Hi & [[Hsl ->]|(_ & Hm & _)]); [done|].
  apply (remove_texture_empty _ _ _ (without_slot index mat)); [|done|].
  - rewrite Hm. apply list_lookup_insert_eq. by eapply lookup_lt_Some.
  - apply without_slot_lookup.
Qed.

Lemma remove_texture_idempotent_witness :
  ∃ s', FnMaterial.remove_texture 0 1 Example.scene_shared = Some (tt, s') ∧
        FnMaterial.remove_texture 0 1 s' = Some (tt, s').
Proof.
  assert (FnMaterial.remove_texture 0 1 Example.scene_shared
          = Some (tt, Example.scene_unshared)) as H by (vm_compute; reflexivity).
  exists Example.scene_unshared. split; [exact H|].
  exact (remove_texture_idempotent 0 1 Example.scene_shared _ H).
Defined.

(** ** The shadow flags, in general *)

Lemma no_material_raises {A} self (k : Material → M A) s :
  materials s !! self = None →
  (mat <- FnMaterial.the_material self ;; k mat) s = None.
Proof.
  intros E. unfold FnMaterial.the_material, bind, gets. by rewrite E.
Qed.

Lemma self_shadow_result self s mat :
  materials s !! self = Some mat →
  let v := enabled_self_shadow (mmd_material mat) in
  FnMaterial.update_self_shadow self s
  = Some (tt, with_material self
                (mkMaterial (mmd_material mat) (texture_slots mat)
                   (use_cast_buffer_shadows mat) (use_cast_shadows mat) v v) s).
Proof.
  intros E v. unfold FnMaterial.update_self_shadow.
  rewrite (bind_Some _ _ _ _ _ (the_material_Some _ _ _ E)). cbv zeta.
  rewrite (bind_Some _ _ _ _ _ (update_material_with _ _ _ _ E)).
  erewrite update_material_with; [|by eapply with_material_lookup].
  by rewrite with_material_again.
Qed.

Lemma self_shadow_map_result self s mat :
  materials s !! self = Some mat →
  let v := enabled_self_shadow_map (mmd_material mat) in
  FnMaterial.update_self_shadow_map self s
  = Some (tt, with_material self
                (mkMaterial (mmd_material mat) (texture_slots mat) v
                   (match use_cast_shadows mat with
                    | Some _ => Some v
                    | None => None
                    end)
                   (use_shadows mat) (use_transparent_shadows mat)) s).
Proof.
  intros E v. unfold FnMaterial.update_self_shadow_map.
  rewrite (bind_Some _ _ _ _ _ (the_material_Some _ _ _ E)). cbv zeta.
  rewrite (bind_Some _ _ _ _ _ (update_material_with _ _ _ _ E)).
  erewrite bind_Some;
    [|by eapply the_material_Some, with_material_lookup].
  destruct mat as [p slots b [c|] sh tsh]; cbn; [|done].
  erewrite update_material_with; [|by eapply with_material_lookup].
  by rewrite with_material_again.
Qed.

(** X3. [update_self_shadow] stores [enabled_self_shadow] in both
    [use_shadows] and [use_transparent_shadows] of the wrapped material
    and changes nothing else: not the cast-shadow flags, the slots or the
    properties, not another material, a texture, an image or the log. *)
Theorem update_self_shadow_flags (s : State) (self : nat) (mat : Material) :
  materials s !! self = Some mat →
  let v := enabled_self_shadow (mmd_material mat) in
  FnMaterial.update_self_shadow self s
  = Some (tt, with_material self
                (mkMaterial (mmd_material mat) (texture_slots mat)
                   (use_cast_buffer_shadows mat) (use_cast_shadows mat) v v) s).
Proof. apply self_shadow_result. Qed.

Lemma update_self_shadow_flags_witness :
  FnMaterial.update_self_shadow 0 Example.scene1
  = Some (tt, mkState
                [mkMaterial (Example.props (-1)) ∅ false (Some false) true true]
                ∅ ∅ []).
Proof.
  exact (update_self_shadow_flags Example.scene1 0 (Example.blank (-1)) eq_refl).
Defined.

(** X4. The two shadow updates are idempotent and commute, in every
    state: running one twice is running it once, and the order of the two
    does not matter (each writes its own flags and reads only the
    properties). *)
Theorem shadow_updates_idempotent_commute (self : nat) (s : State) :
  (FnMaterial.update_self_shadow self ;;; FnMaterial.update_self_shadow self) s
    = FnMaterial.update_self_shadow self s ∧
  (FnMaterial.update_self_shadow_map self ;;;
   FnMaterial.update_self_shadow_map self) s
    = FnMaterial.update_self_shadow_map self s ∧
  (FnMaterial.update_self_shadow self ;;;
   FnMaterial.update_self_shadow_map self) s
    = (FnMaterial.update_self_shadow_map self ;;;
       FnMaterial.update_self_shadow self) s.
Proof.
  destruct (materials s !! self) as [mat|] eqn:E.
  - pose proof (self_shadow_result self s mat E) as H1.
    pose proof (self_shadow_map_result self s mat E) as H2.
    cbv zeta in H1, H2.
    repeat split.
    + rewrite (bind_Some _ _ _ _ _ H1), H1.
      erewrite self_shadow_result; [|by eapply with_material_lookup].
      by rewrite with_material_again.
    + rewrite (bind_Some _ _ _ _ _ H2), H2.
      erewrite self_shadow_map_result; [|by eapply with_material_lookup].
      rewrite with_material_again. by destruct (use_cast_shadows mat).
    + rewrite (bind_Some _ _ _ _ _ H1), (bind_Some _ _ _ _ _ H2).
      erewrite self_shadow_result; [|by eapply with_material_lookup].
      erewrite self_shadow_map_result; [|by eapply with_material_lookup].
      by rewrite !with_material_again.
  - assert (FnMaterial.update_self_shadow self s = None) as H1
      by (by apply no_material_raises).
    assert (FnMaterial.update_self_shadow_map self s = None) as H2
      by (by apply no_material_raises).
    unfold bind. by rewrite H1, H2.
Qed.

(** X5. [update_sphere_texture_type] is idempotent in every state: the
    slot it leaves is the slot a second call would write. *)
Theorem update_sphere_texture_type_idempotent (self : nat) (s : State) :
  (FnMaterial.update_sphere_texture_type self ;;;
   FnMaterial.update_sphere_texture_type self) s
  = FnMaterial.update_sphere_texture_type self s.
Proof.
  destruct (materials s !! self) as [mat|] eqn:E.
  - pose proof (sphere_slot_after_update s self mat E) as H. cbv zeta in H.
    destruct (texture_slots mat !! FnMaterial.SPHERE_TEX_SLOT) as [sl|] eqn:Hsl.
    + destruct H as (sl' & Hr & H1 & H2 & H3 & H0).
      rewrite (bind_Some _ _ _ _ _ Hr), Hr.
      pose proof (sphere_slot_after_update _ self _
                    (with_material_lookup self s mat
                       (with_slot FnMaterial.SPHERE_TEX_SLOT sl' mat) E)) as H'.
      cbv zeta in H'. rewrite with_slot_lookup in H'.
      destruct H' as (sl'' & Hr' & H1' & H2' & H3' & H0').
      rewrite Hr', with_material_again, with_slot_again.
      change (sphere_texture_type
                (mmd_material (with_slot FnMaterial.SPHERE_TEX_SLOT sl' mat)))
        with (sphere_texture_type (mmd_material mat)) in *.
      set (ty := sphere_texture_type (mmd_material mat)) in *.
      assert (sl'' = sl') as ->; [|done].
      destruct (decide (ty = 1%Z)) as [e|n1];
        [by rewrite (H1' e), (H1 e)|].
      destruct (decide (ty = 2%Z)) as [e|n2];
        [by rewrite (H2' e), (H2 e)|].
      destruct (decide (ty = 3%Z)) as [e|n3];
        [by rewrite (H3' e), (H3 e)|].
      by rewrite (H0' n1 n2 n3), (H0 n1 n2 n3).
    + by rewrite (bind_Some _ _ _ _ _ H).
  - assert (FnMaterial.update_sphere_texture_type self s = None) as H.
    { unfold FnMaterial.update_sphere_texture_type,
        FnMaterial.texture_slots_get.
      unfold bind at 1. by rewrite (no_material_raises _ _ _ E). }
    unfold bind. by rewrite H.
Qed.

(** ** Ids, read and looked up *)

Lemma scan_material_id_first mid ms k m :
  ms !! k = Some m → stored_material_id m = mid →
  (∀ j m', j < k → ms !! j = Some m' → stored_material_id m' ≠ mid) →
  FnMaterial.scan_material_id mid ms 0 = Some k.
Proof.
  intros Hk Hid Hbefore.
  destruct (FnMaterial.scan_material_id mid ms 0) as [k'|] eqn:E.
  - apply scan_material_id_Some in E as (_ & m' & Hk' & Hid' & Hb').
    rewrite Nat.sub_0_r in Hk', Hb'. f_equal.
    destruct (Nat.lt_trichotomy k' k) as [Hlt|[->|Hgt]]; [|done|].
    + by destruct (Hbefore _ _ Hlt Hk').
    + by destruct (Hb' _ _ Hgt Hk).
  - by destruct (scan_material_id_None _ _ _ E _ _ Hk).
Qed.

Lemma material_id_keeps_unique self s v s' :
  unique_ids s → FnMaterial.material_id self s = Some (v, s') → unique_ids s'.
Proof.
  intros Hu H.
  apply material_id_inv in H as (mat & E & [(Hneg & -> & ->)|(_ & _ & ->)]);
    [|done].
  apply unique_ids_assign; [done| |done].
  intros k m Hk. pose proof (max_material_id_bounds (materials s)) as [_ Hb].
  specialize (Hb _ _ Hk). lia.
Qed.

(** What a read leaves in the wrapped material. *)
Lemma material_id_stored_after self s v s' :
  FnMaterial.material_id self s = Some (v, s') →
  (0 ≤ v)%Z ∧
  stored_material_id <$> materials s' !! self = Some v ∧
  (∀ m, m ≠ self → materials s' !! m = materials s !! m) ∧
  length (materials s') = length (materials s).
Proof.
  intros H.
  apply material_id_inv in H as (mat & E & [(Hneg & Hv & ->)|(Hpos & -> & ->)]).
  - pose proof (max_material_id_bounds (materials s)) as [Hb _].
    split; [lia|]. cbn.
    rewrite list_lookup_insert_eq by (by eapply lookup_lt_Some).
    split; [done|]. split; [|by rewrite length_insert].
    intros m Hm. by rewrite list_lookup_insert_ne.
  - split; [done|]. by rewrite E.
Qed.

(** X6. On a wrapped material a read of [material_id] always returns, and
    what it returns is never negative; afterwards that value is the
    material's stored id, and no other material, no texture, no image and
    no log line has changed. *)
Theorem material_id_nonnegative (s : State) (self : nat) (mat : Material) :
  materials s !! self = Some mat →
  ∃ v s', FnMaterial.material_id self s = Some (v, s') ∧
    (0 ≤ v)%Z ∧
    stored_material_id <$> materials s' !! self = Some v ∧
    (∀ m, m ≠ self → materials s' !! m = materials s !! m) ∧
    textures s' = textures s ∧ images s' = images s ∧ log s' = log s.
Proof.
  intros E.
  assert (∃ v s', FnMaterial.material_id self s = Some (v, s') ∧
            textures s' = textures s ∧ images s' = images s ∧ log s' = log s)
    as (v & s' & H & Ht & Hi & Hl).
  { destruct (decide (stored_material_id mat < 0)%Z) as [Hneg|Hpos].
    - eexists _, _. by split; [exact (material_id_assigned _ _ _ E Hneg)|].
    - eexists _, _. split; [apply (material_id_stored _ _ _ E); lia|done]. }
  exists v, s'. split; [done|].
  destruct (material_id_stored_after _ _ _ _ H) as (Hv & Hs & Ho & _).
  done.
Qed.

Lemma material_id_nonnegative_witness :
  ∃ v s', FnMaterial.material_id 0 Example.scene_low = Some (v, s') ∧
          (0 ≤ v)%Z.
Proof.
  destruct (material_id_nonnegative Example.scene_low 0 (Example.blank (-5))
              eq_refl) as (v & s' & H & Hv & _).
  by exists v, s'.
Defined.

(** X7. In a scene whose non-negative ids are unique, the id that a read
    of [material_id] returns leads back to the material it was read from:
    [from_material_id] on that id, in the state after the read, finds the
    wrapped material. *)
Theorem material_id_round_trip (s : State) (self : nat) (mat : Material) :
  unique_ids s → materials s !! self = Some mat →
  ∃ v s', FnMaterial.material_id self s = Some (v, s') ∧
          FnMaterial.from_material_id v s' = Some (Some self, s').
Proof.
  intros Hu E.
  assert (∃ v s', FnMaterial.material_id self s = Some (v, s'))
    as (v & s' & H).
  { destruct (decide (stored_material_id mat < 0)%Z) as [Hneg|Hpos].
    - eexists _, _. exact (material_id_assigned _ _ _ E Hneg).
    - eexists _, _. apply (material_id_stored _ _ _ E). lia. }
  exists v, s'. split; [done|].
  pose proof (material_id_keeps_unique _ _ _ _ Hu H) as Hu'.
  destruct (material_id_stored_after _ _ _ _ H) as (Hv & Hs & _ & _).
  destruct (materials s' !! self) as [mat'|] eqn:E'; [|done].
  injection Hs as Hs.
  unfold FnMaterial.from_material_id, bind, gets, ret. do 2 f_equal.
  apply (scan_material_id_first _ _ _ mat'); [done..|].
  intros j m' Hj Hm' Heq.
  assert (self = j) as -> by (apply (Hu' self j mat' m'); [done..|lia|congruence]).
  lia.
Qed.

Lemma material_id_round_trip_witness :
  ∃ v s', FnMaterial.material_id 2 Example.scene3 = Some (v, s') ∧
          FnMaterial.from_material_id v s' = Some (Some 2, s').
Proof.
  refine (material_id_round_trip Example.scene3 2 (Example.blank (-1)) _ _).
  - intros [|[|[|a]]] [|[|[|b]]] ma mb; cbn; try done;
      intros [= <-] [= <-]; cbn; done.
  - reflexivity.
Defined.

(** X8. In a scene whose non-negative ids are unique, reads of
    [material_id] on two different materials, one after the other, return
    different ids. *)
Theorem material_id_distinct (s s1 s2 : State) (a b : nat) (va vb : Z) :
  a ≠ b → unique_ids s →
  FnMaterial.material_id a s = Some (va, s1) →
  FnMaterial.material_id b s1 = Some (vb, s2) →
  va ≠ vb.
Proof.
  intros Hab Hu Ha Hb Heq.
  pose proof (material_id_keeps_unique _ _ _ _ Hu Ha) as Hu1.
  pose proof (material_id_keeps_unique _ _ _ _ Hu1 Hb) as Hu2.
  destruct (material_id_stored_after _ _ _ _ Ha) as (Hva & Hsa & _ & _).
  destruct (material_id_stored_after _ _ _ _ Hb) as (Hvb & Hsb & Hob & _).
  rewrite <- (Hob a) in Hsa by done.
  destruct (materials s2 !! a) as [ma|] eqn:Ea; [|done].
  destruct (materials s2 !! b) as [mb|] eqn:Eb; [|done].
  injection Hsa as Hsa. injection Hsb as Hsb.
  apply Hab, (Hu2 a b ma mb); [done..|lia|congruence].
Qed.

Lemma material_id_distinct_witness : (5 ≠ 6)%Z.
Proof.
  refine (material_id_distinct Example.scene3
            (mkState [Example.blank 4; Example.blank 5; Example.blank (-1)] ∅ ∅ [])
            (mkState [Example.blank 4; Example.blank 5; Example.blank 6] ∅ ∅ [])
            1 2 5 6 _ _ _ _).
  - lia.
  - intros [|[|[|a]]] [|[|[|b]]] ma mb; cbn; try done;
      intros [= <-] [= <-]; cbn; done.
  - reflexivity.
  - reflexivity.
Defined.

(** ** What loading leaves in the stores *)

Lemma same_image_file_source h img p :
  FnMaterial.same_image_file h (Some img) p = true → img_source img = "FILE".
Proof.
  unfold FnMaterial.same_image_file. by case_bool_decide.
Qed.

Lemma load_image_facts h p s :
  ∃ i s1 img, FnMaterial.load_image h p s = Some (i, s1) ∧
    images s1 !! i = Some img ∧ img_source img = "FILE" ∧
    (images s !! i = None → img_filepath img = p) ∧
    (is_Some (images s !! i) → s1 = s) ∧
    (∀ k, k ≠ i → images s1 !! k = images s !! k) ∧
    materials s1 = materials s ∧ textures s1 = textures s ∧
    (log s1 = log s ∨
     (image_file h p = None ∧ log s1 = log s ++ [load_warning p])).
Proof.
  destruct (List.find (λ kv, FnMaterial.same_image_file h (Some kv.2) p)
              (map_to_list (images s))) as [[i img]|] eqn:E.
  - exists i, s, img. rewrite (load_image_found _ _ _ _ _ E).
    apply find_store_Some in E as [Hl HP]. cbn in HP.
    split; [done|]. split; [done|].
    split; [by eapply same_image_file_source|].
    split; [by rewrite Hl|]. repeat split; try done. by left.
  - pose proof (fresh_image_free s) as Hfree.
    destruct (image_file h p) as [sz|] eqn:Hf.
    + eexists _, _, _. split; [exact (load_image_loaded _ _ _ _ E Hf)|].
      cbn. rewrite lookup_insert_eq. split; [done|]. split; [done|].
      split; [done|]. split; [rewrite Hfree; by intros [? ?]|].
      split; [intros k Hk; by rewrite lookup_insert_ne|].
      repeat split; try done. by left.
    + eexists _, _, _. split; [exact (load_image_failed _ _ _ E Hf)|].
      cbn. rewrite lookup_insert_eq. split; [done|]. split; [done|].
      split; [done|]. split; [rewrite Hfree; by intros [? ?]|].
      split; [intros k Hk; by rewrite lookup_insert_ne|].
      repeat split; try done. by right.
Qed.

(** X9. [load_image] always returns, and the image it returns is stored
    and file-backed.  It touches the image store at the returned identity
    only: if that identity was stored before (a dedup hit) the whole state
    is as it was, otherwise one image with the requested path is new.
    Materials and textures are as before, and the log is as before or
    longer by the one warning line, the latter only when the host could
    not load the file. *)
Theorem load_image_adds_at_most_one (h : Host) (p : string) (s : State) :
  ∃ i s1 img, FnMaterial.load_image h p s = Some (i, s1) ∧
    images s1 !! i = Some img ∧ img_source img = "FILE" ∧
    (images s !! i = None → img_filepath img = p) ∧
    (is_Some (images s !! i) → s1 = s) ∧
    (∀ k, k ≠ i → images s1 !! k = images s !! k) ∧
    materials s1 = materials s ∧ textures s1 = textures s ∧
    (log s1 = log s ∨
     (image_file h p = None ∧ log s1 = log s ++ [load_warning p])).
Proof. apply load_image_facts. Qed.

Lemma load_texture_facts h p s :
  ∃ t s1 tx i img, FnMaterial.load_texture h p s = Some (t, s1) ∧
    textures s1 !! t = Some tx ∧ tex_type tx = "IMAGE" ∧
    tex_image tx = Some i ∧
    images s1 !! i = Some img ∧ img_source img = "FILE" ∧
    (is_Some (textures s !! t) → s1 = s) ∧
    (∀ k, k ≠ t → textures s1 !! k = textures s !! k) ∧
    (∀ k, k ≠ i → images s1 !! k = images s !! k) ∧
    (∀ k v, images s !! k = Some v → images s1 !! k = Some v) ∧
    materials s1 = materials s.
Proof.
  destruct (load_texture_result h p s)
    as (t & s1 & Hload & Hm &
        [[-> (tx & Ht & Hmatch)]
        |(Hfree & Hnone & name & i & s_i & Himg & Htex & Hims & _)]).
  - unfold texture_matches in Hmatch. cbn in Hmatch.
    apply andb_true_iff in Hmatch as [Hty Hsame].
    apply bool_decide_eq_true_1 in Hty.
    destruct (same_image_file_true_inv _ _ _ Hsame) as [img Himg].
    rewrite Himg in Hsame. apply same_image_file_source in Hsame.
    unfold image_of in Himg.
    destruct (tex_image tx) as [i|] eqn:Hi; [|done]. cbn in Himg.
    exists t, s, tx, i, img. by repeat split.
  - destruct (load_image_facts h p s)
      as (i' & s_i' & img & Himg' & Hi & Hsrc & _ & Hhit & Hother & _).
    rewrite Himg in Himg'. injection Himg' as <- <-.
    exists t, s1, (mkTexture name "IMAGE" (Some i) true "REPEAT"), i, img.
    split; [done|]. split; [by rewrite Htex, lookup_insert_eq|].
    split; [done|]. split; [done|]. split; [by rewrite Hims|].
    split; [done|]. split; [rewrite Hfree; by intros [? ?]|].
    split; [intros k Hk; by rewrite Htex, lookup_insert_ne|].
    split; [intros k Hk; rewrite Hims; by apply Hother|].
    split; [|done].
    intros k v Hk. rewrite Hims.
    destruct (decide (k = i)) as [->|Hne]; [|by rewrite Hother].
    by rewrite (Hhit (mk_is_Some _ _ Hk)).
Qed.

(** X10. [load_texture] always returns a stored texture of type IMAGE that
    wraps a stored, file-backed image.  If the returned identity was
    stored before (a dedup hit) the whole state is as it was; otherwise
    the texture is new.  Every other texture and every image stored before
    is the record it was, and the materials are untouched. *)
Theorem load_texture_adds_at_most_one (h : Host) (p : string) (s : State) :
  ∃ t s1 tx i img, FnMaterial.load_texture h p s = Some (t, s1) ∧
    textures s1 !! t = Some tx ∧ tex_type tx = "IMAGE" ∧
    tex_image tx = Some i ∧
    images s1 !! i = Some img ∧ img_source img = "FILE" ∧
    (is_Some (textures s !! t) → s1 = s) ∧
    (∀ k, k ≠ t → textures s1 !! k = textures s !! k) ∧
    (∀ k, k ≠ i → images s1 !! k = images s !! k) ∧
    (∀ k v, images s !! k = Some v → images s1 !! k = Some v) ∧
    materials s1 = materials s.
Proof. apply load_texture_facts. Qed.

(** ** What creating a slot leaves behind *)

(** The slots of a scene whose materials are those of [s] with one slot
    of [self] replaced. *)
Lemma slots_after_create self index sl mat s s1 :
  materials s !! self = Some mat →
  materials s1 = <[self := with_slot index sl mat]> (materials s) →
  slot_at s1 self index = Some sl ∧
  ∀ m k, (m, k) ≠ (self, index) → slot_at s1 m k = slot_at s m k.
Proof.
  intros E Hm. split; [by eapply slot_at_self|].
  intros m k Hne. by eapply slot_at_other.
Qed.

(** X11. On a wrapped material [create_texture] always returns the BASE
    slot, now alpha-mapped, UV, MULTIPLY and showing a stored texture of
    type IMAGE.  No other slot of any material changes, and nothing is
    removed: every texture and image stored before is stored unchanged,
    the texture the slot held before included. *)
Theorem create_texture_slot (h : Host) (p : string) (self : nat) (s : State)
    (mat : Material) :
  materials s !! self = Some mat →
  ∃ t tx s1,
    FnMaterial.create_texture h p self s
      = Some (FnMaterial.BASE_TEX_SLOT, s1) ∧
    slot_at s1 self FnMaterial.BASE_TEX_SLOT
      = Some (mkSlot true true "UV" "MULTIPLY" (Some t)) ∧
    (∀ m k, (m, k) ≠ (self, FnMaterial.BASE_TEX_SLOT) →
            slot_at s1 m k = slot_at s m k) ∧
    textures s1 !! t = Some tx ∧ tex_type tx = "IMAGE" ∧
    (∀ k v, textures s !! k = Some v → textures s1 !! k = Some v) ∧
    (∀ k v, images s !! k = Some v → images s1 !! k = Some v).
Proof.
  intros E.
  destruct (load_texture_facts h p s)
    as (t & s_l & tx & i & img & Hload & Ht & Hty & _ & _ & _ & Hhit & Hother
        & _ & Himgs & _).
  exists t, tx. eexists.
  split; [exact (create_texture_result _ _ _ _ _ _ _ E Hload)|].
  destruct (slots_after_create self FnMaterial.BASE_TEX_SLOT
              (mkSlot true true "UV" "MULTIPLY" (Some t)) mat s
              (set_materials
                 (<[self := with_slot FnMaterial.BASE_TEX_SLOT
                              (mkSlot true true "UV" "MULTIPLY" (Some t)) mat]>
                    (materials s)) s_l) E eq_refl) as [Hself Hrest].
  split; [exact Hself|]. split; [exact Hrest|].
  split; [done|]. split; [done|]. split; [|done].
  intros k v Hk. cbn.
  destruct (decide (k = t)) as [->|Hne]; [|by rewrite Hother].
  by rewrite (Hhit (mk_is_Some _ _ Hk)).
Qed.

Lemma create_texture_slot_witness :
  ∃ t tx s1,
    FnMaterial.create_texture Example.host "/proj/tex.png" 1 Example.scene_shared
      = Some (FnMaterial.BASE_TEX_SLOT, s1) ∧
    slot_at s1 1 FnMaterial.BASE_TEX_SLOT
      = Some (mkSlot true true "UV" "MULTIPLY" (Some t)) ∧
    textures s1 !! t = Some tx.
Proof.
  destruct (create_texture_slot Example.host "/proj/tex.png" 1
              Example.scene_shared Example.textured eq_refl)
    as (t & tx & s1 & H & Hslot & _ & Ht & _).
  by exists t, tx, s1.
Defined.

(** X12. On a wrapped material [create_toon_texture] always returns the
    TOON slot, now with normal coordinates, MULTIPLY blend and a stored
    texture of type IMAGE whose [use_alpha] is off and whose extension is
    EXTEND, wrapping a stored image whose [use_alpha] is off.  No other
    slot changes, and every other texture and image is as it was. *)
Theorem create_toon_texture_slot (h : Host) (p : string) (self : nat)
    (s : State) (mat : Material) :
  materials s !! self = Some mat →
  ∃ t tx i img s1,
    FnMaterial.create_toon_texture h p self s
      = Some (FnMaterial.TOON_TEX_SLOT, s1) ∧
    slot_at s1 self FnMaterial.TOON_TEX_SLOT
      = Some (mkSlot true false "NORMAL" "MULTIPLY" (Some t)) ∧
    (∀ m k, (m, k) ≠ (self, FnMaterial.TOON_TEX_SLOT) →
            slot_at s1 m k = slot_at s m k) ∧
    textures s1 !! t = Some tx ∧ tex_type tx = "IMAGE" ∧
    tex_use_alpha tx = false ∧ tex_extension tx = "EXTEND" ∧
    tex_image tx = Some i ∧
    images s1 !! i = Some img ∧ img_use_alpha img = false ∧
    (∀ k, k ≠ t → textures s1 !! k = textures s !! k) ∧
    (∀ k, k ≠ i → images s1 !! k = images s !! k).
Proof.
  intros E.
  destruct (load_texture_facts h p s)
    as (t & s_l & tx & i & img & Hload & Ht & Hty & Hi & Himg & _ & _ & Hother
        & Hiother & _ & _).
  exists t, (set_tex_extension "EXTEND" (set_tex_use_alpha false tx)), i,
    (set_img_use_alpha false img). eexists.
  split;
    [exact (create_toon_texture_result _ _ _ _ _ _ _ _ _ _ E Hload Ht Hi Himg)|].
  destruct (slots_after_create self FnMaterial.TOON_TEX_SLOT
              (mkSlot true false "NORMAL" "MULTIPLY" (Some t)) mat s
              (mkState
                 (<[self := with_slot FnMaterial.TOON_TEX_SLOT
                              (mkSlot true false "NORMAL" "MULTIPLY" (Some t))
                              mat]> (materials s))
                 (<[t := set_tex_extension "EXTEND"
                           (set_tex_use_alpha false tx)]> (textures s_l))
                 (<[i := set_img_use_alpha false img]> (images s_l)) (log s_l))
              E eq_refl) as [Hself Hrest].
  split; [exact Hself|]. split; [exact Hrest|]. cbn.
  rewrite !lookup_insert_eq. repeat split; try done.
  - intros k Hk. rewrite lookup_insert_ne by done. by apply Hother.
  - intros k Hk. rewrite lookup_insert_ne by done. by apply Hiother.
Qed.

Lemma create_toon_texture_slot_witness :
  ∃ t tx s1,
    FnMaterial.create_toon_texture Example.host "/toons/toon03.bmp" 0
      Example.scene_toon = Some (FnMaterial.TOON_TEX_SLOT, s1) ∧
    textures s1 !! t = Some tx ∧
    tex_use_alpha tx = false ∧ tex_extension tx = "EXTEND".
Proof.
  destruct (create_toon_texture_slot Example.host "/toons/toon03.bmp" 0
              Example.scene_toon Example.shared_toon eq_refl)
    as (t & tx & i & img & s1 & H & _ & _ & Ht & _ & Ha & He & _).
  by exists t, tx, s1.
Defined.

Lemma sphere_slot_for_update (s : State) (self : nat) (mat : Material) t :
  materials s !! self = Some mat →
  texture_slots mat !! FnMaterial.SPHERE_TEX_SLOT
    = Some (mkSlot true false "NORMAL" "MIX" (Some t)) →
  FnMaterial.update_sphere_texture_type self s
  = Some (tt, with_material self
                (with_slot FnMaterial.SPHERE_TEX_SLOT
                   (sphere_slot_for (sphere_texture_type (mmd_material mat)) t)
                   mat) s).
Proof.
  intros E Hsl. pose proof (sphere_slot_after_update s self mat E) as H.
  cbv zeta in H. rewrite Hsl in H.
  destruct H as (sl' & Hr & H1 & H2 & H3 & H0). rewrite Hr.
  unfold sphere_slot_for.
  set (ty := sphere_texture_type (mmd_material mat)) in *.
  destruct (decide (ty = 1%Z)) as [e|n1]; [by rewrite (H1 e)|].
  destruct (decide (ty = 2%Z)) as [e|n2]; [by rewrite (H2 e)|].
  destruct (decide (ty = 3%Z)) as [e|n3]; [by rewrite (H3 e)|].
  by rewrite (H0 n1 n2 n3).
Qed.

Lemma create_sphere_texture_table h p self s mat t s_l tx i img :
  materials s !! self = Some mat →
  FnMaterial.load_texture h p s = Some (t, s_l) →
  textures s_l !! t = Some tx → tex_image tx = Some i →
  images s_l !! i = Some img →
  FnMaterial.create_sphere_texture h p self s
  = Some (FnMaterial.SPHERE_TEX_SLOT,
          mkState
            (<[self := with_slot FnMaterial.SPHERE_TEX_SLOT
                         (sphere_slot_for
                            (sphere_texture_type (mmd_material mat)) t) mat]>
               (materials s))
            (<[t := set_tex_use_alpha false tx]> (textures s_l))
            (<[i := set_img_use_alpha false img]> (images s_l))
            (log s_l)).
Proof.
  intros E Hload Htx Hti Himg.
  assert (FnMaterial.SPHERE_TEX_SLOT < MAX_MTEX) as Hi
    by (unfold FnMaterial.SPHERE_TEX_SLOT, MAX_MTEX; lia).
  assert (self < length (materials s)) as Hlen by (by eapply lookup_lt_Some).
  unfold FnMaterial.create_sphere_texture.
  rewrite (bind_Some _ _ _ _ _ (texture_slots_create_Some _ _ _ _ E Hi)).
  rewrite (bind_Some _ _ _ _ _ (slot_assign_created _ _ _ _ _ _ _ E Hi)).
  set (m2 := with_slot _ _ mat).
  change (with_material self m2 s)
    with (set_materials (materials (with_material self m2 s)) s).
  rewrite (bind_Some _ _ _ _ _
             (eq_trans (load_texture_frame h p s _)
                       (f_equal (fmap _) Hload))).
  cbn [fst snd].
  set (s2 := set_materials (materials (with_material self m2 s)) s_l).
  assert (materials s2 !! self = Some m2) as E2
    by (cbn; by apply list_lookup_insert_eq).
  rewrite (bind_Some _ _ _ _ _
             (slot_assign_Some _ _ (set_slot_texture (Some t)) _ _ _ E2 Hi
                (with_slot_lookup _ _ _))).
  set (sl3 := set_slot_texture (Some t) _).
  set (m3 := with_slot FnMaterial.SPHERE_TEX_SLOT sl3 m2).
  set (s3 := with_material self m3 s2).
  assert (materials s3 !! self = Some m3) as E3
    by (by eapply with_material_lookup).
  assert (texture_slots m3 !! FnMaterial.SPHERE_TEX_SLOT = Some sl3) as Hsl3
    by apply with_slot_lookup.
  rewrite (bind_Some _ _ _ _ _
             (clear_use_alpha_result _ _ s3 _ _ _ _ _ _ E3 Hi Hsl3 eq_refl
                Htx Hti Himg)).
  set (s4 := mkState (materials s3) _ _ _).
  assert (materials s4 !! self = Some m3) as E4 by done.
  rewrite (bind_Some _ _ _ _ _ (sphere_slot_for_update s4 self m3 t E4 Hsl3)).
  unfold ret, with_material. subst s4. cbn. rewrite !list_insert_insert_eq.
  unfold m3, m2. by rewrite !with_slot_again.
Qed.

(** X13. On a wrapped material [create_sphere_texture] always returns the
    SPHERE slot, with normal coordinates and a stored texture of type
    IMAGE whose [use_alpha], like its image's, is off.  The slot is
    enabled with blend MULTIPLY, ADD or SUBTRACT when the material's
    sphere type is 1, 2 or 3, and disabled (blend left at the default)
    for any other type.  No other slot changes, and every other texture
    and image is as it was. *)
Theorem create_sphere_texture_slot (h : Host) (p : string) (self : nat)
    (s : State) (mat : Material) :
  materials s !! self = Some mat →
  ∃ t tx i img s1,
    FnMaterial.create_sphere_texture h p self s
      = Some (FnMaterial.SPHERE_TEX_SLOT, s1) ∧
    slot_at s1 self FnMaterial.SPHERE_TEX_SLOT
      = Some (sphere_slot_for (sphere_texture_type (mmd_material mat)) t) ∧
    (∀ m k, (m, k) ≠ (self, FnMaterial.SPHERE_TEX_SLOT) →
            slot_at s1 m k = slot_at s m k) ∧
    textures s1 !! t = Some tx ∧ tex_type tx = "IMAGE" ∧
    tex_use_alpha tx = false ∧ tex_image tx = Some i ∧
    images s1 !! i = Some img ∧ img_use_alpha img = false ∧
    (∀ k, k ≠ t → textures s1 !! k = textures s !! k) ∧
    (∀ k, k ≠ i → images s1 !! k = images s !! k).
Proof.
  intros E.
  destruct (load_texture_facts h p s)
    as (t & s_l & tx & i & img & Hload & Ht & Hty & Hi & Himg & _ & _ & Hother
        & Hiother & _ & _).
  exists t, (set_tex_use_alpha false tx), i, (set_img_use_alpha false img).
  eexists.
  split;
    [exact (create_sphere_texture_table _ _ _ _ _ _ _ _ _ _ E Hload Ht Hi Himg)|].
  destruct (slots_after_create self FnMaterial.SPHERE_TEX_SLOT
              (sphere_slot_for (sphere_texture_type (mmd_material mat)) t) mat s
              (mkState
                 (<[self := with_slot FnMaterial.SPHERE_TEX_SLOT
                              (sphere_slot_for
                                 (sphere_texture_type (mmd_material mat)) t)
                              mat]> (materials s))
                 (<[t := set_tex_use_alpha false tx]> (textures s_l))
                 (<[i := set_img_use_alpha false img]> (images s_l)) (log s_l))
              E eq_refl) as [Hself Hrest].
  split; [exact Hself|]. split; [exact Hrest|]. cbn.
  rewrite !lookup_insert_eq. repeat split; try done.
  - intros k Hk. rewrite lookup_insert_ne by done. by apply Hother.
  - intros k Hk. rewrite lookup_insert_ne by done. by apply Hiother.
Qed.

Lemma create_sphere_texture_slot_witness :
  ∃ t s1,
    FnMaterial.create_sphere_texture Example.host "/proj/tex.png" 0
      Example.scene_sphere = Some (FnMaterial.SPHERE_TEX_SLOT, s1) ∧
    slot_at s1 0 FnMaterial.SPHERE_TEX_SLOT
      = Some (mkSlot true false "NORMAL" "ADD" (Some t)).
Proof.
  destruct (create_sphere_texture_slot Example.host "/proj/tex.png" 0
              Example.scene_sphere (Example.shiny 2) eq_refl)
    as (t & tx & i & img & s1 & H & Hslot & _).
  by exists t, s1.
Defined.

(** ** The toon slot after an update *)

(** X14. After [update_toon_texture] the wrapped material has a TOON slot
    exactly when a toon source is configured: with [is_shared_toon_texture]
    set or a non-empty [toon_texture] the call returns and the slot is
    there; with neither, whenever the call returns the slot is empty. *)
Theorem update_toon_texture_slot_present (h : Host) (self : nat) (s : State)
    (mat : Material) :
  materials s !! self = Some mat →
  let p := mmd_material mat in
  (is_shared_toon_texture p = true ∨ toon_texture p ≠ "" →
   ∃ s', FnMaterial.update_toon_texture h self s = Some (tt, s') ∧
         is_Some (slot_at s' self FnMaterial.TOON_TEX_SLOT)) ∧
  (is_shared_toon_texture p = false → toon_texture p = "" →
   ∀ s', FnMaterial.update_toon_texture h self s = Some (tt, s') →
         slot_at s' self FnMaterial.TOON_TEX_SLOT = None).
Proof.
  intros E p.
  assert (∀ path, ∃ s',
            (FnMaterial.create_toon_texture h path self ;;; ret tt) s
              = Some (tt, s') ∧
            is_Some (slot_at s' self FnMaterial.TOON_TEX_SLOT)) as Hcreate.
  { intros path.
    destruct (load_texture_facts h path s)
      as (t & s_l & tx & i & img & Hload & Ht & _ & Hi & Himg & _).
    eexists. split.
    - by rewrite (bind_Some _ _ _ _ _
                    (create_toon_texture_result _ _ _ _ _ _ _ _ _ _
                       E Hload Ht Hi Himg)).
    - erewrite slot_at_self; [by eexists|exact E|reflexivity]. }
  unfold FnMaterial.update_toon_texture.
  rewrite (bind_Some _ _ _ _ _ (the_material_Some _ _ _ E)). cbv zeta.
  fold p. split.
  - intros Hconf. destruct (is_shared_toon_texture p); [apply Hcreate|].
    destruct Hconf as [?|Hpath]; [done|].
    rewrite bool_decide_eq_true_2 by done. apply Hcreate.
  - intros -> Hempty s' H.
    rewrite bool_decide_eq_false_2 in H by (by intros Hne).
    unfold FnMaterial.remove_toon_texture in H.
    apply remove_texture_inv in H
      as (mat' & E' & Hi & [[Hsl ->]|(_ & Hm & _)]).
    + unfold slot_at. by rewrite E'.
    + unfold slot_at. rewrite Hm.
      rewrite list_lookup_insert_eq by (by eapply lookup_lt_Some).
      apply without_slot_lookup.
Qed.

Lemma update_toon_texture_slot_present_witness :
  ∃ s', FnMaterial.update_toon_texture Example.host 0 Example.scene_toon
          = Some (tt, s') ∧
        is_Some (slot_at s' 0 FnMaterial.TOON_TEX_SLOT).
Proof.
  refine (proj1 (update_toon_texture_slot_present Example.host 0
                   Example.scene_toon Example.shared_toon eq_refl) _).
  left. reflexivity.
Defined.

(** ** Creating and removing, there and back *)

Lemma without_with_slot index sl mat :
  texture_slots mat !! index = None →
  without_slot index (with_slot index sl mat) = mat.
Proof.
  intros Hsl. destruct mat as [p slots b c sh tsh]. unfold without_slot,
    with_slot, set_texture_slots. cbn in *.
  by rewrite delete_insert_id.
Qed.

(** X15. In a scene where no stored texture and no stored image matches
    the path, every reference points to something stored, and the BASE
    slot of the wrapped material is empty, [create_texture] followed by
    [remove_texture] on the BASE slot gives back the scene: materials,
    textures and images are exactly as before; only the log may have
    gained the warning line, when the host could not load the file. *)
Theorem create_remove_texture_round_trip (h : Host) (p : string) (self : nat)
    (s : State) (mat : Material) :
  materials s !! self = Some mat →
  texture_slots mat !! FnMaterial.BASE_TEX_SLOT = None →
  (∀ k v, textures s !! k = Some v → texture_matches h p s (k, v) = false) →
  (∀ k v, images s !! k = Some v →
          FnMaterial.same_image_file h (Some v) p = false) →
  slots_linked s → images_linked s →
  ∃ s1 s2,
    FnMaterial.create_texture h p self s
      = Some (FnMaterial.BASE_TEX_SLOT, s1) ∧
    FnMaterial.remove_texture FnMaterial.BASE_TEX_SLOT self s1
      = Some (tt, s2) ∧
    materials s2 = materials s ∧ textures s2 = textures s ∧
    images s2 = images s ∧
    (log s2 = log s ∨
     (image_file h p = None ∧ log s2 = log s ++ [load_warning p])).
Proof.
  intros E Hempty Hnotex Hnoimg Hslots Hlinked.
  assert (FnMaterial.BASE_TEX_SLOT < MAX_MTEX) as Hi
    by (unfold FnMaterial.BASE_TEX_SLOT, MAX_MTEX; lia).
  assert (self < length (materials s)) as Hlen by (by eapply lookup_lt_Some).
  (* the texture and the image are both new *)
  destruct (load_texture_result h p s)
    as (t & s_l & Hload & Hm &
        [[-> (tx & Ht & Hmatch)]
        |(Htfree & _ & name & i & s_i & Himg & Htex & Hims & Hlog)]);
    [by rewrite (Hnotex _ _ Ht) in Hmatch|].
  destruct (load_image_facts h p s)
    as (i' & s_i' & img & Himg' & Hi_img & _ & _ & Hhit & Hother & _ & _ & Hlog_i).
  rewrite Himg in Himg'. injection Himg' as <- <-.
  assert (images s !! i = None) as Hifree.
  { destruct (images s !! i) as [img0|] eqn:Hi0; [|done].
    rewrite (Hhit (mk_is_Some _ _ eq_refl)) in Hi_img.
    destruct (load_image_result h p s)
      as (i'' & s'' & Hl'' & _ & _ & [[_ (img1 & Hi1 & Hsame)]|(Hf & _)]);
      rewrite Himg in Hl''; injection Hl'' as <- <-.
    - by rewrite (Hnoimg _ _ Hi1) in Hsame.
    - by rewrite Hf in Hi0. }
  set (T := mkTexture name "IMAGE" (Some i) true "REPEAT") in *.
  set (slotT := mkSlot true true "UV" "MULTIPLY" (Some t)).
  set (m1 := with_slot FnMaterial.BASE_TEX_SLOT slotT mat).
  set (s1 := set_materials (<[self := m1]> (materials s)) s_l).
  assert (materials s1 !! self = Some m1) as E1
    by (cbn; by apply list_lookup_insert_eq).
  assert (textures s1 !! t = Some T) as Ht1
    by (cbn; by rewrite Htex, lookup_insert_eq).
  pose proof (remove_texture_result _ _ _ _ _ _ _ E1 Hi
                (with_slot_lookup _ _ _) eq_refl Ht1) as Hrm.
  cbv zeta in Hrm.
  set (s_c := with_material self (without_slot FnMaterial.BASE_TEX_SLOT m1) s1)
    in Hrm.
  set (s_t := set_textures (delete t (textures s1)) s_c) in Hrm.
  (* no slot is left on the texture, no texture on the image *)
  assert (tex_users t s_c = 0) as Hz.
  { apply tex_users_zero. intros m k sl Hslot Href.
    unfold s_c in Hslot. rewrite (slot_at_cleared _ _ _ _ _ _ E1) in Hslot.
    case_decide as Hmk; [done|].
    erewrite slot_at_other in Hslot; [|exact E|reflexivity|].
    - destruct (Hslots _ _ _ _ Hslot Href) as [tx0 Htx0]. congruence.
    - intros [= -> ->]. by apply Hmk. }
  assert (textures s_t = textures s) as Htex_back.
  { cbn. rewrite Htex. by apply delete_insert_id. }
  assert (img_users i s_t = 0) as Hzi.
  { apply img_users_zero. intros t' tx' Ht' Hi'. rewrite Htex_back in Ht'.
    destruct (Hlinked _ _ _ Ht' Hi') as [img0 Himg0]. congruence. }
  rewrite bool_decide_eq_true_2 in Hrm by lia.
  change (tex_image T) with (Some i) in Hrm. cbv beta iota in Hrm.
  rewrite bool_decide_eq_true_2 in Hrm by lia.
  eexists s1, _.
  split; [exact (create_texture_result _ _ _ _ _ _ _ E Hload)|].
  split; [exact Hrm|].
  split.
  { cbn. rewrite list_insert_insert_eq. unfold m1.
    rewrite (without_with_slot _ _ _ Hempty). by apply list_insert_id. }
  split; [exact Htex_back|].
  split.
  { cbn. rewrite Hims.
    assert (images s_i = <[i := img]> (images s)) as ->.
    { apply map_eq. intros k. destruct (decide (k = i)) as [->|Hne].
      - by rewrite lookup_insert_eq.
      - rewrite lookup_insert_ne by done. by apply Hother. }
    by apply delete_insert_id. }
  cbn. rewrite Hlog. exact Hlog_i.
Qed.

Lemma create_remove_texture_round_trip_witness :
  ∃ s1 s2,
    FnMaterial.create_texture Example.host "/proj/tex.png" 0 Example.scene1
      = Some (FnMaterial.BASE_TEX_SLOT, s1) ∧
    FnMaterial.remove_texture FnMaterial.BASE_TEX_SLOT 0 s1 = Some (tt, s2) ∧
    materials s2 = materials Example.scene1 ∧
    textures s2 = textures Example.scene1 ∧
    images s2 = images Example.scene1.
Proof.
  destruct (create_remove_texture_round_trip Example.host "/proj/tex.png" 0
              Example.scene1 (Example.blank (-1)) eq_refl eq_refl)
    as (s1 & s2 & H1 & H2 & Hm & Ht & Hi & _).
  - intros k v Hk. cbn in Hk. by rewrite lookup_empty in Hk.
  - intros k v Hk. cbn in Hk. by rewrite lookup_empty in Hk.
  - intros [|m] k sl t Hslot; cbn in Hslot; [|done].
    by rewrite lookup_empty in Hslot.
  - intros t tx i Ht. cbn in Ht. by rewrite lookup_empty in Ht.
  - by exists s1, s2.
Defined.

(** X16. Every operation of the layer that returns keeps the image
    references of the textures intact: if beforehand every texture that
    wraps an image wraps a stored one, the same holds afterwards. *)
Theorem images_linked_invariant (h : Host) (self : nat) (op : Op)
    (s s' : State) :
  images_linked s → run h self op s = Some (tt, s') → images_linked s'.
Proof. intros Hl Hrun. exact (run_keeps_linked h self op s tt s' Hl Hrun). Qed.

Lemma images_linked_invariant_witness :
  images_linked Example.scene_unshared.
Proof.
  refine (images_linked_invariant Example.host 1 (OpRemoveTexture 0)
            Example.scene_shared _ _ _).
  - intros t tx i Ht Hi. unfold Example.scene_shared in *. cbn in *.
    apply lookup_singleton_Some in Ht as [<- <-]. injection Hi as <-.
    by eexists.
  - vm_compute. reflexivity.
Defined.

(** ** No operation leaves a slot pointing to a missing texture *)

Section keeps_slots.
Context {A B : Type}.

Lemma keeps_slots_ret (a : A) : keeps_slots (ret a).
Proof. intros s a' s' Hl. unfold ret. by intros [= _ <-]. Qed.

Lemma keeps_slots_raise : keeps_slots (@raise A).
Proof. by intros s a s' Hl. Qed.

Lemma keeps_slots_gets (f : State → A) : keeps_slots (gets f).
Proof. intros s a s' Hl. unfold gets. by intros [= _ <-]. Qed.

Lemma keeps_slots_from_option (o : option A) : keeps_slots (from_option o).
Proof. destruct o; [apply keeps_slots_ret | apply keeps_slots_raise]. Qed.

Lemma keeps_slots_bind (m : M A) (f : A → M B) :
  keeps_slots m → (∀ a, keeps_slots (f a)) → keeps_slots (bind m f).
Proof.
  intros Hm Hf s b s' Hl Hb.
  apply bind_inv in Hb as (a & s1 & H1 & H2).
  eapply Hf; [|exact H2]. by eapply Hm.
Qed.

Lemma keeps_slots_try_except (m handler : M A) :
  keeps_slots m → keeps_slots handler → keeps_slots (try_except m handler).
Proof.
  intros Hm Hh s a s' Hl. unfold try_except.
  destruct (m s) as [[a1 s1]|] eqn:E.
  - intros [= <- <-]. by eapply Hm.
  - by apply Hh.
Qed.
End keeps_slots.

(** The slots stay linked when the materials stay and no texture goes. *)
Lemma slots_linked_grow (s s' : State) :
  materials s' = materials s →
  (∀ t, is_Some (textures s !! t) → is_Some (textures s' !! t)) →
  slots_linked s → slots_linked s'.
Proof.
  intros Hm Ht Hl m k sl t Hslot Href. apply Ht.
  apply (Hl m k sl t); [|done]. unfold slot_at in *. by rewrite <- Hm.
Qed.

(** The slots stay linked when one material is replaced by one whose
    slots point to stored textures and no texture goes. *)
Lemma slots_linked_replace self mat' (s s' : State) :
  materials s' = <[self := mat']> (materials s) →
  (∀ t, is_Some (textures s !! t) → is_Some (textures s' !! t)) →
  (∀ k sl t, texture_slots mat' !! k = Some sl → slot_texture sl = Some t →
             is_Some (textures s' !! t)) →
  slots_linked s → slots_linked s'.
Proof.
  intros Hm Ht Hnew Hl m k sl t Hslot Href. unfold slot_at in Hslot.
  rewrite Hm in Hslot.
  destruct (decide (m = self)) as [->|Hne].
  - destruct (decide (self < length (materials s))) as [Hlt|Hge].
    + rewrite list_lookup_insert_eq in Hslot by done. cbn in Hslot.
      by eapply Hnew.
    + rewrite list_insert_ge in Hslot by lia.
      apply Ht, (Hl self k sl t); [|done]. by unfold slot_at.
  - rewrite list_lookup_insert_ne in Hslot by done.
    apply Ht, (Hl m k sl t); [|done]. by unfold slot_at.
Qed.

Lemma update_material_inv self f s s' :
  FnMaterial.update_material self f s = Some (tt, s') →
  ∃ mat, materials s !! self = Some mat ∧ s' = with_material self (f mat) s.
Proof.
  intros H. unfold FnMaterial.update_material in H.
  apply bind_inv in H as (mat & s0 & Hmat & H).
  apply the_material_inv in Hmat as [E ->].
  exists mat. split; [done|]. unfold modify in H. unfold with_material.
  congruence.
Qed.

(** An update of the material that keeps or clears the texture of every
    slot it leaves. *)
Lemma keeps_slots_update_material self f :
  (∀ m k sl, texture_slots (f m) !! k = Some sl →
     slot_texture sl = None ∨
     ∃ sl0, texture_slots m !! k = Some sl0 ∧
            slot_texture sl0 = slot_texture sl) →
  keeps_slots (FnMaterial.update_material self f).
Proof.
  intros Hf s [] s' Hl H.
  apply update_material_inv in H as (mat & E & ->).
  eapply (slots_linked_replace self (f mat) s); [reflexivity|done| |done].
  intros k sl t Hk Href. cbn.
  destruct (Hf _ _ _ Hk) as [Hnone|(sl0 & Hk0 & Hsame)]; [congruence|].
  apply (Hl self k sl0 t); [|congruence]. unfold slot_at. by rewrite E.
Qed.

Lemma keeps_slots_modify (f : State → State) :
  (∀ s, materials (f s) = materials s) →
  (∀ s t, is_Some (textures s !! t) → is_Some (textures (f s) !! t)) →
  keeps_slots (modify f).
Proof.
  intros Hm Ht s a s' Hl. unfold modify. intros [= _ <-].
  eapply slots_linked_grow; [apply Hm|apply Ht|done].
Qed.

(** An assignment through a slot that leaves the slot's texture alone. *)
Lemma keeps_slots_slot_assign self index f :
  (∀ sl, slot_texture (f sl) = slot_texture sl) →
  keeps_slots (FnMaterial.slot_assign self index f).
Proof.
  intros Hf s [] s' Hl H. unfold FnMaterial.slot_assign in H.
  apply bind_inv in H as (sl & s0 & Hread & H).
  unfold FnMaterial.slot_read in Hread.
  apply bind_inv in Hread as (o & s00 & Hget & Hread).
  unfold FnMaterial.texture_slots_get in Hget.
  apply bind_inv in Hget as (mat & s000 & Hmat & Hget).
  apply the_material_inv in Hmat as [E ->].
  case_bool_decide; [|done]. unfold ret in Hget. injection Hget as <- <-.
  destruct (texture_slots mat !! index) as [sl0|] eqn:Hsl; [|done].
  unfold from_option, ret in Hread. injection Hread as <- <-.
  apply update_material_inv in H as (mat' & E' & ->).
  rewrite E in E'. injection E' as <-.
  eapply (slots_linked_replace self _ s); [reflexivity|done| |done].
  intros k sl t Hk Href. cbn in *.
  destruct (decide (index = k)) as [<-|Hne].
  - rewrite lookup_insert_eq in Hk. injection Hk as <-.
    apply (Hl self index sl0 t); [|by rewrite <- Hf].
    unfold slot_at. by rewrite E.
  - rewrite lookup_insert_ne in Hk by done.
    apply (Hl self k sl t); [|done]. unfold slot_at. by rewrite E.
Qed.

(** Putting the texture that [load_texture] returned into a slot. *)
Lemma keeps_slots_load_then_assign {A} h p self index (k : nat → M A) :
  (∀ tex, keeps_slots (k tex)) →
  keeps_slots (tex <- FnMaterial.load_texture h p ;;
               FnMaterial.slot_assign self index (set_slot_texture (Some tex)) ;;;
               k tex).
Proof.
  intros Hk s a s' Hl H.
  apply bind_inv in H as (tex & s1 & Hload & H).
  apply bind_inv in H as ([] & s2 & Hassign & H).
  eapply Hk; [|exact H]. clear H.
  destruct (load_texture_facts h p s)
    as (t & s1' & tx & i & img & Hload' & Ht & _ & _ & _ & _ & Hhit & Hother
        & _ & _ & Hm).
  rewrite Hload in Hload'. injection Hload' as <- <-.
  assert (slots_linked s1) as Hl1.
  { eapply slots_linked_grow; [exact Hm| |done].
    intros t' Ht'. destruct (decide (t' = tex)) as [->|Hne]; [by eexists|].
    by rewrite Hother. }
  unfold FnMaterial.slot_assign in Hassign.
  apply bind_inv in Hassign as (sl & s0 & Hread & Hassign).
  unfold FnMaterial.slot_read in Hread.
  apply bind_inv in Hread as (o & s00 & Hget & Hread).
  unfold FnMaterial.texture_slots_get in Hget.
  apply bind_inv in Hget as (mat & s000 & Hmat & Hget).
  apply the_material_inv in Hmat as [E ->].
  case_bool_decide; [|done]. unfold ret in Hget. injection Hget as <- <-.
  destruct (texture_slots mat !! index) as [sl0|] eqn:Hsl; [|done].
  unfold from_option, ret in Hread. injection Hread as <- <-.
  apply update_material_inv in Hassign
    as (mat' & E' & ->).
  rewrite E in E'. injection E' as <-.
  eapply (slots_linked_replace self _ s1); [reflexivity|done| |done].
  intros k' sl t' Hk' Href. cbn in *.
  destruct (decide (index = k')) as [<-|Hne].
  - rewrite lookup_insert_eq in Hk'. injection Hk' as <-. cbn in Href.
    injection Href as <-. by eexists.
  - rewrite lookup_insert_ne in Hk' by done.
    apply (Hl1 self k' sl t'); [|done]. unfold slot_at. by rewrite E.
Qed.

(** The guarded removal of a texture in [remove_texture]. *)
Lemma keeps_slots_remove_unused_texture t (k : Texture → M unit) :
  (∀ tx, keeps_slots (k tx)) →
  keeps_slots (users <- gets (tex_users t) ;;
               if bool_decide (users < 1) then
                 tx <- get_texture t ;;
                 update_texture t (set_tex_image None) ;;;
                 textures_remove t ;;;
                 k tx
               else ret tt).
Proof.
  intros Hk s a s' Hl H. unfold bind at 1, gets at 1 in H.
  case_bool_decide as Hu;
    [|unfold ret in H; by assert (s' = s) as -> by congruence].
  assert (tex_users t s = 0) as Hz by lia.
  apply bind_inv in H as (tx & s0 & Hget & H).
  apply bind_inv in H as ([] & s1 & Hupd & H).
  apply bind_inv in H as ([] & s2 & Hrm & H).
  eapply Hk; [|exact H]. clear H.
  unfold get_texture, bind, gets in Hget.
  destruct (textures s !! t) as [tx0|] eqn:Ht; [|done].
  unfold from_option, ret in Hget. injection Hget as <- <-.
  unfold update_texture, get_texture, bind, gets in Hupd. rewrite Ht in Hupd.
  unfold from_option, ret, modify in Hupd.
  assert (s1 = set_textures (<[t := set_tex_image None tx0]> (textures s)) s)
    as -> by congruence.
  unfold textures_remove, modify in Hrm. injection Hrm as Hrm. subst s2.
  intros m k' sl t' Hslot Href. cbn.
  assert (t' ≠ t) as Hne.
  { intros ->. eapply tex_users_zero in Hz; [by apply Hz|exact Hslot]. }
  rewrite lookup_delete_ne, lookup_insert_ne by done.
  by apply (Hl m k' sl t').
Qed.

Create HintDb keeps_slots.

#[local] Hint Resolve keeps_slots_ret keeps_slots_raise keeps_slots_gets
  keeps_slots_from_option : keeps_slots.

Ltac keeps_slots_modify_tac :=
  apply keeps_slots_modify;
  [intros ?; reflexivity
  |intros ? ? ?; cbn;
   first [assumption | rewrite lookup_insert_is_Some'; by right]].

Ltac keeps_slots_step :=
  match goal with
  | |- keeps_slots (bind (gets (tex_users _)) _) =>
      apply (keeps_slots_remove_unused_texture _ (λ tx, _)); intros ?
  | |- keeps_slots (bind (FnMaterial.load_texture _ _) _) =>
      apply (keeps_slots_load_then_assign _ _ _ _ (λ tex, _)); intros ?
  | |- keeps_slots (bind _ _) => apply keeps_slots_bind; [|intros ?]
  | |- keeps_slots (modify _) => keeps_slots_modify_tac
  | |- keeps_slots (FnMaterial.slot_assign _ _ _) =>
      apply keeps_slots_slot_assign; intros ?; reflexivity
  | |- keeps_slots (FnMaterial.update_material _ _) =>
      apply keeps_slots_update_material; intros ? ? ?; cbn;
      first [ rewrite lookup_insert_Some; intros [[_ <-]|[_ ?]];
              [by left | right; eexists; split; [eassumption|reflexivity]]
            | rewrite lookup_delete_Some; intros [_ ?];
              right; eexists; split; [eassumption|reflexivity]
            | intros ?; right; eexists; split; [eassumption|reflexivity] ]
  | |- keeps_slots (try_except _ _) => apply keeps_slots_try_except
  | |- keeps_slots (match ?x with _ => _ end) => destruct x
  | |- keeps_slots _ => solve [eauto with keeps_slots]
  end.

Ltac keeps_slots_go := intros; cbv zeta; repeat keeps_slots_step.

Lemma keeps_slots_get_texture t : keeps_slots (get_texture t).
Proof. unfold get_texture. keeps_slots_go. Qed.
Lemma keeps_slots_get_image i : keeps_slots (get_image i).
Proof. unfold get_image. keeps_slots_go. Qed.
#[local] Hint Resolve keeps_slots_get_texture keeps_slots_get_image
  : keeps_slots.

Lemma run_keeps_slots (h : Host) (self : nat) (op : Op) :
  keeps_slots (run h self op).
Proof.
  destruct op; cbn [run];
    unfold FnMaterial.from_material_id, FnMaterial.material_id,
      FnMaterial.material, FnMaterial.create_texture,
      FnMaterial.update_toon_texture, FnMaterial.remove_toon_texture,
      FnMaterial.remove_sphere_texture, FnMaterial.remove_texture,
      FnMaterial.create_sphere_texture, FnMaterial.create_toon_texture,
      FnMaterial.update_sphere_texture_type, FnMaterial.clear_use_alpha,
      FnMaterial.update_drop_shadow, FnMaterial.update_self_shadow_map,
      FnMaterial.update_self_shadow,
      FnMaterial.slot_read, FnMaterial.texture_slots_get,
      FnMaterial.texture_slots_create, FnMaterial.texture_slots_clear,
      FnMaterial.the_material, update_texture, update_image, images_remove;
    keeps_slots_go.
Qed.

(** X17. Every operation of the layer that returns keeps the texture
    references of the slots intact: if beforehand every slot that shows a
    texture shows a stored one, the same holds afterwards (a texture is
    only removed once no slot points to it). *)
Theorem slots_linked_invariant (h : Host) (self : nat) (op : Op)
    (s s' : State) :
  slots_linked s → run h self op s = Some (tt, s') → slots_linked s'.
Proof. intros Hl Hrun. exact (run_keeps_slots h self op s tt s' Hl Hrun). Qed.

Lemma slots_linked_invariant_witness :
  slots_linked Example.scene_unshared.
Proof.
  refine (slots_linked_invariant Example.host 1 (OpRemoveTexture 0)
            Example.scene_shared _ _ _).
  - intros [|[|m]] k sl t Hslot Href; cbn in Hslot; try done.
    apply lookup_singleton_Some in Hslot as [<- <-]. injection Href as <-.
    by eexists.
  - vm_compute. reflexivity.
Defined.

(** ** Creating twice *)

(** X18. With a resolved path, in a store whose textures point to stored
    images, [create_texture] is idempotent on a wrapped material: a second
    call finds the texture of the first and returns in the same state. *)
Theorem create_texture_twice (h : Host) (p : string) (self : nat) (s : State)
    (mat : Material) :
  materials s !! self = Some mat → resolved h p → images_linked s →
  ∃ s1,
    FnMaterial.create_texture h p self s
      = Some (FnMaterial.BASE_TEX_SLOT, s1) ∧
    FnMaterial.create_texture h p self s1
      = Some (FnMaterial.BASE_TEX_SLOT, s1).
Proof.
  intros E Hp Hlinked.
  destruct (load_texture_twice h p s Hp Hlinked) as (t & s_l & H1 & H2).
  assert (self < length (materials s)) as Hlen by (by eapply lookup_lt_Some).
  set (slotT := mkSlot true true "UV" "MULTIPLY" (Some t)).
  set (m1 := with_slot FnMaterial.BASE_TEX_SLOT slotT mat).
  set (s1 := set_materials (<[self := m1]> (materials s)) s_l).
  exists s1. split; [exact (create_texture_result _ _ _ _ _ _ _ E H1)|].
  assert (materials s1 !! self = Some m1) as E1
    by (cbn; by apply list_lookup_insert_eq).
  assert (FnMaterial.load_texture h p s1 = Some (t, s1)) as H3.
  { unfold s1 at 1. rewrite load_texture_frame, H2. done. }
  rewrite (create_texture_result _ _ _ _ _ _ _ E1 H3). do 2 f_equal.
  unfold s1 at 2 3. cbn. rewrite list_insert_insert_eq. unfold m1.
  by rewrite with_slot_again.
Qed.

Lemma create_texture_twice_witness :
  ∃ s1,
    FnMaterial.create_texture Example.host "/proj/tex.png" 0 Example.scene1
      = Some (FnMaterial.BASE_TEX_SLOT, s1) ∧
    FnMaterial.create_texture Example.host "/proj/tex.png" 0 s1
      = Some (FnMaterial.BASE_TEX_SLOT, s1).
Proof.
  refine (create_texture_twice Example.host "/proj/tex.png" 0 Example.scene1
            (Example.blank (-1)) eq_refl _ _).
  - left. reflexivity.
  - intros t tx i Ht. cbn in Ht. by rewrite lookup_empty in Ht.
Defined.

(** ** Shared toon file names *)

(** X19. Different shared toon indices give different file names: on the
    indices 0 to 98 (two-digit numbers 01 to 99) [shared_toon_name] is
    injective. *)
Theorem shared_toon_name_inj (j k : Z) :
  (0 ≤ j ≤ 98)%Z → (0 ≤ k ≤ 98)%Z →
  FnMaterial.shared_toon_name j = FnMaterial.shared_toon_name k → j = k.
Proof.
  intros Hj Hk Heq.
  assert (forallb (λ a, forallb (λ b,
            implb (bool_decide (FnMaterial.shared_toon_name (Z.of_nat a)
                                = FnMaterial.shared_toon_name (Z.of_nat b)))
                  (bool_decide (a = b)))
            (seq 0 99)) (seq 0 99) = true) as Hall by (vm_compute; reflexivity).
  rewrite forallb_forall in Hall.
  specialize (Hall (Z.to_nat j)). rewrite forallb_forall in Hall.
  assert (In (Z.to_nat j) (seq 0 99)) as Hinj by (apply in_seq; lia).
  assert (In (Z.to_nat k) (seq 0 99)) as Hink by (apply in_seq; lia).
  specialize (Hall Hinj (Z.to_nat k) Hink).
  rewrite !Z2Nat.id in Hall by lia.
  rewrite bool_decide_eq_true_2 in Hall by done. cbn in Hall.
  apply bool_decide_eq_true_1 in Hall. lia.
Qed.

Lemma shared_toon_name_inj_witness : (2 = 2)%Z.
Proof.
  refine (shared_toon_name_inj 2 2 _ _ _); [lia|lia|reflexivity].
Defined.

(** ** Materials are neither created nor destroyed *)

(** X20. No operation of the layer that returns creates or destroys a
    material: the scene has as many materials afterwards as before. *)
Theorem materials_count_invariant (h : Host) (self : nat) (op : Op)
    (s s' : State) :
  run h self op s = Some (tt, s') →
  length (materials s') = length (materials s).
Proof.
  intros Hrun. destruct (decide (op = OpMaterialId)) as [->|Hop].
  - cbn [run] in Hrun. apply bind_inv in Hrun as (v & s1 & Hid & Hret).
    unfold ret in Hret. injection Hret as <-.
    by destruct (material_id_stored_after _ _ _ _ Hid) as (_ & _ & _ & Hlen).
  - pose proof (run_keeps_ids h self op Hop _ _ _ Hrun) as Hids.
    unfold ids in Hids.
    by rewrite <- (length_fmap stored_material_id (materials s')), Hids,
      length_fmap.
Qed.

Lemma materials_count_invariant_witness :
  length (materials Example.scene_unshared) = length (materials Example.scene_shared).
Proof.
  refine (materials_count_invariant Example.host 1 (OpRemoveTexture 0)
            Example.scene_shared _ _).
  vm_compute. reflexivity.
Defined.

(** ** The log *)

Section only_warns.
Context {A B : Type}.

Lemma only_warns_same (m : M A) :
  (∀ s a s', m s = Some (a, s') → log s' = log s) → only_warns m.
Proof.
  intros Hm s a s' H. exists []. rewrite app_nil_r.
  split; [by eapply Hm|]. intros line Hin. by apply elem_of_nil in Hin.
Qed.

Lemma only_warns_ret (a : A) : only_warns (ret a).
Proof. apply only_warns_same. intros s a' s'. unfold ret. by intros [= _ <-]. Qed.

Lemma only_warns_raise : only_warns (@raise A).
Proof. by apply only_warns_same. Qed.

Lemma only_warns_gets (f : State → A) : only_warns (gets f).
Proof. apply only_warns_same. intros s a s'. unfold gets. by intros [= _ <-]. Qed.

Lemma only_warns_from_option (o : option A) : only_warns (from_option o).
Proof. destruct o; [apply only_warns_ret | apply only_warns_raise]. Qed.

Lemma only_warns_bind (m : M A) (f : A → M B) :
  only_warns m → (∀ a, only_warns (f a)) → only_warns (bind m f).
Proof.
  intros Hm Hf s b s' Hb.
  apply bind_inv in Hb as (a & s1 & H1 & H2).
  destruct (Hm _ _ _ H1) as (w1 & Hl1 & Hw1).
  destruct (Hf _ _ _ _ H2) as (w2 & Hl2 & Hw2).
  exists (w1 ++ w2). split; [by rewrite Hl2, Hl1, app_assoc|].
  intros line Hin. apply elem_of_app in Hin as [?|?]; eauto.
Qed.

Lemma only_warns_try_except (m handler : M A) :
  only_warns m → only_warns handler → only_warns (try_except m handler).
Proof.
  intros Hm Hh s a s'. unfold try_except.
  destruct (m s) as [[a1 s1]|] eqn:E.
  - intros [= <- <-]. by eapply Hm.
  - apply Hh.
Qed.
End only_warns.

Lemma only_warns_modify (f : State → State) :
  (∀ s, log (f s) = log s) → only_warns (modify f).
Proof.
  intros Hf. apply only_warns_same. intros s a s'. unfold modify.
  intros [= _ <-]. apply Hf.
Qed.

Lemma only_warns_logging_warning p :
  only_warns (logging_warning ("Cannot create a texture for " +:+ p
                               +:+ ". No such file.")).
Proof.
  intros s a s'. unfold logging_warning, modify. intros [= _ <-].
  eexists [_]. split; [done|]. intros line Hin.
  apply list_elem_of_singleton in Hin as ->. by exists p.
Qed.

Create HintDb only_warns.

#[local] Hint Resolve only_warns_ret only_warns_raise only_warns_gets
  only_warns_from_option only_warns_logging_warning : only_warns.

Ltac only_warns_step :=
  match goal with
  | |- only_warns (bind _ _) => apply only_warns_bind; [|intros ?]
  | |- only_warns (modify _) => apply only_warns_modify; intros ?; reflexivity
  | |- only_warns (try_except _ _) => apply only_warns_try_except
  | |- only_warns (match ?x with _ => _ end) => destruct x
  | |- only_warns _ => solve [eauto with only_warns]
  end.

Ltac only_warns_go := intros; cbv zeta; repeat only_warns_step.

Lemma run_only_warns (h : Host) (self : nat) (op : Op) :
  only_warns (run h self op).
Proof.
  destruct op; cbn [run];
    unfold FnMaterial.from_material_id, FnMaterial.material_id,
      FnMaterial.material, FnMaterial.create_texture,
      FnMaterial.update_toon_texture, FnMaterial.remove_toon_texture,
      FnMaterial.remove_sphere_texture, FnMaterial.remove_texture,
      FnMaterial.create_sphere_texture, FnMaterial.create_toon_texture,
      FnMaterial.update_sphere_texture_type, FnMaterial.clear_use_alpha,
      FnMaterial.update_drop_shadow, FnMaterial.update_self_shadow_map,
      FnMaterial.update_self_shadow, FnMaterial.load_texture,
      FnMaterial.load_image, FnMaterial.slot_assign,
      FnMaterial.slot_read, FnMaterial.texture_slots_get,
      FnMaterial.texture_slots_create, FnMaterial.texture_slots_clear,
      FnMaterial.update_material, FnMaterial.the_material,
      update_texture, update_image, get_texture, get_image,
      images_load, images_new, textures_new, textures_remove, images_remove;
    only_warns_go.
Qed.

(** X21. The only thing an operation of the layer ever writes to the log
    is the load warning: when an operation returns, the log is the old
    log followed by lines of the form
    [Cannot create a texture for <path>. No such file.], and nothing
    else. *)
Theorem log_only_load_warnings (h : Host) (self : nat) (op : Op)
    (s s' : State) :
  run h self op s = Some (tt, s') →
  ∃ w, log s' = log s ++ w ∧ ∀ line, line ∈ w → ∃ p, line = load_warning p.
Proof. apply run_only_warns. Qed.

Lemma log_only_load_warnings_witness :
  ∃ w, ["Cannot create a texture for /proj/missing.png. No such file."]
       = [] ++ w ∧ ∀ line, line ∈ w → ∃ p, line = load_warning p.
Proof.
  refine (log_only_load_warnings Example.host 0
            (OpCreateTexture "/proj/missing.png") Example.scene1
            (mkState _ _ _
               ["Cannot create a texture for /proj/missing.png. No such file."])
            _).
  vm_compute. reflexivity.
Defined.

(** ** The toon texture, updated *)

(** The image of the texture that [load_texture] returns is an image for
    the path: one that passes the test of the scan, or a new one stored
    under the path. *)
Lemma load_texture_image_for_path h p s t s_l tx i img :
  FnMaterial.load_texture h p s = Some (t, s_l) →
  textures s_l !! t = Some tx → tex_image tx = Some i →
  images s_l !! i = Some img →
  FnMaterial.same_image_file h (Some img) p = true ∨ img_filepath img = p.
Proof.
  intros Hload Ht Hi Himg.
  destruct (load_texture_result h p s)
    as (t' & s_l' & Hload' & _ &
        [[-> (tx' & Ht' & Hmatch)]
        |(_ & _ & name & i' & s_i & Hli & Htex & Hims & _)]);
    rewrite Hload in Hload'; injection Hload' as <- <-.
  - rewrite Ht in Ht'. injection Ht' as <-.
    unfold texture_matches in Hmatch. cbn in Hmatch.
    apply andb_true_iff in Hmatch as [_ Hsame].
    unfold image_of in Hsame. rewrite Hi in Hsame. cbn in Hsame.
    rewrite Himg in Hsame. by left.
  - rewrite Htex, lookup_insert_eq in Ht. injection Ht as <-. cbn in Hi.
    injection Hi as <-. rewrite Hims in Himg.
    destruct (load_image_result h p s)
      as (i'' & s_i' & Hli' & _ & _ &
          [[-> (img' & Hi' & Hsame)]|(_ & _ & img' & Hi' & _ & Hpath)]);
      rewrite Hli in Hli'; injection Hli' as <- <-.
    + rewrite Himg in Hi'. injection Hi' as <-. by left.
    + rewrite Hi', lookup_insert_eq in Himg. injection Himg as <-. by right.
Qed.

Lemma create_toon_texture_scene h path self s mat :
  materials s !! self = Some mat →
  ∃ s', (FnMaterial.create_toon_texture h path self ;;; ret tt) s
          = Some (tt, s') ∧
        toon_created h path self s s'.
Proof.
  intros E.
  destruct (load_texture_facts h path s)
    as (t & s_l & tx & i & img & Hload & Ht & Hty & Hi & Himg & Hsrc & _
        & Hother & Hiother & _ & _).
  pose proof (load_texture_image_for_path _ _ _ _ _ _ _ _ Hload Ht Hi Himg)
    as Hpath.
  eexists. split.
  { by rewrite (bind_Some _ _ _ _ _
                  (create_toon_texture_result _ _ _ _ _ _ _ _ _ _
                     E Hload Ht Hi Himg)). }
  exists t, (set_tex_extension "EXTEND" (set_tex_use_alpha false tx)), i,
    (set_img_use_alpha false img).
  split; [by eapply slot_at_self|].
  split; [intros m k Hne; by eapply slot_at_other|].
  cbn. rewrite !lookup_insert_eq. repeat split; try done.
  - intros k Hk. rewrite lookup_insert_ne by done. by apply Hother.
  - intros k Hk. rewrite lookup_insert_ne by done. by apply Hiother.
Qed.

Lemma remove_texture_returns index self s mat :
  materials s !! self = Some mat → index < MAX_MTEX → slots_linked s →
  ∃ s', FnMaterial.remove_texture index self s = Some (tt, s').
Proof.
  intros E Hi Hl.
  destruct (texture_slots mat !! index) as [sl|] eqn:Hsl;
    [|eexists; by apply (remove_texture_empty _ _ _ mat)].
  destruct (slot_texture sl) as [t|] eqn:Ht.
  - destruct (Hl self index sl t) as [tx Htx]; [|done|].
    { unfold slot_at. by rewrite E. }
    eexists. exact (remove_texture_result _ _ _ _ _ _ _ E Hi Hsl Ht Htx).
  - eexists. unfold FnMaterial.remove_texture.
    rewrite (bind_Some _ _ _ _ _ (texture_slots_get_Some _ _ _ _ E Hi)).
    rewrite Hsl. cbv zeta. rewrite Ht.
    by rewrite (bind_Some _ _ _ _ _ (texture_slots_clear_Some _ _ _ _ E Hi)).
Qed.

Lemma remove_toon_texture_scene self s s' :
  FnMaterial.remove_texture FnMaterial.TOON_TEX_SLOT self s = Some (tt, s') →
  toon_removed self s s'.
Proof.
  intros H.
  apply remove_texture_inv in H
    as (mat & E & Hi & [[Hsl ->]|(_ & Hm & Hlog & Htex & Himg)]).
  - split; [unfold slot_at; by rewrite E|]. done.
  - assert (∀ m k, slot_at s' m k
                   = slot_at (with_material self
                                (without_slot FnMaterial.TOON_TEX_SLOT mat) s)
                       m k)
      as Hslots by (intros m k; unfold slot_at; by rewrite Hm).
    split; [rewrite Hslots, (slot_at_cleared _ _ _ _ _ _ E);
            by rewrite decide_True|].
    split.
    { intros m k Hne. rewrite Hslots, (slot_at_cleared _ _ _ _ _ _ E).
      rewrite decide_False; [done|]. intros [-> ->]. by apply Hne. }
    split.
    { intros t tx. destruct Htex as [->|[t0 ->]]; [done|].
      rewrite lookup_delete_Some. by intros [_ ?]. }
    split; [|done].
    intros i img. destruct Himg as [->|[i0 ->]]; [done|].
    rewrite lookup_delete_Some. by intros [_ ?].
Qed.

(** C4. [update_toon_texture] takes exactly one of three ways, chosen by
    the material's properties alone, and each leaves its own scene.  With
    [is_shared_toon_texture] set it returns with the toon texture created
    from the case-resolved join of the configured shared folder and
    [toon<NN>.bmp], NN being [shared_toon_texture + 1] in two digits
    (toon03.bmp for 2): the TOON slot then shows an IMAGE texture of an
    image for that path.  Otherwise, with a non-empty [toon_texture], it
    returns with the toon texture created from that very path.  Otherwise
    it removes the TOON slot: it returns when the slots point to stored
    textures, and whenever it returns the TOON slot is empty and nothing
    was created. *)
Theorem update_toon_texture_branches (h : Host) (s : State) (self : nat)
    (mat : Material) :
  materials s !! self = Some mat →
  let p := mmd_material mat in
  let shared_path :=
    bpy_path_resolve_ncase h
      (os_path_join h (addon_preferences h "shared_toon_folder" "")
         (FnMaterial.shared_toon_name (shared_toon_texture p))) in
  FnMaterial.shared_toon_name 2 = "toon03.bmp" ∧
  ((0 ≤ shared_toon_texture p ≤ 98)%Z →
     FnMaterial.shared_toon_name (shared_toon_texture p)
     = "toon" +:+ two_digits (shared_toon_texture p + 1) +:+ ".bmp") ∧
  (is_shared_toon_texture p = true →
     ∃ s', FnMaterial.update_toon_texture h self s = Some (tt, s') ∧
           toon_created h shared_path self s s') ∧
  (is_shared_toon_texture p = false → toon_texture p ≠ "" →
     ∃ s', FnMaterial.update_toon_texture h self s = Some (tt, s') ∧
           toon_created h (toon_texture p) self s s') ∧
  (is_shared_toon_texture p = false → toon_texture p = "" →
     (slots_linked s →
      ∃ s', FnMaterial.update_toon_texture h self s = Some (tt, s')) ∧
     ∀ s', FnMaterial.update_toon_texture h self s = Some (tt, s') →
           toon_removed self s s').
Proof.
  intros E p shared_path.
  assert (FnMaterial.TOON_TEX_SLOT < MAX_MTEX) as Hi
    by (unfold FnMaterial.TOON_TEX_SLOT, MAX_MTEX; lia).
  split; [reflexivity|]. split; [apply shared_toon_name_two_digits|].
  unfold FnMaterial.update_toon_texture.
  rewrite (bind_Some _ _ _ _ _ (the_material_Some _ _ _ E)). cbv zeta.
  fold p. fold shared_path.
  split; [|split].
  - intros ->. by apply (create_toon_texture_scene h shared_path self s mat).
  - intros -> Hpath. rewrite bool_decide_eq_true_2 by done.
    by apply (create_toon_texture_scene h (toon_texture p) self s mat).
  - intros -> Hempty.
    rewrite bool_decide_eq_false_2 by (by intros Hne).
    unfold FnMaterial.remove_toon_texture. split.
    + intros Hl. by apply (remove_texture_returns _ _ _ mat).
    + intros s'. apply remove_toon_texture_scene.
Qed.

Lemma update_toon_texture_branches_witness :
  ∃ s', FnMaterial.update_toon_texture Example.host 0 Example.scene_toon
          = Some (tt, s') ∧
        toon_created Example.host "/toons/toon03.bmp" 0 Example.scene_toon s'.
Proof.
  exact (proj1 (proj2 (proj2 (update_toon_texture_branches Example.host
                                Example.scene_toon 0 Example.shared_toon
                                eq_refl))) eq_refl).
Defined.

(** With neither a shared toon nor a toon path, the TOON slot of a
    material that shows a texture nobody else uses goes, and the texture
    and its image with it. *)
Example update_toon_texture_removes :
  (r ← FnMaterial.create_toon_texture Example.host "/proj/tex.png" 0
         Example.scene1;
   r' ← FnMaterial.update_toon_texture Example.host 0 r.2;
   Some (slot_at r.2 0 FnMaterial.TOON_TEX_SLOT ≫= slot_texture,
         slot_at r'.2 0 FnMaterial.TOON_TEX_SLOT,
         size (textures r'.2), size (images r'.2)))
  = Some (Some 0, None, 0, 0).
Proof. vm_compute. reflexivity. Qed.

(** ** Loading twice with a path the host still has to resolve *)

(** C2, as the specification states it, fails for a path that the host
    resolves to another string and the file system does not know: the
    image loaded for [//tex.png] reports [/proj/tex.png], the comparison
    of the two by [os.path.samefile] raises and counts as "not the same",
    so the second [load_image] loads the file again and returns a second
    image; likewise the second [load_texture] creates a second texture. *)
Lemma load_twice_unresolved_path :
  bpy_path_abspath Example.host "//tex.png" = "/proj/tex.png" ∧
  os_path_samefile Example.host "/proj/tex.png" "//tex.png" = None ∧
  (s1 ← FnMaterial.load_image Example.host "//tex.png" Example.scene1;
   s2 ← FnMaterial.load_image Example.host "//tex.png" s1.2;
   Some (s1.1, s2.1, size (images s2.2))) = Some (0, 1, 2) ∧
  (s1 ← FnMaterial.load_texture Example.host "//tex.png" Example.scene1;
   s2 ← FnMaterial.load_texture Example.host "//tex.png" s1.2;
   Some (s1.1, s2.1, size (textures s2.2))) = Some (0, 1, 2) ∧
  ¬ (∀ (h : Host) (p : string) (s : State),
       (∃ i s1, FnMaterial.load_image h p s = Some (i, s1) ∧
                FnMaterial.load_image h p s1 = Some (i, s1)) ∧
       (images_linked s →
        ∃ t s1, FnMaterial.load_texture h p s = Some (t, s1) ∧
                FnMaterial.load_texture h p s1 = Some (t, s1))).
Proof.
  split; [reflexivity|]. split; [reflexivity|].
  split; [vm_compute; reflexivity|]. split; [vm_compute; reflexivity|].
  intros Hall.
  destruct (Hall Example.host "//tex.png" Example.scene1)
    as [(i & s1 & H1 & H2) _].
  vm_compute in H1. injection H1 as <- <-.
  vm_compute in H2. discriminate H2.
Qed.
